(** * OSINT collection and normalization pipeline

    A shallow embedding of the Telegram collectors
    ([telegram_niemci_de4ru_osint.py], [telegram_phone_number_search.py],
    [telegram_niemci_extended_search.py],
    [telegram_extended_recruitment_berlin_2025.py]) and of the
    Elasticsearch ingestor ([ingest_elastic.py]), with the properties of
    the specification stated and settled on it.

    Conventions.  A Python [str] is a [string] holding its UTF-8 bytes:
    for valid UTF-8 the byte-level substring test coincides with Python's
    [in] on code points.  Functions of the Python standard library whose
    code is not part of the repository ([hashlib], [json.dumps],
    [str.lower], [re], the iteration order of [set]) are fields of a
    runtime class; the repository's own code is written out. *)

From Stdlib Require Import ZArith String Ascii List Lia Permutation Bool.
From stdpp Require Import base option list gmap strings pretty.
Import ListNotations.

Set Warnings "-register-all".

Local Open Scope string_scope.
Local Open Scope list_scope.
Local Open Scope Z_scope.

(** ** Python strings *)

Module PyStr.

(** [s.startswith(p)] *)
Fixpoint startswith (p s : string) : bool :=
  match p, s with
  | EmptyString, _ => true
  | String a p', String b s' => if Ascii.eqb a b then startswith p' s' else false
  | String _ _, EmptyString => false
  end.

(** [needle in hay] for two strings *)
Fixpoint contains (needle hay : string) : bool :=
  startswith needle hay ||
  match hay with
  | EmptyString => false
  | String _ hay' => contains needle hay'
  end.

(** [any(w in text for w in words)] *)
Definition any_in (words : list string) (text : string) : bool :=
  existsb (fun w => contains w text) words.

(** The number of entries of a keyword table found in [hay]. *)
Definition hits (table : list string) (hay : string) : nat :=
  length (filter (fun kw => contains kw hay = true) table).

(** [s.endswith(p)] *)
Definition endswith (p s : string) : bool :=
  let n := String.length s in
  let k := String.length p in
  (k <=? n)%nat && String.eqb (String.substring (n - k) k s) p.

(** A byte of the form 10xxxxxx continues a UTF-8 encoded character. *)
Definition is_continuation (c : ascii) : bool :=
  let n := nat_of_ascii c in (128 <=? n)%nat && (n <? 192)%nat.

(** The characters of a string, each as a one-character string: what
    iterating over a [str] yields. *)
Fixpoint chars_aux (cur : string) (s : string) : list string :=
  match s with
  | EmptyString => [cur]
  | String c s' =>
      if is_continuation c then chars_aux (cur +:+ String c EmptyString) s'
      else cur :: chars_aux (String c EmptyString) s'
  end.

Definition chars (s : string) : list string :=
  match s with
  | EmptyString => []
  | String c s' => chars_aux (String c EmptyString) s'
  end.

End PyStr.

(** ** JSON values and the Python operations the normalizers apply to them *)

(** What [json.load] returns.  A [float] is kept as its IEEE-754 binary64
    bit pattern; an object is its key/value pairs in insertion order. *)
Inductive json : Type :=
| JNull
| JBool (b : bool)
| JInt (n : Z)
| JFloat (bits : Z)
| JStr (s : string)
| JArr (items : list json)
| JObj (fields : list (string * json)).

(** Exceptions, by class; [OtherError] stands for the exceptions raised by
    collaborators (file system, JSON parser, Elasticsearch client). *)
Inductive exn : Type :=
| TypeError | AttributeError | KeyError | IndexError
| OtherError (what : string).

(** A computation that returns a value or raises. *)
Inductive outcome (E A : Type) : Type :=
| Ok (a : A)
| Raise (e : E).
Arguments Ok {E A} a.
Arguments Raise {E A} e.

Abbreviation result := (outcome exn).

Definition bind {E A B} (r : outcome E A) (k : A -> outcome E B) : outcome E B :=
  match r with
  | Ok a => k a
  | Raise e => Raise e
  end.

Declare Scope py_scope.
Delimit Scope py_scope with py.
Notation "x <- c1 ;; c2" := (bind c1 (fun x => c2))
  (at level 100, c1 at next level, right associativity) : py_scope.
Local Open Scope py_scope.

Definition result_map {E A B} (f : A -> B) (r : outcome E A) : outcome E B :=
  x <- r ;; Ok (f x).

Definition is_ok {E A} (r : outcome E A) : bool :=
  match r with Ok _ => true | Raise _ => false end.

Module Py.

(** Lookup in a dict given by its pairs. *)
Fixpoint assoc (k : string) (fields : list (string * json)) : option json :=
  match fields with
  | [] => None
  | (k', v) :: rest => if String.eqb k k' then Some v else assoc k rest
  end.

Definition isinstance_dict (v : json) : bool :=
  match v with JObj _ => true | _ => false end.

Definition isinstance_list (v : json) : bool :=
  match v with JArr _ => true | _ => false end.

Definition eq_str (k : string) (v : json) : bool :=
  match v with JStr s => String.eqb k s | _ => false end.

(** [k in v] for a string literal [k]: key test on a dict, element test
    on a list, substring test on a str, [TypeError] on anything else. *)
Definition contains (k : string) (v : json) : result bool :=
  match v with
  | JObj fields => Ok (bool_decide (is_Some (assoc k fields)))
  | JArr items => Ok (existsb (eq_str k) items)
  | JStr s => Ok (PyStr.contains k s)
  | _ => Raise TypeError
  end.

(** [v.get(k, d)]: only a dict has the method. *)
Definition get (v : json) (k : string) (d : json) : result json :=
  match v with
  | JObj fields => Ok (default d (assoc k fields))
  | _ => Raise AttributeError
  end.

(** [v[k]] for a string literal [k]. *)
Definition getitem (v : json) (k : string) : result json :=
  match v with
  | JObj fields =>
      match assoc k fields with
      | Some x => Ok x
      | None => Raise KeyError
      end
  | _ => Raise TypeError
  end.

(** The elements a [for] loop over [v] visits: the items of a list, the
    keys of a dict, the characters of a str; other values are not
    iterable. *)
Definition iter (v : json) : result (list json) :=
  match v with
  | JArr items => Ok items
  | JObj fields => Ok (map (fun kv => JStr (fst kv)) fields)
  | JStr s => Ok (map JStr (PyStr.chars s))
  | _ => Raise TypeError
  end.

(** [len(v)] *)
Definition len (v : json) : result Z :=
  match v with
  | JArr items => Ok (Z.of_nat (length items))
  | JObj fields => Ok (Z.of_nat (length fields))
  | JStr s => Ok (Z.of_nat (length (PyStr.chars s)))
  | _ => Raise TypeError
  end.

(** Truth value of [v], as tested by [if v] and [not v]. *)
Definition truthy (v : json) : bool :=
  match v with
  | JNull => false
  | JBool b => b
  | JInt n => negb (n =? 0)%Z
  | JFloat bits => negb (bits =? 0)%Z && negb (bits =? 2 ^ 63)%Z
  | JStr s => negb (String.eqb s "")
  | JArr items => negb (Nat.eqb (length items) 0)
  | JObj fields => negb (Nat.eqb (length fields) 0)
  end.

End Py.

(** ** Regular expressions and dates *)

(** The patterns of [PHONE_PATTERNS] are sequences of one-character
    classes, each with a repetition count. *)
Inductive char_class : Type :=
| Lit (c : ascii)            (** the character itself, escaped or not *)
| Digit                      (** [\d] *)
| Space                      (** [\s] *)
| SpaceOrDigit               (** [[\s\d]] *)
| Between (lo hi : ascii).   (** [[lo-hi]] *)

Record atom : Type := mkAtom {
  atom_class : char_class;
  atom_min : nat;
  atom_max : option nat;     (** [None]: unbounded, as in [*] *)
}.

Definition regex : Type := list atom.

Definition once (c : char_class) : atom := mkAtom c 1 (Some 1%nat).
Definition star (c : char_class) : atom := mkAtom c 0 None.
Definition times (n : nat) (c : char_class) : atom := mkAtom c n (Some n).
Definition between (lo hi : nat) (c : char_class) : atom := mkAtom c lo (Some hi).

(** A literal run of characters. *)
Fixpoint lits (s : string) : regex :=
  match s with
  | EmptyString => []
  | String c s' => once (Lit c) :: lits s'
  end.

(** A [datetime]: its calendar reading in seconds counted from
    1970-01-01T00:00:00, and whether it carries a time zone.  The aware
    ones are in UTC, as Telethon delivers them. *)
Record datetime : Type := mkDate {
  seconds : Z;
  aware : bool;
}.

(** ** The Python runtime

    Library functions the scripts call. *)
Class PyRuntime : Type := {
  (** [hashlib.sha256(s.encode('utf-8')).hexdigest()] *)
  sha256_hexdigest : string -> string;
  (** [json.dumps(v, sort_keys=True)] *)
  json_dumps_sort_keys : json -> string;
  (** [json.dumps(v, indent=2)] *)
  json_dumps_indent : json -> string;
  (** [f"{v}"]: the text of a value inside an f-string *)
  format_value : json -> string;
  (** [s.lower()] *)
  lower : string -> string;
  (** [os.path.join(a, b)], [os.path.dirname(p)], [os.path.basename(p)] *)
  path_join : string -> string -> string;
  path_dirname : string -> string;
  path_basename : string -> string;
  (** [datetime.now().strftime("%Y%m%d_%H%M%S")] *)
  now_strftime : string;
  (** [s.upper()] *)
  upper : string -> string;
  (** [d.isoformat()] *)
  isoformat : datetime -> string;
  (** [re.sub(r'\D', '', s)] *)
  re_sub_nondigits : string -> string;
  (** [re.findall(pattern, s)] for a pattern without groups *)
  re_findall : regex -> string -> list string;
  (** [d.strftime("%Y-%m")] *)
  strftime_year_month : datetime -> string;
}.

(** [list(set(l))]: the elements of [l] without repetition, in the
    iteration order of the set.  CPython derives that order from the
    hashes of the strings, which are salted anew for each interpreter
    process unless [PYTHONHASHSEED] is fixed. *)
Class SetOrder : Type := {
  list_of_set : list string -> list string;
  list_of_set_NoDup : forall l, NoDup (list_of_set l);
  list_of_set_elem : forall l x, x ∈ list_of_set l <-> x ∈ l;
}.

Inductive level : Type := INFO | WARNING | ERROR.

(** A call of [logging.info], [logging.warning] or [logging.error]: the
    text, and the exception the text ends with when there is one. *)
Record LogRecord : Type := mkLog {
  log_level : level;
  log_text : string;
  log_cause : option exn;
}.

Definition info (text : string) : LogRecord := mkLog INFO text None.
Definition warning (text : string) : LogRecord := mkLog WARNING text None.
Definition error (text : string) (cause : option exn) : LogRecord :=
  mkLog ERROR text cause.

(** ** The ingestor: [ingest_elastic.py] *)

(** A Document is the dict the normalizers build, key by key. *)
Definition Document : Type := list (string * json).

Module Ingest.
Section WithRuntime.

Context `{RT : PyRuntime}.

(** [now k] is [datetime.now().isoformat()] as read while the document
    number [k] of the current call is built. *)
Variable now : nat -> string.

Definition generate_doc_id (content_str : string) : string :=
  sha256_hexdigest content_str.

(** [for idx, x in enumerate(items): normalized_docs.append(body idx x)] *)
Fixpoint for_enumerate (body : nat -> json -> list Document -> result Document)
    (idx : nat) (items : list json) (normalized_docs : list Document)
    : result (list Document) :=
  match items with
  | [] => Ok normalized_docs
  | x :: rest =>
      doc <- body idx x normalized_docs ;;
      for_enumerate body (S idx) rest (normalized_docs ++ [doc])
  end.

Definition timestamp_of (normalized_docs : list Document) : json :=
  JStr (now (length normalized_docs)).

Definition normalize_serp_api_data (raw_doc : json) (filename report_id : string)
    : result (list Document) :=
  let normalized_docs := [] in
  sp <- Py.get raw_doc "search_parameters" (JObj []) ;;
  search_query <- Py.get sp "q" (JStr "") ;;
  sp <- Py.get raw_doc "search_parameters" (JObj []) ;;
  search_location <- Py.get sp "location_used" (JStr "") ;;
  organic_results <- Py.get raw_doc "organic_results" (JArr []) ;;
  items <- Py.iter organic_results ;;
  normalized_docs <-
    for_enumerate (fun idx result docs =>
      title <- Py.get result "title" (JStr "") ;;
      body <- Py.get result "snippet" (JStr "") ;;
      url <- Py.get result "link" (JStr "") ;;
      redirect_url <- Py.get result "redirect_link" (JStr "") ;;
      displayed_link <- Py.get result "displayed_link" (JStr "") ;;
      source <- Py.get result "source" (JStr "") ;;
      position <- Py.get result "position" (JInt (Z.of_nat idx + 1)) ;;
      date <- Py.get result "date" (JStr "") ;;
      favicon <- Py.get result "favicon" (JStr "") ;;
      thumbnail <- Py.get result "thumbnail" (JStr "") ;;
      video_link <- Py.get result "video_link" (JStr "") ;;
      duration <- Py.get result "duration" (JStr "") ;;
      Ok [ ("timestamp", timestamp_of docs);
           ("source_file", JStr filename);
           ("source_type", JStr "serp_api");
           ("data_type", JStr "organic_result");
           ("title", title);
           ("body", body);
           ("url", url);
           ("redirect_url", redirect_url);
           ("displayed_link", displayed_link);
           ("source", source);
           ("position", position);
           ("date", date);
           ("search_query", search_query);
           ("search_location", search_location);
           ("favicon", favicon);
           ("thumbnail", thumbnail);
           ("video_link", video_link);
           ("duration", duration);
           ("raw_source", result);
           ("report_id", JStr report_id);
           ("_id", JStr (generate_doc_id (json_dumps_sort_keys result))) ])
      0%nat items normalized_docs ;;
  related_questions <- Py.get raw_doc "related_questions" (JArr []) ;;
  items <- Py.iter related_questions ;;
  normalized_docs <-
    for_enumerate (fun idx question docs =>
      title <- Py.get question "question" (JStr "") ;;
      body <- Py.get question "snippet" (JStr "") ;;
      url <- Py.get question "link" (JStr "") ;;
      source <- Py.get question "source" (JStr "") ;;
      question_type <- Py.get question "type" (JStr "") ;;
      Ok [ ("timestamp", timestamp_of docs);
           ("source_file", JStr filename);
           ("source_type", JStr "serp_api");
           ("data_type", JStr "related_question");
           ("title", title);
           ("body", body);
           ("url", url);
           ("source", source);
           ("question_type", question_type);
           ("search_query", search_query);
           ("search_location", search_location);
           ("raw_source", question);
           ("report_id", JStr report_id);
           ("_id", JStr (generate_doc_id (json_dumps_sort_keys question))) ])
      0%nat items normalized_docs ;;
  related_searches <- Py.get raw_doc "related_searches" (JArr []) ;;
  items <- Py.iter related_searches ;;
  normalized_docs <-
    for_enumerate (fun idx search docs =>
      title <- Py.get search "query" (JStr "") ;;
      url <- Py.get search "link" (JStr "") ;;
      Ok [ ("timestamp", timestamp_of docs);
           ("source_file", JStr filename);
           ("source_type", JStr "serp_api");
           ("data_type", JStr "related_search");
           ("title", title);
           ("url", url);
           ("search_query", search_query);
           ("search_location", search_location);
           ("raw_source", search);
           ("report_id", JStr report_id);
           ("_id", JStr (generate_doc_id (json_dumps_sort_keys search))) ])
      0%nat items normalized_docs ;;
  Ok normalized_docs.

Definition normalize_telegram_osint_data (raw_doc : json) (filename report_id : string)
    : result (list Document) :=
  let normalized_docs := [] in
  search_queries <- Py.get raw_doc "search_queries" (JArr []) ;;
  channels_searched <- Py.get raw_doc "channels_searched" (JArr []) ;;
  messages <- Py.get raw_doc "messages" (JArr []) ;;
  items <- Py.iter messages ;;
  normalized_docs <-
    for_enumerate (fun idx message docs =>
      sender <- Py.get message "sender_id" (JStr "unknown") ;;
      body <- Py.get message "message" (JStr "") ;;
      url_channel <- Py.get message "channel" (JStr "unknown") ;;
      url_id <- Py.get message "id" (JStr "unknown") ;;
      channel <- Py.get message "channel" (JStr "") ;;
      sender_id <- Py.get message "sender_id" (JStr "") ;;
      date <- Py.get message "date" (JStr "") ;;
      Ok [ ("timestamp", timestamp_of docs);
           ("source_file", JStr filename);
           ("source_type", JStr "telegram");
           ("data_type", JStr "message");
           ("title", JStr ("Telegram message from " +:+ format_value sender));
           ("body", body);
           ("url", JStr ("telegram://channel/" +:+ format_value url_channel
                         +:+ "/" +:+ format_value url_id));
           ("channel", channel);
           ("sender_id", sender_id);
           ("date", date);
           ("search_queries", search_queries);
           ("channels_searched", channels_searched);
           ("raw_source", message);
           ("report_id", JStr report_id);
           ("_id", JStr (generate_doc_id (json_dumps_sort_keys message))) ])
      0%nat items normalized_docs ;;
  if negb (Py.truthy messages) then
    n_channels <- Py.len channels_searched ;;
    n_queries <- Py.len search_queries ;;
    Ok (normalized_docs ++
        [ [ ("timestamp", timestamp_of normalized_docs);
            ("source_file", JStr filename);
            ("source_type", JStr "telegram");
            ("data_type", JStr "search_summary");
            ("title", JStr "Telegram OSINT Search Summary");
            ("body", JStr ("Searched " +:+ format_value (JInt n_channels)
                           +:+ " channels with " +:+ format_value (JInt n_queries)
                           +:+ " queries. No messages found."));
            ("search_queries", search_queries);
            ("channels_searched", channels_searched);
            ("messages_found", JInt 0);
            ("raw_source", raw_doc);
            ("report_id", JStr report_id);
            ("_id", JStr (generate_doc_id (json_dumps_sort_keys raw_doc))) ] ])
  else Ok normalized_docs.

Definition normalize_comprehensive_report (raw_doc : json) (filename report_id : string)
    : result (list Document) :=
  let normalized_docs := [] in
  case_name_title <- Py.get raw_doc "case_name" (JStr "Unknown") ;;
  assessments_body <- Py.get raw_doc "critical_assessments" (JObj []) ;;
  investigation_id <- Py.get raw_doc "investigation_id" (JStr "") ;;
  case_name <- Py.get raw_doc "case_name" (JStr "") ;;
  investigation_phases <- Py.get raw_doc "investigation_phases" (JObj []) ;;
  critical_assessments <- Py.get raw_doc "critical_assessments" (JObj []) ;;
  bka_recommendations <- Py.get raw_doc "bka_recommendations" (JArr []) ;;
  hypothesis_support <- Py.get raw_doc "hypothesis_support" (JStr "") ;;
  data_sources <- Py.get raw_doc "data_sources" (JArr []) ;;
  artifacts_created <- Py.get raw_doc "artifacts_created" (JArr []) ;;
  Ok (normalized_docs ++
      [ [ ("timestamp", timestamp_of normalized_docs);
          ("source_file", JStr filename);
          ("source_type", JStr "osint_report");
          ("data_type", JStr "comprehensive_report");
          ("title", JStr ("OSINT Report: " +:+ format_value case_name_title));
          ("body", JStr (json_dumps_indent assessments_body));
          ("investigation_id", investigation_id);
          ("case_name", case_name);
          ("investigation_phases", investigation_phases);
          ("critical_assessments", critical_assessments);
          ("bka_recommendations", bka_recommendations);
          ("hypothesis_support", hypothesis_support);
          ("data_sources", data_sources);
          ("artifacts_created", artifacts_created);
          ("raw_source", raw_doc);
          ("report_id", JStr report_id);
          ("_id", JStr (generate_doc_id (json_dumps_sort_keys raw_doc))) ] ]).

(** [a and b], [b] being evaluated only when [a] is true. *)
Definition and_then (a b : result bool) : result bool :=
  x <- a ;; if x then b else Ok false.

(** [k in raw_doc] behind an [isinstance(raw_doc, dict)] guard. *)
Definition has_key (raw_doc : json) (k : string) : bool :=
  match raw_doc with
  | JObj fields => bool_decide (is_Some (Py.assoc k fields))
  | _ => false
  end.

(** The generic item of [normalize_document]'s final loop. *)
Definition normalize_item (filename report_id : string)
    (item : json) (docs : list Document) : result Document :=
  is_news <- and_then (Py.contains "source" item) (Py.contains "uri" item) ;;
  types <-
    (if is_news then Ok ("news", "article")
     else
       is_web <- Py.contains "url" item ;;
       if is_web then Ok ("web", "page") else Ok ("unknown", "unknown")) ;;
  title <- Py.get item "title" (JStr "") ;;
  content <- Py.get item "content" (JStr "") ;;
  body <- Py.get item "body" content ;;
  link <- Py.get item "link" (JStr "") ;;
  url <- Py.get item "url" link ;;
  Ok [ ("timestamp", timestamp_of docs);
       ("source_file", JStr filename);
       ("source_type", JStr (fst types));
       ("data_type", JStr (snd types));
       ("title", title);
       ("body", body);
       ("url", url);
       ("raw_source", item);
       ("report_id", JStr report_id);
       ("_id", JStr (generate_doc_id (json_dumps_sort_keys item))) ].

(** The branch [normalize_document] takes, in the order of its tests. *)
Inductive NormalizerKind : Type :=
  | SerpApi | TelegramOsint | ComprehensiveReport
  | ItemList | WrappedArticles | SingleItem | UnknownStructure.

Definition detect (raw_doc : json) : result NormalizerKind :=
  if Py.isinstance_dict raw_doc && has_key raw_doc "search_parameters"
     && has_key raw_doc "organic_results" then Ok SerpApi
  else if Py.isinstance_dict raw_doc
          && (has_key raw_doc "search_queries" || has_key raw_doc "channels_searched")
  then Ok TelegramOsint
  else if Py.isinstance_dict raw_doc && has_key raw_doc "investigation_phases"
          && has_key raw_doc "critical_assessments" then Ok ComprehensiveReport
  else if Py.isinstance_list raw_doc then Ok ItemList
  else
    wrapped <-
      (if Py.isinstance_dict raw_doc && has_key raw_doc "articles" then
         articles <- Py.getitem raw_doc "articles" ;;
         Py.contains "results" articles
       else Ok false) ;;
    if wrapped then Ok WrappedArticles
    else if Py.isinstance_dict raw_doc then Ok SingleItem
    else Ok UnknownStructure.

(** The documents returned, with the lines logged on the way. *)
Definition normalize_document (raw_doc : json)
    (filename valid_timestamp report_id : string)
    : list LogRecord * result (list Document) :=
  let normalized_docs := [] in
  match detect raw_doc with
  | Raise e => ([], Raise e)
  | Ok SerpApi =>
      ([info ("  Detected SERP API data in " +:+ filename)],
       normalize_serp_api_data raw_doc filename report_id)
  | Ok TelegramOsint =>
      ([info ("  Detected Telegram OSINT data in " +:+ filename)],
       normalize_telegram_osint_data raw_doc filename report_id)
  | Ok ComprehensiveReport =>
      ([info ("  Detected comprehensive OSINT report in " +:+ filename)],
       normalize_comprehensive_report raw_doc filename report_id)
  | Ok UnknownStructure =>
      ([warning ("Unknown JSON structure in " +:+ filename)], Ok [])
  | Ok kind =>
      ([],
       items <-
         match kind with
         | ItemList => Ok raw_doc
         | WrappedArticles =>
             articles <- Py.getitem raw_doc "articles" ;;
             Py.getitem articles "results"
         | _ => Ok (JArr [raw_doc])
         end ;;
       items <- Py.iter items ;;
       for_enumerate (fun _ => normalize_item filename report_id)
         0%nat items normalized_docs)
  end.

(** *** Vocabulary of the statements *)

Definition doc_id (d : Document) : option json := Py.assoc "_id" d.
Definition raw_source (d : Document) : option json := Py.assoc "raw_source" d.
Definition source_file (d : Document) : option json := Py.assoc "source_file" d.
Definition data_type (d : Document) : option json := Py.assoc "data_type" d.

(** The identity of a Document: its raw record and its [_id]. *)
Definition identity (d : Document) : option json * option json :=
    (raw_source d, doc_id d).

(** The [_id] of the Document is the digest of the canonical
      serialization of its raw record, and the Document names the file it
      comes from. *)
Definition content_addressed (filename : string) (d : Document) : Prop :=
    exists record,
      raw_source d = Some record
      /\ doc_id d = Some (JStr (sha256_hexdigest (json_dumps_sort_keys record)))
      /\ source_file d = Some (JStr filename).

(** *** Index creation and bulk ingestion *)

(** One entry of the list handed to [helpers.bulk]. *)
Record Action : Type := mkAction {
  action_index : string;
  action_id : json;
  action_op_type : string;
  action_source : Document;
}.

(** The Elasticsearch client: what each call answers. *)
Record EsClient : Type := {
  indices_exists : string -> result bool;
  indices_create : string -> result unit;
  helpers_bulk : list Action -> result (Z * list json);
}.

(** What a run does that can be observed from outside. *)
Inductive event : Type :=
  | Logged (r : LogRecord)
  | EsExists (index_name : string)
  | EsCreate (index_name : string)
  | EsBulk (actions : list Action).

(** The calls a trace makes to Elasticsearch: the operation, and the
      index it addresses (for a bulk write, the index of each action). *)
Definition es_calls (tr : list event) : list (string * string) :=
    flat_map (fun ev =>
                match ev with
                | Logged _ => []
                | EsExists index_name => [("exists", index_name)]
                | EsCreate index_name => [("create", index_name)]
                | EsBulk actions => map (fun a => ("bulk", action_index a)) actions
                end) tr.

(** The constant [index_mapping] passed as [body] is left out: no
      control flow depends on it. *)
Definition ensure_index_exists (es : EsClient) (index_name : string)
    : list event * result bool :=
  match indices_exists es index_name with
  | Raise e => ([EsExists index_name], Raise e)
  | Ok true =>
      ([EsExists index_name;
        Logged (info ("Index " +:+ index_name +:+ " already exists"))], Ok true)
  | Ok false =>
      match indices_create es index_name with
      | Ok _ =>
          ([EsExists index_name; EsCreate index_name;
            Logged (info ("Created index " +:+ index_name +:+ " with mappings"))],
           Ok true)
      | Raise e =>
          ([EsExists index_name; EsCreate index_name;
            Logged (error ("Failed to create index " +:+ index_name +:+ ": ") (Some e))],
           Ok false)
      end
  end.

(** [s.split(sep)] for a one-character separator. *)
Fixpoint split (sep : ascii) (s : string) : list string :=
  match s with
  | EmptyString => [EmptyString]
  | String c s' =>
      if Ascii.eqb c sep then EmptyString :: split sep s'
      else match split sep s' with
           | w :: ws => String c w :: ws
           | [] => [String c EmptyString]
           end
  end.

(** [d.pop(k)] *)
Definition pop (d : Document) (k : string) : result (json * Document) :=
  match Py.assoc k d with
  | Some v => Ok (v, filter (fun kv => negb (String.eqb k (fst kv))) d)
  | None => Raise KeyError
  end.

Record IngestState : Type := mkIngest {
  docs_to_index : list Action;
  indices_to_create : gset string;
  trace : list event;
}.

Definition logged (r : LogRecord) (st : IngestState) : IngestState :=
  mkIngest (docs_to_index st) (indices_to_create st) (trace st ++ [Logged r]).

(** [for doc in normalized: docs_to_index.append(action)]; a raise
    leaves the loop with what was appended so far. *)
Fixpoint append_actions (index_name : string) (normalized : list Document)
    (st : IngestState) : IngestState * option exn :=
  match normalized with
  | [] => (st, None)
  | doc :: rest =>
      match pop doc "_id" with
      | Raise e => (st, Some e)
      | Ok (id, doc') =>
          let action := mkAction index_name id "create" doc' in
          append_actions index_name rest
            (mkIngest (docs_to_index st ++ [action]) (indices_to_create st) (trace st))
      end
  end.

(** The body of [for file in files], with its [try]/[except]. *)
Definition ingest_file (load : string -> result json)
    (root report_ts report_id index_name file : string)
    (st : IngestState) : IngestState :=
  if PyStr.endswith ".json" file then
    let filepath := path_join root file in
    let st := logged (info ("Processing " +:+ filepath)) st in
    let failed e st :=
      logged (error ("Failed to process " +:+ filepath +:+ ": ") (Some e)) st in
    match load filepath with
    | Raise e => failed e st
    | Ok raw_content =>
        let '(lines, normalized) :=
          normalize_document raw_content filepath report_ts report_id in
        let st := fold_left (fun st r => logged r st) lines st in
        match normalized with
        | Raise e => failed e st
        | Ok normalized =>
            match append_actions index_name normalized st with
            | (st, Some e) => failed e st
            | (st, None) => st
            end
        end
    end
  else st.

(** The body of [for root, dirs, files in os.walk(base_dir)]. *)
Definition ingest_root (load : string -> result json) (index_prefix : string)
    (st : IngestState) (entry : string * list string) : IngestState :=
  let '(root, files) := entry in
  if PyStr.contains "raw_data" root || PyStr.contains "osint_construction" root then
    let report_id := path_basename (path_dirname root) in
    let report_ts :=
      match split "_"%char report_id with
      | a :: b :: _ => a +:+ "_" +:+ b
      | _ => now_strftime
      end in
    let index_name := lower (index_prefix +:+ report_ts) in
    let st := mkIngest (docs_to_index st) ({[index_name]} ∪ indices_to_create st)
                (trace st) in
    fold_left (fun st file => ingest_file load root report_ts report_id index_name file st)
      files st
  else st.

(** [for index_name in indices_to_create: ensure_index_exists(...)]: the
    value returned is dropped; a raise of [es.indices.exists] leaves
    the function. *)
Fixpoint ensure_all (es : EsClient) (names : list string) (tr : list event)
    : list event * option exn :=
  match names with
  | [] => (tr, None)
  | index_name :: rest =>
      match ensure_index_exists es index_name with
      | (evs, Raise e) => (tr ++ evs, Some e)
      | (evs, Ok _) => ensure_all es rest (tr ++ evs)
      end
  end.

(** [for i, error in enumerate(errors[:5])]: the lines logged, and the
    exception that ends the loop early when one is raised. *)
Fixpoint log_bulk_errors (i : nat) (errors : list json) : list LogRecord * option exn :=
  match errors with
  | [] => ([], None)
  | err :: rest =>
      let line :=
        has_index <- Py.contains "index" err ;;
        if has_index then
          item <- Py.getitem err "index" ;;
          doc_id <- Py.get item "_id" (JStr "unknown") ;;
          item <- Py.getitem err "index" ;;
          error_msg <- Py.get item "error" (JObj []) ;;
          error_type <- Py.get error_msg "type" (JStr "unknown") ;;
          error_reason <- Py.get error_msg "reason" (JStr "unknown") ;;
          Ok [error ("  Failed doc " +:+ format_value (JInt (Z.of_nat i + 1))
                     +:+ " (ID: " +:+ format_value doc_id +:+ "): "
                     +:+ format_value error_type +:+ " - "
                     +:+ format_value error_reason) None]
        else Ok [] in
      match line with
      | Raise e => ([], Some e)
      | Ok l =>
          let '(ls, r) := log_bulk_errors (S i) rest in (l ++ ls, r)
      end
  end.

Definition len_text {A} (l : list A) : string :=
  format_value (JInt (Z.of_nat (length l))).

Definition ingest_directory (walk : list (string * list string))
    (load : string -> result json) (base_dir : string) (es : EsClient)
    (index_prefix : string) : list event * result unit :=
  let st := mkIngest [] ∅ [Logged (info ("Scanning " +:+ base_dir +:+ " for raw data..."))] in
  let st := fold_left (ingest_root load index_prefix) walk st in
  let names := elements (indices_to_create st) in
  match ensure_all es names (trace st) with
  | (tr, Some e) => (tr, Raise e)
  | (tr, None) =>
      let docs := docs_to_index st in
      match docs with
      | [] => (tr ++ [Logged (info "No documents found to ingest.")], Ok tt)
      | _ :: _ =>
          let tr := tr ++
            [Logged (info ("Ingesting " +:+ len_text docs +:+ " documents into "
                           +:+ len_text names +:+ " index(es)..."));
             EsBulk docs] in
          let failed e := Logged (error "Bulk ingestion failed: " (Some e)) in
          match helpers_bulk es docs with
          | Raise e => (tr ++ [failed e], Ok tt)
          | Ok (success, errors) =>
              match errors with
              | [] =>
                  (tr ++ [Logged (info ("Ingestion complete. Success: "
                                        +:+ format_value (JInt success) +:+ ", Failed: 0"))],
                   Ok tt)
              | _ :: _ =>
                  let head_line :=
                    error ("Bulk ingestion completed with errors. Success: "
                           +:+ format_value (JInt success) +:+ ", Failed: "
                           +:+ len_text errors) None in
                  let '(ls, r) := log_bulk_errors 0 (take 5 errors) in
                  let tr := tr ++ map Logged (head_line :: ls) in
                  match r with
                  | Some e => (tr ++ [failed e], Ok tt)
                  | None =>
                      if (5 <? length errors)%nat then
                        (tr ++ [Logged (error ("  ... and "
                                  +:+ format_value (JInt (Z.of_nat (length errors) - 5))
                                  +:+ " more errors") None)], Ok tt)
                      else (tr, Ok tt)
                  end
              end
          end
      end
  end.

End WithRuntime.
End Ingest.

(** ** The Telegram client and what a run does with it *)

Module Tg.

(** What [client.get_entity] returns. *)
Record Entity : Type := mkEntity {
  entity_id : Z;
  title : option string;
  participants_count : option Z;
}.

(** A message of [search_result.messages] or [history.messages]. *)
Record Message : Type := mkMessage {
  id : Z;
  message : option string;
  date : datetime;
  views : Z;
  forwards : Z;
  reply_to : option Z;
  media : bool;
}.

(** What the scripts catch: an error of the client, with the text
    [str(e)] and the [seconds] a flood-wait error carries, or the
    [TypeError] of an ordering comparison between a naive and an aware
    [datetime]. *)
Inductive failure : Type :=
| Rpc (text : string) (retry_after : option Z)
| NaiveAwareCompare.

Definition str (e : failure) : string :=
  match e with
  | Rpc text _ => text
  | NaiveAwareCompare => "can't compare offset-naive and offset-aware datetimes"
  end.

(** The client answers a request by its arguments and by the number of
    requests the run has issued before it. *)
Record TelegramClient : Type := {
  get_entity : nat -> string -> outcome failure Entity;
  (** [SearchRequest(peer, q, min_date, max_date, limit=100, ...)] *)
  search_request : nat -> Entity -> string -> outcome failure (list Message);
  (** [GetHistoryRequest(peer, offset_id, offset_date, limit, ...)] *)
  get_history_request : nat -> Entity -> Z -> nat -> outcome failure (list Message);
}.

(** What a run does, in order.  [Classified] marks a call of the
    classifier on a message. *)
Inductive event : Type :=
| Resolve (channel : string)
| Search (channel query : string)
| History (channel : string) (offset_id : Z)
| Classified (channel : string) (message_id : Z)
| Sleep (milliseconds : Z).

Record World : Type := mkWorld {
  tick : nat;
  log : list event;
}.

Definition start : World := mkWorld 0 [].

Definition request (ev : event) (w : World) : World :=
  mkWorld (S (tick w)) (log w ++ [ev]).

Definition note (ev : event) (w : World) : World :=
  mkWorld (tick w) (log w ++ [ev]).

(** Readings of a log: the offsets of the history pages requested from
    a channel, the queries searched in it, the ids of its messages that
    were classified, and the sleeps. *)
Definition history_requests (channel : string) (l : list event) : list Z :=
  omap (fun ev => match ev with
                  | History c offset_id =>
                      if String.eqb c channel then Some offset_id else None
                  | _ => None
                  end) l.

Definition search_requests (channel : string) (l : list event) : list string :=
  omap (fun ev => match ev with
                  | Search c query => if String.eqb c channel then Some query else None
                  | _ => None
                  end) l.

Definition classified (channel : string) (l : list event) : list Z :=
  omap (fun ev => match ev with
                  | Classified c i => if String.eqb c channel then Some i else None
                  | _ => None
                  end) l.

Definition resolved (l : list event) : list string :=
  omap (fun ev => match ev with Resolve c => Some c | _ => None end) l.

(** A stretch of log in which a channel is searched for [queries], its
    history is requested at [offsets], and nothing is resolved. *)
Definition stretch (channel : string) (queries : list string) (offsets : list Z)
    (added : list event) : Prop :=
  search_requests channel added = queries
  /\ history_requests channel added = offsets
  /\ resolved added = [].

(** [a < b] on datetimes. *)
Definition lt (a b : datetime) : outcome failure bool :=
  if Bool.eqb (aware a) (aware b) then Ok (seconds a <? seconds b)
  else Raise NaiveAwareCompare.

Definition gt (a b : datetime) : outcome failure bool := lt b a.

(** [a >= b], [a <= b] *)
Definition ge (a b : datetime) : outcome failure bool :=
  if Bool.eqb (aware a) (aware b) then Ok (seconds b <=? seconds a)
  else Raise NaiveAwareCompare.

Definition le (a b : datetime) : outcome failure bool := ge b a.

(** [a or b], [a and b] with [b] evaluated on demand. *)
Definition or_else (a b : outcome failure bool) : outcome failure bool :=
  x <- a ;; if x then Ok true else b.

Definition and_then (a b : outcome failure bool) : outcome failure bool :=
  x <- a ;; if x then b else Ok false.

(** The text of a message when it is a non-empty str. *)
Definition text_of (msg : Message) : option string :=
  match message msg with
  | Some t => if String.eqb t "" then None else Some t
  | None => None
  end.

Section WithRuntime.
Context `{RT : PyRuntime}.

Definition compute_doc_id (channel : string) (message_id : Z) : string :=
  sha256_hexdigest (channel +:+ ":" +:+ format_value (JInt message_id)).

(** ["FLOOD" in str(e).upper()] *)
Definition is_flood (e : failure) : bool :=
  PyStr.contains "FLOOD" (upper (str e)).

End WithRuntime.
End Tg.

(** ** The classifiers

    [classify_message] of [telegram_niemci_de4ru_osint.py] and
    [score_message], [extract_phones] of [telegram_phone_number_search.py]. *)

Module Niemci.

Definition RED_FLAG_KEYWORDS : list string :=
  [ "lichterfelde"; "ostpreußendamm"; "hindenburgdamm"; "teltowkanal";
    "bäkestraße"; "goerzallee"; "heizkraftwerk"; "kraftwerk";
    "stromnetz"; "110kv"; "hochspannung"; "kabelbrücke"; "cable bridge";
    "umspannwerk"; "электросеть"; "кабельный мост";
    "pfalzburger"; "jpg recruitment"; "itaar"; "+44 77"; "+44 78"; "+44 73";
    "anastasia"; "anatoliy"; "elmira";
    "без документов"; "без опыта"; "жилье предоставляется";
    "housing provided"; "no german required"; "без немецкого";
    "strabag"; "stratieka"; "boran"; "planmann" ].

Record Classification : Type := mkClassification {
  language : string;
  recruitment_type : string;
  red_flags : list string;
  red_flag_score : Z;
  contains_phone_number : bool;
  mentions_housing : bool;
  mentions_no_language_required : bool;
}.

(** [s.count(c)] for a one-character [c]. *)
Fixpoint count (c : ascii) (s : string) : Z :=
  match s with
  | EmptyString => 0
  | String x s' => (if Ascii.eqb x c then 1 else 0) + count c s'
  end.

Definition ascii_digits : list ascii :=
  ["0"; "1"; "2"; "3"; "4"; "5"; "6"; "7"; "8"; "9"]%char.

Section WithRuntime.
Context `{RT : PyRuntime}.

(** [text.lower() if text else ""] *)
Definition lowered (text : string) : string :=
  if String.eqb text "" then "" else lower text.

Definition classify_message (text : string) : Classification :=
  let text_lower := lowered text in
  let lang :=
    if PyStr.any_in ["работа"; "вакансия"; "требуется"; "зарплата"; "опыт"] text_lower
    then "russian"
    else if PyStr.any_in ["робота"; "вакансія"; "зарплатня"] text_lower
    then "ukrainian"
    else if PyStr.any_in ["praca"; "wynagrodzenie"; "zatrudnienie"] text_lower
    then "polish"
    else if PyStr.any_in ["arbeit"; "gesucht"; "baustelle"; "gehalt"] text_lower
    then "german"
    else "other" in
  let recruitment_type :=
    if PyStr.any_in ["zeitarbeit"; "personalvermittlung"; "staffing";
                     "recruitment"; "agency"] text_lower
    then "staffing_agency"
    else if PyStr.any_in ["subunternehmer"; "nachunternehmer"; "подрядчик"] text_lower
    then "subcontractor"
    else if PyStr.any_in ["direkt"; "einstellung"; "прямой наём"; "direct"] text_lower
    then "direct_hire"
    else if PyStr.any_in ["helfer"; "подсобник"; "helper"; "pomoc"] text_lower
    then "helper_role"
    else "general" in
  let red_flags_found :=
    filter (fun kw => PyStr.contains kw text_lower = true) RED_FLAG_KEYWORDS in
  let red_flag_score := Z.min (Z.of_nat (length red_flags_found)) 10 in
  let contains_phone :=
    existsb (fun c => 5 <? count c text_lower) ascii_digits
    || PyStr.contains "+" text_lower in
  let mentions_housing :=
    PyStr.any_in ["жилье"; "проживание"; "unterkunft"; "housing"; "wohnung";
                  "zakwaterowanie"] text_lower in
  let mentions_no_language :=
    PyStr.any_in ["без немецкого"; "ohne deutsch"; "no german"; "без языка";
                  "bez języka"] text_lower in
  mkClassification lang recruitment_type red_flags_found red_flag_score
    contains_phone mentions_housing mentions_no_language.

(** *** The collector: [search_channel] and [main] *)

Definition TARGET_CHANNELS : list string :=
  [ "@Niemci"; "@de4ru"; "@de4ru_jobs"; "@de4ru_rabota";
    "@rabota_v_germanii"; "@rabotavgermanii";
    "@germany_ua"; "@ukraine_germany"; "@ukr_de"; "@praca_niemcy";
    "@rabota_berlin"; "@berlin_rabota";
    "@bau_arbeit"; "@montage_germany"; "@stroyka_germaniya";
    "@job_germany_ru"; "@niemcy_praca" ].

Definition LOCATION_QUERIES : list string :=
  [ "Lichterfelde"; "Steglitz"; "Zehlendorf"; "Süd Berlin"; "Tempelhof";
    "Hindenburgdamm"; "Ostpreußendamm"; "Лихтерфельде"; "юг Берлина"; "Штеглиц" ].

Definition INFRASTRUCTURE_QUERIES : list string :=
  [ "Stromnetz"; "Kabelverlegung"; "Elektriker Berlin"; "Monteur Berlin";
    "электрик Берлин"; "монтажник Берлин"; "кабельщик"; "кабельные работы";
    "электромонтаж"; "Tiefbau Berlin"; "высоковольтный"; "подстанция"; "Fernwärme" ].

Definition CONSTRUCTION_QUERIES : list string :=
  [ "Bauhelfer Berlin"; "Bauarbeiter Berlin"; "Gerüstbauer Berlin";
    "подсобник Берлин"; "строитель Берлин"; "без немецкого Берлин";
    "проживание Берлин"; "жилье предоставляется"; "scaffolder Berlin";
    "installer Berlin"; "Helfer Berlin" ].

Definition AGENCY_QUERIES : list string :=
  [ "JPG Recruitment"; "ITAAR"; "Sol-Tech"; "Zeitarbeit Berlin"; "staffing Berlin";
    "BauProfi"; "MetallWeld"; "Bonava Berlin"; "Anastasia"; "Anatoliy";
    "+44 7777"; "+44 7881"; "+44 7944"; "+44 7365"; "recruitment Berlin" ].

Definition SUBCONTRACTOR_QUERIES : list string :=
  [ "STRABAG Berlin"; "Stratieka"; "Boran GmbH"; "Planmann"; "BEW Berlin";
    "Vattenfall Berlin"; "Groth Gruppe" ].

Definition ALL_QUERIES : list string :=
  LOCATION_QUERIES ++ INFRASTRUCTURE_QUERIES ++ CONSTRUCTION_QUERIES
  ++ AGENCY_QUERIES ++ SUBCONTRACTOR_QUERIES.

(** [datetime(2025, 10, 1, tzinfo=timezone.utc)] and
    [datetime(2026, 1, 10, tzinfo=timezone.utc)] *)
Definition SEARCH_START : datetime := mkDate 1759276800 true.
Definition SEARCH_END : datetime := mkDate 1768003200 true.

Record MessageData : Type := mkMessageData {
  doc_id : string;
  message_id : Z;
  date : string;
  text : string;
  matched_query : string;
  views : Z;
  forwards : Z;
  reply_to : option Z;
  classification : Classification;
}.

Record ChannelData : Type := mkChannelData {
  channel : string;
  status : string;
  total_messages : Z;
  messages : list MessageData;
  errors : list string;
  channel_title : option string;
  channel_id : option Z;
  participants : option Z;
}.

(** The state of one call of [search_channel]. *)
Record Scan : Type := mkScan {
  channel_data : ChannelData;
  seen_ids : gset Z;
  world : Tg.World;
}.

Definition add_error (err : string) (sc : Scan) : Scan :=
  let d := channel_data sc in
  mkScan (mkChannelData (channel d) (status d) (total_messages d) (messages d)
            (errors d ++ [err]) (channel_title d) (channel_id d) (participants d))
         (seen_ids sc) (world sc).

Definition add_message (m : MessageData) (sc : Scan) : Scan :=
  let d := channel_data sc in
  mkScan (mkChannelData (channel d) (status d) (total_messages d) (messages d ++ [m])
            (errors d) (channel_title d) (channel_id d) (participants d))
         (seen_ids sc) (world sc).

Definition mark_seen (i : Z) (sc : Scan) : Scan :=
  mkScan (channel_data sc) ({[i]} ∪ seen_ids sc) (world sc).

Definition in_world (f : Tg.World -> Tg.World) (sc : Scan) : Scan :=
  mkScan (channel_data sc) (seen_ids sc) (f (world sc)).

Definition sleep (milliseconds : Z) : Scan -> Scan :=
  in_world (Tg.note (Tg.Sleep milliseconds)).

Definition message_data (channel_name query : string) (msg : Tg.Message)
    (body : string) (c : Classification) : MessageData :=
  mkMessageData (Tg.compute_doc_id channel_name (Tg.id msg)) (Tg.id msg)
    (isoformat (Tg.date msg)) body query (Tg.views msg) (Tg.forwards msg)
    (Tg.reply_to msg) c.

(** [for msg in search_result.messages]: the scan after the loop, the
    number of new messages, and the exception that ended the loop
    early when one was raised. *)
Fixpoint query_messages (channel_name query : string) (msgs : list Tg.Message)
    (sc : Scan) (new_count : Z) : Scan * Z * option Tg.failure :=
  match msgs with
  | [] => (sc, new_count, None)
  | msg :: rest =>
      if decide (Tg.id msg ∈ seen_ids sc)
      then query_messages channel_name query rest sc new_count
      else
        match Tg.text_of msg with
        | None => query_messages channel_name query rest sc new_count
        | Some body =>
            match Tg.or_else (Tg.lt (Tg.date msg) SEARCH_START)
                             (Tg.gt (Tg.date msg) SEARCH_END) with
            | Raise e => (sc, new_count, Some e)
            | Ok true => query_messages channel_name query rest sc new_count
            | Ok false =>
                let sc := mark_seen (Tg.id msg) sc in
                let new_count := new_count + 1 in
                let sc := in_world (Tg.note (Tg.Classified channel_name (Tg.id msg))) sc in
                let c := classify_message body in
                let sc := add_message (message_data channel_name query msg body c) sc in
                query_messages channel_name query rest sc new_count
            end
        end
  end.

(** The [except] clause of the query loop. *)
Definition query_failed (query : string) (e : Tg.failure) (sc : Scan) : Scan :=
  let sc := add_error ("Query '" +:+ query +:+ "': " +:+ Tg.str e) sc in
  if Tg.is_flood e then sleep 30000 sc else sc.

(** The body of [for query in queries]. *)
Definition run_query (client : Tg.TelegramClient) (entity : Tg.Entity)
    (channel_name : string) (sc : Scan) (query : string) : Scan :=
  let answer := Tg.search_request client (Tg.tick (world sc)) entity query in
  let sc := in_world (Tg.request (Tg.Search channel_name query)) sc in
  match answer with
  | Raise e => query_failed query e sc
  | Ok msgs =>
      match query_messages channel_name query msgs sc 0 with
      | (sc, _, Some e) => query_failed query e sc
      | (sc, _, None) => sleep 500 sc
      end
  end.

Definition history_keywords : list string :=
  [ "bau"; "elektr"; "montag"; "install"; "gerüst"; "scaffold";
    "строй"; "электр"; "монтаж"; "кабел"; "подсоб";
    "helfer"; "arbeiter"; "работ"; "вакан";
    "berlin"; "берлин" ].

(** [for msg in history.messages]: the scan after the loop, the value
    of [history_offset_id] (reset to 0 by the stop signal), the number
    of relevant messages, and the exception raised, if any. *)
Fixpoint history_messages (channel_name : string) (msgs : list Tg.Message)
    (sc : Scan) (history_offset_id batch_new : Z)
    : Scan * Z * Z * option Tg.failure :=
  match msgs with
  | [] => (sc, history_offset_id, batch_new, None)
  | msg :: rest =>
      if decide (Tg.id msg ∈ seen_ids sc)
      then history_messages channel_name rest sc history_offset_id batch_new
      else
        match Tg.text_of msg with
        | None => history_messages channel_name rest sc history_offset_id batch_new
        | Some body =>
            match Tg.lt (Tg.date msg) SEARCH_START with
            | Raise e => (sc, history_offset_id, batch_new, Some e)
            | Ok true => (sc, 0, batch_new, None)
            | Ok false =>
                match Tg.gt (Tg.date msg) SEARCH_END with
                | Raise e => (sc, history_offset_id, batch_new, Some e)
                | Ok true =>
                    history_messages channel_name rest sc history_offset_id batch_new
                | Ok false =>
                    let sc := mark_seen (Tg.id msg) sc in
                    let sc :=
                      in_world (Tg.note (Tg.Classified channel_name (Tg.id msg))) sc in
                    let c := classify_message body in
                    let text_lower := lower body in
                    let is_relevant :=
                      (0 <? red_flag_score c)
                      || PyStr.any_in history_keywords text_lower in
                    if is_relevant then
                      let sc :=
                        add_message
                          (message_data channel_name "_history_scan" msg body c) sc in
                      history_messages channel_name rest sc history_offset_id
                        (batch_new + 1)
                    else
                      history_messages channel_name rest sc history_offset_id batch_new
                end
            end
        end
  end.

Definition last_id (msgs : list Tg.Message) : Z :=
  match last msgs with
  | Some msg => Tg.id msg
  | None => 0
  end.

(** The [while True] loop of the history scan, run for at most [fuel]
    rounds; [None] when the rounds do not suffice. *)
Fixpoint history_loop (fuel : nat) (client : Tg.TelegramClient) (entity : Tg.Entity)
    (channel_name : string) (history_offset_id history_batch : Z) (sc : Scan)
    : option (Scan * option Tg.failure) :=
  match fuel with
  | O => None
  | S fuel' =>
      let answer :=
        Tg.get_history_request client (Tg.tick (world sc)) entity history_offset_id 100 in
      let sc := in_world (Tg.request (Tg.History channel_name history_offset_id)) sc in
      match answer with
      | Raise e => Some (sc, Some e)
      | Ok [] => Some (sc, None)
      | Ok msgs =>
          match history_messages channel_name msgs sc history_offset_id 0 with
          | (sc, _, _, Some e) => Some (sc, Some e)
          | (sc, history_offset_id, batch_new, None) =>
              let history_batch := history_batch + 1 in
              if history_offset_id =? 0 then Some (sc, None)
              else
                let history_offset_id := last_id msgs in
                if 20 <=? history_batch then Some (sc, None)
                else
                  let sc := sleep 300 sc in
                  history_loop fuel' client entity channel_name
                    history_offset_id history_batch sc
          end
      end
  end.

(** The [try]/[except] around the history scan. *)
Definition history_scan (fuel : nat) (client : Tg.TelegramClient) (entity : Tg.Entity)
    (channel_name : string) (sc : Scan) : option Scan :=
  match history_loop fuel client entity channel_name 0 0 sc with
  | None => None
  | Some (sc, Some e) => Some (add_error ("History scan: " +:+ Tg.str e) sc)
  | Some (sc, None) => Some sc
  end.

(** The run: the dict [results["channels"]] and the world. *)
Record Run : Type := mkRun {
  channels : gmap string ChannelData;
  run_world : Tg.World;
}.

Definition finish (sc : Scan) : ChannelData :=
  let d := channel_data sc in
  mkChannelData (channel d) (status d) (Z.of_nat (length (messages d))) (messages d)
    (errors d) (channel_title d) (channel_id d) (participants d).

Definition search_channel (fuel : nat) (client : Tg.TelegramClient)
    (channel_name : string) (queries : list string) (results : Run) : option Run :=
  let channel_data := mkChannelData channel_name "unknown" 0 [] [] None None None in
  let answer := Tg.get_entity client (Tg.tick (run_world results)) channel_name in
  let w := Tg.request (Tg.Resolve channel_name) (run_world results) in
  match answer with
  | Raise e =>
      let channel_data :=
        mkChannelData channel_name "inaccessible" 0 []
          ["Cannot access channel: " +:+ Tg.str e] None None None in
      Some (mkRun (<[channel_name := channel_data]> (channels results)) w)
  | Ok entity =>
      let channel_data :=
        mkChannelData channel_name "accessible" 0 [] []
          (Some (default channel_name (Tg.title entity)))
          (Some (Tg.entity_id entity)) (Tg.participants_count entity) in
      let sc := mkScan channel_data ∅ w in
      let sc := fold_left (run_query client entity channel_name) queries sc in
      match history_scan fuel client entity channel_name sc with
      | None => None
      | Some sc =>
          Some (mkRun (<[channel_name := finish sc]> (channels results)) (world sc))
      end
  end.

(** [for channel in TARGET_CHANNELS: await search_channel(...);
    await asyncio.sleep(1)] *)
Fixpoint search_all (fuel : nat) (client : Tg.TelegramClient)
    (targets queries : list string) (results : Run) : option Run :=
  match targets with
  | [] => Some results
  | channel_name :: rest =>
      match search_channel fuel client channel_name queries results with
      | None => None
      | Some results =>
          search_all fuel client rest queries
            (mkRun (channels results) (Tg.note (Tg.Sleep 1000) (run_world results)))
      end
  end.

(** *** Vocabulary of the statements *)

Definition message_ids (d : ChannelData) : list Z := map message_id (messages d).

(** A record built from a message whose date lies in the window. *)
Definition from_window (channel_name : string) (m : MessageData) : Prop :=
  exists msg query body,
    m = message_data channel_name query msg body (classify_message body)
    /\ aware (Tg.date msg) = true
    /\ seconds SEARCH_START <= seconds (Tg.date msg) <= seconds SEARCH_END.

(** What the loops of one call keep true: the ids classified since the
    call began ([already] were classified before it) are pairwise
    distinct, they are the ids of [seen_ids], and the ids appended to the
    result list are among them, in the same order. *)
Definition dedup_inv (channel_name : string) (already : list Z) (sc : Scan) : Prop :=
  exists new,
    Tg.classified channel_name (Tg.log (world sc)) = already ++ new
    /\ NoDup new
    /\ (forall i, i ∈ seen_ids sc <-> i ∈ new)
    /\ sublist (message_ids (channel_data sc)) new.

Definition scan_inv (channel_name : string) (already : list Z) (sc : Scan) : Prop :=
  dedup_inv channel_name already sc
  /\ Forall (from_window channel_name) (messages (channel_data sc))
  /\ channel (channel_data sc) = channel_name
  /\ status (channel_data sc) = "accessible".

(** The lines under [Channel Status:] of the printed summary, for one
    channel: its status and its number of messages. *)
Definition summary_line (results : Run) (ch_name : string) : option (string * Z) :=
  match channels results !! ch_name with
  | Some ch_data => Some (status ch_data, total_messages ch_data)
  | None => None
  end.

End WithRuntime.
End Niemci.

Module Phones.

(** [PHONE_PATTERNS], each with its source text. *)
Definition PHONE_PATTERNS : list regex :=
  [ (* \+44\s*7\d{3}\s*\d{3}\s*\d{3} *)
    lits "+44" ++ [star Space] ++ lits "7" ++ [times 3 Digit; star Space;
      times 3 Digit; star Space; times 3 Digit];
    (* \+44\s*7\d{9} *)
    lits "+44" ++ [star Space] ++ lits "7" ++ [times 9 Digit];
    (* \+46\s*7\d[\s\d]{7,10} *)
    lits "+46" ++ [star Space] ++ lits "7" ++ [once Digit; between 7 10 SpaceOrDigit];
    (* \+49\s*1[5-7]\d[\s\d]{7,10} *)
    lits "+49" ++ [star Space] ++ lits "1"
      ++ [once (Between "5" "7"); once Digit; between 7 10 SpaceOrDigit];
    (* \+49\s*30\s*\d{6,9} *)
    lits "+49" ++ [star Space] ++ lits "30" ++ [star Space; between 6 9 Digit];
    (* 7881\s*228\s*865 *)
    lits "7881" ++ [star Space] ++ lits "228" ++ [star Space] ++ lits "865";
    (* 7777\s*213\s*139 *)
    lits "7777" ++ [star Space] ++ lits "213" ++ [star Space] ++ lits "139";
    (* 7387\s*793\s*670 *)
    lits "7387" ++ [star Space] ++ lits "793" ++ [star Space] ++ lits "670";
    (* 7459\s*878\s*923 *)
    lits "7459" ++ [star Space] ++ lits "878" ++ [star Space] ++ lits "923";
    (* 7908\s*973\s*686 *)
    lits "7908" ++ [star Space] ++ lits "973" ++ [star Space] ++ lits "686";
    (* 7494\s*401\s*874 *)
    lits "7494" ++ [star Space] ++ lits "401" ++ [star Space] ++ lits "874";
    (* 1577\s*710\s*3445 *)
    lits "1577" ++ [star Space] ++ lits "710" ++ [star Space] ++ lits "3445" ].

Definition known_phones : list string :=
  [ "7881228865"; "7777213139"; "7387793670";
    "7459878923"; "7908973686"; "7494401874";
    "15777103445"; "737884015"; "88475588" ].

Definition high_entities : list string :=
  [ "jpg recruitment"; "itaar"; "pfalzburger";
    "jkbeautyinstitut"; "jk_beauty"; "bagratuni";
    "primaholding"; "voxenergie"; "sol-tech" ].

Definition person_names : list string :=
  [ "anastasia"; "anatoliy"; "elmira";
    "vukusic"; "marijana fenster"; "mario kovac" ].

Definition locations : list string :=
  [ "lichterfelde"; "stromnetz"; "steglitz";
    "110kv"; "kabelbrücke"; "ostpreußendamm" ].

Definition construction : list string :=
  [ "bauhelfer berlin"; "электрик берлин"; "монтажник берлин";
    "строитель берлин"; "кабельщик"; "scaffolder berlin";
    "strabag"; "stratieka"; "boran"; "planmann" ].

Record Scoring : Type := mkScoring {
  relevance_score : Z;
  indicators : list string;
  phones_extracted : list string;
}.

(** [for kw in table: if kw in hay: score += weight;
    indicators.append(f"{tag}:{kw}")], on the pair (score, indicators). *)
Definition scan (tag : string) (weight : Z) (table : list string) (hay : string)
    (acc : Z * list string) : Z * list string :=
  fold_left
    (fun acc kw =>
       if PyStr.contains kw hay
       then (fst acc + weight, snd acc ++ [tag +:+ ":" +:+ kw])
       else acc)
    table acc.

Section WithRuntime.
Context `{RT : PyRuntime} `{SO : SetOrder}.

Definition extract_phones (text : string) : list string :=
  let phones := flat_map (fun pattern => re_findall pattern text) PHONE_PATTERNS in
  list_of_set phones.

Definition score_message (text : string) : Scoring :=
  let text_lower := Niemci.lowered text in
  let acc := (0, []) in
  let text_digits := re_sub_nondigits text in
  let acc := scan "KNOWN_PHONE" 5 known_phones text_digits acc in
  let acc := scan "ENTITY" 3 high_entities text_lower acc in
  let acc := scan "PERSON" 2 person_names text_lower acc in
  let acc := scan "LOCATION" 2 locations text_lower acc in
  let acc := scan "CONSTRUCTION" 1 construction text_lower acc in
  let phones_found := extract_phones text in
  mkScoring (Z.min (fst acc) 20) (snd acc) phones_found.

(** *** The collector: [search_channel_phones] and [main] *)

Definition TARGET_CHANNELS : list string :=
  [ "@Niemci"; "@rabota_v_germanii"; "@rabotavgermanii"; "@germany_ua";
    "@ukraine_germany"; "@ukr_de"; "@rabota_berlin"; "@bau_arbeit";
    "@job_germany_ru"; "@rabota_za_granicey"; "@work_europe_ru";
    "@rabota_europe"; "@job_berlin"; "@layboard" ].

Definition PHONE_QUERIES : list string :=
  [ "+49 30 88475588"; "88475588"; "jkbeautyinstitut"; "jk_beautyinstitut";
    "contact@jkbeautyinstitut.de"; "Pfalzburger";
    "+44 7881 228865"; "7881228865"; "+44 7777 213139"; "7777213139";
    "+44 7387 793670"; "7387793670"; "+44 7459 878923"; "7459878923";
    "+44 7908 973686"; "7908973686"; "+44 7494 401874"; "7494401874";
    "+46 73 788 40 15"; "737884015";
    "+49 1577 7103445"; "15777103445";
    "JPG Recruitment"; "JPG Recruit"; "ITAAR"; "ITAAR Recruitment"; "Sol-Tech" ].

Definition ENTITY_QUERIES : list string :=
  [ "Anastasia"; "Anatoliy"; "Elmira";
    "Bagratuni"; "Dimitri Bagratuni"; "primaholding"; "voxenergie"; "nowenergy";
    "primastrom"; "primacall"; "primasales"; "Vukusic"; "Marijana Fenster";
    "Mario Kovac";
    "STRABAG"; "Stratieka"; "Boran GmbH"; "Planmann";
    "Großbeerenstraße"; "Großbeerenstr" ].

Definition BERLIN_CONSTRUCTION_QUERIES : list string :=
  [ "Lichterfelde"; "Steglitz Berlin"; "Stromnetz Berlin"; "Kabelverlegung Berlin";
    "Электрик Берлин"; "электромонтаж Берлин"; "кабельщик Берлин";
    "монтажник Берлин" ].

Definition ALL_QUERIES : list string :=
  PHONE_QUERIES ++ ENTITY_QUERIES ++ BERLIN_CONSTRUCTION_QUERIES.

Record MessageData : Type := mkMessageData {
  doc_id : string;
  message_id : Z;
  date : string;
  text : string;
  matched_query : string;
  views : Z;
  forwards : Z;
  scoring : Scoring;
}.

Record ChannelData : Type := mkChannelData {
  channel : string;
  status : string;
  total_messages : Z;
  messages : list MessageData;
  channel_title : option string;
  channel_id : option Z;
}.

Record Scan : Type := mkScan {
  channel_data : ChannelData;
  seen_ids : gset Z;
  world : Tg.World;
}.

Definition add_message (m : MessageData) (sc : Scan) : Scan :=
  let d := channel_data sc in
  mkScan (mkChannelData (channel d) (status d) (total_messages d) (messages d ++ [m])
            (channel_title d) (channel_id d))
         (seen_ids sc) (world sc).

Definition mark_seen (i : Z) (sc : Scan) : Scan :=
  mkScan (channel_data sc) ({[i]} ∪ seen_ids sc) (world sc).

Definition in_world (f : Tg.World -> Tg.World) (sc : Scan) : Scan :=
  mkScan (channel_data sc) (seen_ids sc) (f (world sc)).

Definition sleep (milliseconds : Z) : Scan -> Scan :=
  in_world (Tg.note (Tg.Sleep milliseconds)).

(** [for msg in search_result.messages] *)
Fixpoint query_messages (channel_name query : string) (msgs : list Tg.Message)
    (sc : Scan) (new_count : Z) : Scan * Z :=
  match msgs with
  | [] => (sc, new_count)
  | msg :: rest =>
      if decide (Tg.id msg ∈ seen_ids sc)
      then query_messages channel_name query rest sc new_count
      else
        match Tg.text_of msg with
        | None => query_messages channel_name query rest sc new_count
        | Some body =>
            let sc := mark_seen (Tg.id msg) sc in
            let new_count := new_count + 1 in
            let sc := in_world (Tg.note (Tg.Classified channel_name (Tg.id msg))) sc in
            let scoring := score_message body in
            let message_data :=
              mkMessageData (Tg.compute_doc_id channel_name (Tg.id msg)) (Tg.id msg)
                (isoformat (Tg.date msg)) body query (Tg.views msg) (Tg.forwards msg)
                scoring in
            query_messages channel_name query rest (add_message message_data sc) new_count
        end
  end.

(** The body of [for query in ALL_QUERIES], with its [try]/[except]. *)
Definition run_query (client : Tg.TelegramClient) (entity : Tg.Entity)
    (channel_name : string) (sc : Scan) (query : string) : Scan :=
  let answer := Tg.search_request client (Tg.tick (world sc)) entity query in
  let sc := in_world (Tg.request (Tg.Search channel_name query)) sc in
  match answer with
  | Raise e => if Tg.is_flood e then sleep 30000 sc else sc
  | Ok msgs => sleep 500 (fst (query_messages channel_name query msgs sc 0))
  end.

Record Run : Type := mkRun {
  channels : gmap string ChannelData;
  run_world : Tg.World;
}.

Definition finish (sc : Scan) : ChannelData :=
  let d := channel_data sc in
  mkChannelData (channel d) (status d) (Z.of_nat (length (messages d))) (messages d)
    (channel_title d) (channel_id d).

Definition search_channel_phones (client : Tg.TelegramClient)
    (channel_name : string) (results : Run) : Run :=
  let answer := Tg.get_entity client (Tg.tick (run_world results)) channel_name in
  let w := Tg.request (Tg.Resolve channel_name) (run_world results) in
  match answer with
  | Raise e =>
      let channel_data := mkChannelData channel_name "inaccessible" 0 [] None None in
      mkRun (<[channel_name := channel_data]> (channels results)) w
  | Ok entity =>
      let channel_data :=
        mkChannelData channel_name "accessible" 0 []
          (Some (default channel_name (Tg.title entity))) (Some (Tg.entity_id entity)) in
      let sc := mkScan channel_data ∅ w in
      let sc := fold_left (run_query client entity channel_name) ALL_QUERIES sc in
      mkRun (<[channel_name := finish sc]> (channels results)) (world sc)
  end.

(** *** Vocabulary of the statements *)

Definition message_ids (d : ChannelData) : list Z := map message_id (messages d).

(** What the loops of one call keep true: the ids classified since the
    call began are pairwise distinct, they are the ids of [seen_ids], and
    they are the ids of the result list, in order. *)
Definition dedup_inv (channel_name : string) (already : list Z) (sc : Scan) : Prop :=
  exists new,
    Tg.classified channel_name (Tg.log (world sc)) = already ++ new
    /\ NoDup new
    /\ (forall i, i ∈ seen_ids sc <-> i ∈ new)
    /\ message_ids (channel_data sc) = new
    /\ channel (channel_data sc) = channel_name
    /\ status (channel_data sc) = "accessible".

(** [for channel in TARGET_CHANNELS: await search_channel_phones(...);
    await asyncio.sleep(1)] *)
Definition search_all (client : Tg.TelegramClient) (targets : list string)
    (results : Run) : Run :=
  fold_left
    (fun results channel_name =>
       let results := search_channel_phones client channel_name results in
       mkRun (channels results) (Tg.note (Tg.Sleep 1000) (run_world results)))
    targets results.

End WithRuntime.
End Phones.

(** ** The extended searches

    [search_niemci_extended] of [telegram_niemci_extended_search.py] and
    [extended_telegram_search] of
    [telegram_extended_recruitment_berlin_2025.py]. *)

Module NiemciExtended.

(** [datetime(2025, 1, 1, tzinfo=timezone.utc)] and
    [datetime(2025, 12, 31, 23, 59, 59, tzinfo=timezone.utc)] *)
Definition SEARCH_START_DATE : datetime := mkDate 1735689600 true.
Definition SEARCH_END_DATE : datetime := mkDate 1767225599 true.

Definition TARGET_CHANNEL : string := "@Niemci".

(** [for msg in history.messages: if msg.date >= SEARCH_START_DATE and
    msg.date <= SEARCH_END_DATE: all_messages.append(msg)] *)
Fixpoint keep_in_window (msgs all_messages : list Tg.Message)
    : list Tg.Message * option Tg.failure :=
  match msgs with
  | [] => (all_messages, None)
  | msg :: rest =>
      match Tg.and_then (Tg.ge (Tg.date msg) SEARCH_START_DATE)
                        (Tg.le (Tg.date msg) SEARCH_END_DATE) with
      | Raise e => (all_messages, Some e)
      | Ok true => keep_in_window rest (all_messages ++ [msg])
      | Ok false => keep_in_window rest all_messages
      end
  end.

(** Where the retrieval stands: the messages kept, the world, and
    whether the loop has been left. *)
Record Retrieval : Type := mkRetrieval {
  all_messages : list Tg.Message;
  world : Tg.World;
  finished : bool;
}.

(** The [while True] loop that retrieves the history, followed for at
    most [fuel] rounds.  An exception inside a round is printed and
    leaves the loop. *)
Fixpoint retrieve_history (fuel : nat) (client : Tg.TelegramClient)
    (channel : Tg.Entity) (offset_id : Z) (all_messages : list Tg.Message)
    (w : Tg.World) : Retrieval :=
  match fuel with
  | O => mkRetrieval all_messages w false
  | S fuel' =>
      let answer := Tg.get_history_request client (Tg.tick w) channel offset_id 100 in
      let w := Tg.request (Tg.History TARGET_CHANNEL offset_id) w in
      match answer with
      | Raise e => mkRetrieval all_messages w true
      | Ok [] => mkRetrieval all_messages w true
      | Ok msgs =>
          match keep_in_window msgs all_messages with
          | (all_messages, Some e) => mkRetrieval all_messages w true
          | (all_messages, None) =>
              if (length msgs <? 100)%nat then mkRetrieval all_messages w true
              else retrieve_history fuel' client channel (Niemci.last_id msgs)
                     all_messages w
          end
      end
  end.

(** A message whose date lies in the window of the search. *)
Definition in_window (msg : Tg.Message) : Prop :=
  aware (Tg.date msg) = true
  /\ seconds SEARCH_START_DATE <= seconds (Tg.date msg) <= seconds SEARCH_END_DATE.

(** The messages the analysis that follows appends to
    [results["messages"]]: those of [all_messages] with a text. *)
Definition analysed (all_messages : list Tg.Message) : list Tg.Message :=
  List.filter (fun msg => bool_decide (is_Some (Tg.text_of msg))) all_messages.

End NiemciExtended.

Module Recruitment.

(** [datetime(2025, 1, 1)] and [datetime(2025, 12, 31)]: no time zone. *)
Definition SEARCH_START_DATE : datetime := mkDate 1735689600 false.
Definition SEARCH_END_DATE : datetime := mkDate 1767139200 false.

Definition ADDITIONAL_QUERIES : list string :=
  [ "вербовка Берлин"; "работа в Германии 2025"; "трудоустройство Берлин";
    "строительные вакансии Берлин"; "электрики в Германию";
    "работа без визы Германия"; "легализация в Германии";
    "помощь с документами Германия"; "строительная бригада Берлин";
    "высокооплачиваемая работа Берлин";
    "Русские в Берлине работа"; "соотечественники Германия работа";
    "русскоязычные вакансии Берлин";
    "электроподстанция"; "кабельные сети"; "энергетика Германия";
    "ремонт сетей Берлин";
    "кадровое агентство Берлин"; "подбор персонала Берлин";
    "аренда рабочих Германия";
    "ватник Берлин работа"; "Z-патриоты Германия"; "русский мир Берлин" ].

Definition ADDITIONAL_CHANNELS : list string :=
  [ "@russiangermany"; "@germany_ru"; "@berlin_ru"; "@moskva_berlin";
    "@russians_berlin"; "@deutschland_ru";
    "@rabota_eu"; "@rabota_germany"; "@rabota_berlin_ru"; "@vakansii_germany";
    "@job_germany"; "@arbeit_ru";
    "@stroyka_eu"; "@elektrik_eu"; "@montazhniki_eu"; "@santehnik_eu";
    "@str builders_germany";
    "@ukrainians_germany"; "@ukrainegermany"; "@ua_de_work";
    "@germania_job"; "@eu_rabota"; "@work_europe_ru"; "@europe_jobs_ru";
    "@germania_vakansii" ].

Record MessageData : Type := mkMessageData {
  channel : string;
  message_id : Z;
  date : string;
  text : option string;
  query : string;
  views : Z;
  forwards : Z;
  language : string;
}.

Record Statistics : Type := mkStatistics {
  total_messages : Z;
  by_channel : gmap string Z;
  by_query : gmap string Z;
  by_language : gmap string Z;
  by_month : gmap string Z;
}.

Record Results : Type := mkResults {
  accessible_channels : list (string * string * Z);
  inaccessible_channels : list (string * string);
  messages : list MessageData;
  statistics : Statistics;
}.

(** [d[k] = d.get(k, 0) + n] *)
Definition bump (k : string) (n : Z) (d : gmap string Z) : gmap string Z :=
  <[k := default 0 (d !! k) + n]> d.

Definition initial : Results :=
  mkResults [] [] []
    (mkStatistics 0 ∅ ∅
       (list_to_map [("russian", 0); ("ukrainian", 0); ("german", 0); ("other", 0)]) ∅).

(** The state inside the loop over the channels. *)
Record State : Type := mkState {
  results : Results;
  channel_messages : list MessageData;
  world : Tg.World;
}.

Section WithRuntime.
Context `{RT : PyRuntime}.

Definition in_window (msg : Tg.Message) : outcome Tg.failure bool :=
  Tg.and_then (Tg.ge (Tg.date msg) SEARCH_START_DATE)
              (Tg.le (Tg.date msg) SEARCH_END_DATE).

(** Counting the language and the month, then appending the message
    to [channel_messages] and to [results["messages"]]. *)
Definition record_message (msg : Tg.Message) (m : MessageData) (st : State) : State :=
  let r := results st in
  let s := statistics r in
  let s := mkStatistics (total_messages s) (by_channel s) (by_query s)
             (bump (language m) 1 (by_language s))
             (bump (strftime_year_month (Tg.date msg)) 1 (by_month s)) in
  mkState (mkResults (accessible_channels r) (inaccessible_channels r)
             (messages r ++ [m]) s)
          (channel_messages st ++ [m]) (world st).

Definition lowered (t : option string) : string :=
  match t with
  | Some t => if String.eqb t "" then "" else lower t
  | None => ""
  end.

(** [for message in history.messages] *)
Fixpoint history_messages (channel_username : string) (msgs : list Tg.Message)
    (st : State) : State * option Tg.failure :=
  match msgs with
  | [] => (st, None)
  | msg :: rest =>
      match in_window msg with
      | Raise e => (st, Some e)
      | Ok false => history_messages channel_username rest st
      | Ok true =>
          let text := lowered (Tg.message msg) in
          let lang :=
            if PyStr.any_in ["работа"; "вакансия"; "требуется"; "зарплата";
                             "трудоустройство"] text then "russian"
            else if PyStr.any_in ["робота"; "вакансія"; "зарплата"] text then "ukrainian"
            else if PyStr.any_in ["arbeit"; "stelle"; "gesucht"] text then "german"
            else "other" in
          let m := mkMessageData channel_username (Tg.id msg) (isoformat (Tg.date msg))
                     (Tg.message msg) "_history_scan" (Tg.views msg) (Tg.forwards msg)
                     lang in
          history_messages channel_username rest (record_message msg m st)
      end
  end.

(** [for message in result.messages] *)
Fixpoint query_messages (channel_username query : string) (msgs : list Tg.Message)
    (st : State) : State * option Tg.failure :=
  match msgs with
  | [] => (st, None)
  | msg :: rest =>
      match in_window msg with
      | Raise e => (st, Some e)
      | Ok false => query_messages channel_username query rest st
      | Ok true =>
          let existing_ids :=
            map (fun m => (channel m, message_id m)) (channel_messages st) in
          if decide ((channel_username, Tg.id msg) ∈ existing_ids)
          then query_messages channel_username query rest st
          else
            let text := lowered (Tg.message msg) in
            let lang :=
              if PyStr.any_in ["работа"; "вакансия"; "требуется"] text then "russian"
              else if PyStr.any_in ["робота"; "вакансія"] text then "ukrainian"
              else "other" in
            let m := mkMessageData channel_username (Tg.id msg)
                       (isoformat (Tg.date msg)) (Tg.message msg) query
                       (Tg.views msg) (Tg.forwards msg) lang in
            query_messages channel_username query rest (record_message msg m st)
      end
  end.

(** [len([m for m in result.messages if ... in window])] *)
Fixpoint count_in_window (msgs : list Tg.Message) : outcome Tg.failure Z :=
  match msgs with
  | [] => Ok 0
  | msg :: rest =>
      b <- in_window msg ;;
      n <- count_in_window rest ;;
      Ok ((if b then 1 else 0) + n)
  end.

Definition in_world (f : Tg.World -> Tg.World) (st : State) : State :=
  mkState (results st) (channel_messages st) (f (world st)).

Definition with_statistics (f : Statistics -> Statistics) (st : State) : State :=
  let r := results st in
  mkState (mkResults (accessible_channels r) (inaccessible_channels r) (messages r)
             (f (statistics r)))
          (channel_messages st) (world st).

(** The body of [for query in ADDITIONAL_QUERIES]; an exception is
    printed and the loop goes on. *)
Definition run_query (client : Tg.TelegramClient) (entity : Tg.Entity)
    (channel_username : string) (st : State) (query : string) : State :=
  let answer := Tg.search_request client (Tg.tick (world st)) entity query in
  let st := in_world (Tg.request (Tg.Search channel_username query)) st in
  match answer with
  | Raise e => st
  | Ok msgs =>
      match query_messages channel_username query msgs st with
      | (st, Some e) => st
      | (st, None) =>
          match count_in_window msgs with
          | Raise e => st
          | Ok query_count =>
              with_statistics
                (fun s => mkStatistics (total_messages s) (by_channel s)
                            (bump query query_count (by_query s))
                            (by_language s) (by_month s)) st
          end
      end
  end.

(** The history scan of one channel, inside its own [try]. *)
Definition scan_history (client : Tg.TelegramClient) (entity : Tg.Entity)
    (channel_username : string) (st : State) : State :=
  let answer := Tg.get_history_request client (Tg.tick (world st)) entity 0 200 in
  let st := in_world (Tg.request (Tg.History channel_username 0)) st in
  match answer with
  | Raise e => st
  | Ok msgs => fst (history_messages channel_username msgs st)
  end.

Definition set_by_channel (channel_username : string) (n : Z) : State -> State :=
  with_statistics
    (fun s => mkStatistics (total_messages s)
                (<[channel_username := n]> (by_channel s))
                (by_query s) (by_language s) (by_month s)).

(** What the scans of a resolved channel leave as it was: the counts by
    channel, the list of inaccessible channels, and the channels
    resolved so far. *)
Definition frame (st : State) : gmap string Z * list (string * string) * list string :=
  (by_channel (statistics (results st)), inaccessible_channels (results st),
   Tg.resolved (Tg.log (world st))).

(** The body of [for channel_username in ADDITIONAL_CHANNELS]. *)
Definition search_one (client : Tg.TelegramClient) (r : Results * Tg.World)
    (channel_username : string) : Results * Tg.World :=
  let '(r, w) := r in
  let answer := Tg.get_entity client (Tg.tick w) channel_username in
  let w := Tg.request (Tg.Resolve channel_username) w in
  match answer with
  | Raise e =>
      let st := mkState
        (mkResults (accessible_channels r)
           (inaccessible_channels r ++ [(channel_username, Tg.str e)])
           (messages r) (statistics r)) [] w in
      let st := set_by_channel channel_username 0 st in
      (results st, world st)
  | Ok entity =>
      let st := mkState r [] w in
      let st := scan_history client entity channel_username st in
      let st := fold_left (run_query client entity channel_username)
                  ADDITIONAL_QUERIES st in
      let n := Z.of_nat (length (channel_messages st)) in
      let st := set_by_channel channel_username n st in
      let r := results st in
      (mkResults
         (accessible_channels r ++
            [(channel_username, default channel_username (Tg.title entity), n)])
         (inaccessible_channels r) (messages r) (statistics r),
       world st)
  end.

(** The loop over the channels, and the total written after it. *)
Definition extended_telegram_search (client : Tg.TelegramClient)
    (targets : list string) : Results * Tg.World :=
  let '(r, w) := fold_left (search_one client) targets (initial, Tg.start) in
  let s := statistics r in
  (mkResults (accessible_channels r) (inaccessible_channels r) (messages r)
     (mkStatistics (Z.of_nat (length (messages r))) (by_channel s) (by_query s)
        (by_language s) (by_month s)),
   w).

End WithRuntime.
End Recruitment.

(** ** A small runtime for running the model on examples

    Plain ASCII texts only: JSON is printed without escapes and with
    integers only, letter case is changed on the 26 Latin letters, and the
    digest is kept symbolic; strings are quoted with ['] and paths are
    split at [/]. *)

Module Toy.

Definition lower_ascii (c : ascii) : ascii :=
  let n := nat_of_ascii c in
  if (65 <=? n)%nat && (n <=? 90)%nat then ascii_of_nat (n + 32) else c.

Definition upper_ascii (c : ascii) : ascii :=
  let n := nat_of_ascii c in
  if (97 <=? n)%nat && (n <=? 122)%nat then ascii_of_nat (n - 32) else c.

Fixpoint map_string (f : ascii -> ascii) (s : string) : string :=
  match s with
  | EmptyString => EmptyString
  | String c s' => String (f c) (map_string f s')
  end.

Definition quote (s : string) : string := "'" +:+ s +:+ "'".

Fixpoint join (sep : string) (l : list string) : string :=
  match l with
  | [] => ""
  | [x] => x
  | x :: rest => x +:+ sep +:+ join sep rest
  end.

Fixpoint insert_sorted (kv : string * string) (l : list (string * string))
    : list (string * string) :=
  match l with
  | [] => [kv]
  | kv' :: rest =>
      if String.leb (fst kv) (fst kv') then kv :: l
      else kv' :: insert_sorted kv rest
  end.

Definition sort_fields (l : list (string * string)) : list (string * string) :=
  fold_right insert_sorted [] l.

Fixpoint dumps (sorted : bool) (v : json) : string :=
  match v with
  | JNull => "null"
  | JBool true => "true"
  | JBool false => "false"
  | JInt n => pretty n
  | JFloat bits => "float:" +:+ pretty bits
  | JStr s => quote s
  | JArr items => "[" +:+ join ", " (map (dumps sorted) items) +:+ "]"
  | JObj fields =>
      let shown :=
        (fix go (fs : list (string * json)) : list (string * string) :=
           match fs with
           | [] => []
           | (k, x) :: rest => (k, dumps sorted x) :: go rest
           end) fields in
      let shown := if sorted then sort_fields shown else shown in
      "{" +:+ join ", " (map (fun kv => quote (fst kv) +:+ ": " +:+ snd kv) shown) +:+ "}"
  end.

Definition format (v : json) : string :=
  match v with
  | JStr s => s
  | _ => dumps false v
  end.

Definition is_digit (c : ascii) : bool :=
  let n := nat_of_ascii c in (48 <=? n)%nat && (n <=? 57)%nat.

Definition is_space (c : ascii) : bool :=
  let n := nat_of_ascii c in
  Nat.eqb n 32 || ((9 <=? n)%nat && (n <=? 13)%nat).

Fixpoint digits_only (s : string) : string :=
  match s with
  | EmptyString => EmptyString
  | String c s' => if is_digit c then String c (digits_only s') else digits_only s'
  end.

Definition in_class (cl : char_class) (c : ascii) : bool :=
  match cl with
  | Lit x => Ascii.eqb x c
  | Digit => is_digit c
  | Space => is_space c
  | SpaceOrDigit => is_space c || is_digit c
  | Between lo hi =>
      (nat_of_ascii lo <=? nat_of_ascii c)%nat && (nat_of_ascii c <=? nat_of_ascii hi)%nat
  end.

(** Length of the longest run of [cl] at the head of [s], up to [bound]. *)
Fixpoint run (cl : char_class) (bound : option nat) (s : string) : nat :=
  match s with
  | EmptyString => 0%nat
  | String c s' =>
      match bound with
      | Some O => 0%nat
      | Some (S b) => if in_class cl c then S (run cl (Some b) s') else 0%nat
      | None => if in_class cl c then S (run cl None s') else 0%nat
      end
  end.

Fixpoint drop_string (n : nat) (s : string) : string :=
  match n, s with
  | S n', String _ s' => drop_string n' s'
  | _, _ => s
  end.

(** Greedy repetition with backtracking: the longest count first. *)
Fixpoint try_counts (k : nat -> option nat) (n lo : nat) : option nat :=
  if (n <? lo)%nat then None
  else match k n with
       | Some m => Some (n + m)%nat
       | None => match n with
                 | O => None
                 | S n' => try_counts k n' lo
                 end
       end.

(** Length of the match of [r] at the head of [s], if there is one. *)
Fixpoint match_here (r : regex) (s : string) : option nat :=
  match r with
  | [] => Some 0%nat
  | a :: rest =>
      try_counts (fun n => match_here rest (drop_string n s))
        (run (atom_class a) (atom_max a) s) (atom_min a)
  end.

(** Leftmost matches, none overlapping another. *)
Fixpoint findall_from (fuel : nat) (r : regex) (s : string) : list string :=
  match fuel with
  | O => []
  | S fuel' =>
      match match_here r s with
      | Some (S n) =>
          String.substring 0 (S n) s :: findall_from fuel' r (drop_string (S n) s)
      | Some O => "" :: match s with
                        | EmptyString => []
                        | String _ s' => findall_from fuel' r s'
                        end
      | None => match s with
                | EmptyString => []
                | String _ s' => findall_from fuel' r s'
                end
      end
  end.

Definition findall (r : regex) (s : string) : list string :=
  findall_from (S (String.length s)) r s.

Definition dirname (p : string) : string :=
  join "/" (removelast (Ingest.split "/"%char p)).

Definition basename (p : string) : string :=
  default "" (last (Ingest.split "/"%char p)).

#[global] Instance runtime : PyRuntime := {|
  sha256_hexdigest s := "sha256(" +:+ s +:+ ")";
  json_dumps_sort_keys := dumps true;
  json_dumps_indent := dumps false;
  format_value := format;
  lower := map_string lower_ascii;
  path_join a b := a +:+ "/" +:+ b;
  path_dirname := dirname;
  path_basename := basename;
  now_strftime := "20260101_000000";
  upper := map_string upper_ascii;
  isoformat d := pretty (seconds d);
  re_sub_nondigits := digits_only;
  re_findall := findall;
  strftime_year_month d := pretty (seconds d / 2629746);
|}.

Definition clock (k : nat) : string := "t" +:+ pretty k.

End Toy.

(** ** Scenarios: clients and inputs on which the model is run *)

Module Scenario.

Definition entity : Tg.Entity := Tg.mkEntity 1263846030 (Some "Layboard") (Some 5000).

Definition no_such_channel : Tg.failure :=
  Tg.Rpc "Cannot find any entity corresponding to the username" None.

(** A server that knows every channel but [@b] and has no messages. *)
Definition quiet_client : Tg.TelegramClient := {|
  Tg.get_entity _ name :=
    if String.eqb name "@b" then Raise no_such_channel else Ok entity;
  Tg.search_request _ _ _ := Ok [];
  Tg.get_history_request _ _ _ _ := Ok [];
|}.

(** A post of 2025-11-01 with a text, and a media-only post. *)
Definition post (i : Z) (body : string) : Tg.Message :=
  Tg.mkMessage i (Some body) (mkDate 1761955200 true) 10 0 None false.

Definition media_only (i : Z) : Tg.Message :=
  Tg.mkMessage i None (mkDate 1761955200 true) 10 0 None true.

(** A server that answers every search with the same two posts, one of
    them without text. *)
Definition repeating_client : Tg.TelegramClient := {|
  Tg.get_entity _ _ := Ok entity;
  Tg.search_request _ _ _ := Ok [post 41 "Bauhelfer Berlin gesucht"; media_only 7];
  Tg.get_history_request _ _ _ _ := Ok [post 41 "Bauhelfer Berlin gesucht"];
|}.

(** A server that answers every search with a media-only post. *)
Definition media_client : Tg.TelegramClient := {|
  Tg.get_entity _ _ := Ok entity;
  Tg.search_request _ _ _ := Ok [media_only 7];
  Tg.get_history_request _ _ _ _ := Ok [];
|}.

(** A flood-wait error that asks for 60 seconds. *)
Definition flood_wait : Tg.failure := Tg.Rpc "RPCError 420: FLOOD_WAIT_60" (Some 60).

(** A server that rate-limits the search for [q1]. *)
Definition flooding_client : Tg.TelegramClient := {|
  Tg.get_entity _ _ := Ok entity;
  Tg.search_request _ _ query :=
    if String.eqb query "q1" then Raise flood_wait else Ok [];
  Tg.get_history_request _ _ _ _ := Ok [];
|}.




(** Two search-result payloads, for different queries, that hold the
    same organic result. *)
Definition organic : json :=
  JObj [("title", JStr "Grid outage"); ("link", JStr "https://example.org/a")].

Definition serp_payload (q : string) (before : list json) : json :=
  JObj [("search_parameters", JObj [("q", JStr q)]);
        ("organic_results", JArr (before ++ [organic]))].

(** A report directory with one file, which holds one web page; and an
    Elasticsearch server on which no index exists and none can be
    created, but which accepts bulk writes. *)
Definition report_root : string := "reports/20260204_110300_berlin/raw_data".

Definition one_file_walk : list (string * list string) := [(report_root, ["page.json"])].

Definition page : json :=
  JObj [("title", JStr "Grid outage"); ("url", JStr "https://example.org/a")].

Definition load_page (filepath : string) : result json := Ok page.

Definition creation_refused : exn := OtherError "cluster_block_exception".

Definition no_index_client : Ingest.EsClient := {|
  Ingest.indices_exists _ := Ok false;
  Ingest.indices_create _ := Raise creation_refused;
  Ingest.helpers_bulk actions := Ok (Z.of_nat (length actions), []);
|}.

(** The state in which the loops of a call start on channel [@c]. *)
Definition fresh_scan : Niemci.Scan :=
  Niemci.mkScan (Niemci.mkChannelData "@c" "accessible" 0 [] [] None None None) ∅ Tg.start.

Definition fresh_phone_scan : Phones.Scan :=
  Phones.mkScan (Phones.mkChannelData "@c" "accessible" 0 [] None None) ∅ Tg.start.

Definition fresh_run : Niemci.Run := Niemci.mkRun ∅ Tg.start.

Definition fresh_phone_run : Phones.Run := Phones.mkRun ∅ Tg.start.

(** Two interpreter processes that iterate a set of strings in opposite
    orders. *)
Definition first_order : SetOrder := {|
  list_of_set l := remove_dups l;
  list_of_set_NoDup l := NoDup_remove_dups l;
  list_of_set_elem l x := elem_of_remove_dups l x;
|}.


End Scenario.

Module IngestReadings.
Import Ingest.

(** The bulk writes of a trace: the list of actions of each call of
    [helpers.bulk]. *)
Definition bulk_writes (tr : list event) : list (list Action) :=
  omap (fun ev => match ev with EsBulk actions => Some actions | _ => None end) tr.

(** The test [ingest_directory] applies to a directory of the walk. *)
Definition in_scope (root : string) : bool :=
  PyStr.contains "raw_data" root || PyStr.contains "osint_construction" root.

(** The part of a walk that [ingest_directory] looks at: the directories
    in scope, each with its [.json] files. *)
Definition relevant (walk : list (string * list string)) : list (string * list string) :=
  map (fun entry => (fst entry, List.filter (PyStr.endswith ".json") (snd entry)))
    (List.filter (fun entry => in_scope (fst entry)) walk).

(** The index name [ingest_directory] computes for a directory of the
    walk, from the name of the report directory above it. *)
Definition index_name_of `{RT : PyRuntime} (index_prefix root : string) : string :=
  let report_id := path_basename (path_dirname root) in
  let report_ts :=
    match split "_"%char report_id with
    | a :: b :: _ => a +:+ "_" +:+ b
    | _ => now_strftime
    end in
  lower (index_prefix +:+ report_ts).

(** The index and the [_id] each action of a bulk write addresses. *)
Definition targets (actions : list Action) : list (string * json) :=
  map (fun a => (action_index a, action_id a)) actions.


(** What the Document of a message of a Telegram payload holds, the
    message being a dict with the pairs [mfields]. *)
Definition message_document_of `{RT : PyRuntime} (mfields : list (string * json))
    (d : Document) : Prop :=
  raw_source d = Some (JObj mfields)
  /\ data_type d = Some (JStr "message")
  /\ Py.assoc "title" d
     = Some (JStr ("Telegram message from "
                   +:+ format_value (default (JStr "unknown") (Py.assoc "sender_id" mfields))))
  /\ Py.assoc "body" d = Some (default (JStr "") (Py.assoc "message" mfields))
  /\ Py.assoc "url" d
     = Some (JStr ("telegram://channel/"
                   +:+ format_value (default (JStr "unknown") (Py.assoc "channel" mfields))
                   +:+ "/"
                   +:+ format_value (default (JStr "unknown") (Py.assoc "id" mfields))))
  /\ Py.assoc "sender_id" d = Some (default (JStr "") (Py.assoc "sender_id" mfields)).

(** What the summary Document of a Telegram payload without messages
    holds. *)
Definition summary_document_of `{RT : PyRuntime} (raw : json) (n_channels n_queries : Z)
    (d : Document) : Prop :=
  raw_source d = Some raw
  /\ data_type d = Some (JStr "search_summary")
  /\ Py.assoc "messages_found" d = Some (JInt 0)
  /\ Py.assoc "body" d
     = Some (JStr ("Searched " +:+ format_value (JInt n_channels)
                   +:+ " channels with " +:+ format_value (JInt n_queries)
                   +:+ " queries. No messages found.")).

(** What the walk keeps true of the state: the trace holds log lines
    only, and every action collected is a [create] into an index of
    [indices_to_create]. *)
Definition collected (st : IngestState) : Prop :=
  (exists lines, trace st = map Logged lines)
  /\ Forall (fun a => action_op_type a = "create"
                      /\ action_index a ∈ indices_to_create st) (docs_to_index st).

(** What a state gains from the files of one directory: new actions,
    all of them [create]s into one index; the set of indices stays. *)
Definition extends (index_name : string) (st st' : IngestState) : Prop :=
  indices_to_create st' = indices_to_create st
  /\ exists new,
       docs_to_index st' = docs_to_index st ++ new
       /\ Forall (fun a => action_index a = index_name /\ action_op_type a = "create") new.

(** The state of [ingest_directory] after the walk. *)
Definition walked `{RT : PyRuntime} (now : nat -> string)
    (walk : list (string * list string)) (load : string -> result json)
    (base_dir index_prefix : string) : IngestState :=
  fold_left (ingest_root now load index_prefix) walk
    (mkIngest [] ∅ [Logged (info ("Scanning " +:+ base_dir +:+ " for raw data..."))]).

End IngestReadings.


(** ** Sorting and counting, as the summaries of the collectors use them *)

Module PyList.

Section Sorted.
Context {A : Type} (key : A -> Z).

(** [x] goes before the first element whose key is not larger. *)
Fixpoint insert_desc (x : A) (l : list A) : list A :=
  match l with
  | [] => [x]
  | y :: rest => if key y <=? key x then x :: l else y :: insert_desc x rest
  end.

(** [sorted(l, key=key, reverse=True)] and [l.sort(key=key, reverse=True)]:
    by decreasing key, elements of equal key in their original order. *)
Definition sorted_desc (l : list A) : list A := fold_right insert_desc [] l.

(** [sum(1 for x in l if p(x))] and [len([x for x in l if p(x)])] *)
Definition count_if (p : A -> bool) (l : list A) : Z := Z.of_nat (length (List.filter p l)).

End Sorted.

(** A list in descending order of [key]. *)
Definition descending {A : Type} (key : A -> Z) (l : list A) : Prop :=
  forall i j a b, (i < j)%nat -> l !! i = Some a -> l !! j = Some b -> key b <= key a.

(** [for x in l: k = key(x); counts[k] = counts.get(k, 0) + 1] *)
Definition count_by {A : Type} (key : A -> string) (l : list A) : gmap string Z :=
  fold_left (fun counts x => <[key x := default 0 (counts !! key x) + 1]> counts) l ∅.

(** The sum of the values of a dict of counters. *)
Definition total (counts : gmap string Z) : Z :=
  map_fold (fun _ n acc => n + acc) 0 counts.

(** The counter of a key, 0 when the key is not in the dict. *)
Definition counter (counts : gmap string Z) (k : string) : Z := default 0 (counts !! k).

End PyList.

(** ** The summary of the @Niemci/DE4RU collector: [main] of
    [telegram_niemci_de4ru_osint.py] *)

Module NiemciMain.

Record Statistics : Type := mkStatistics {
  total_messages : Z;
  total_red_flag_messages : Z;
  by_language : gmap string Z;
  by_recruitment_type : gmap string Z;
  high_priority_findings : list Niemci.MessageData;
}.

(** [m.get("red_flag_score", 0)], [m.get("language", "unknown")],
    [m.get("recruitment_type", "unknown")]: every record holds the keys
    of its classification, so the defaults are never taken. *)
Definition score (m : Niemci.MessageData) : Z :=
  Niemci.red_flag_score (Niemci.classification m).

Definition lang (m : Niemci.MessageData) : string :=
  Niemci.language (Niemci.classification m).

Definition rt (m : Niemci.MessageData) : string :=
  Niemci.recruitment_type (Niemci.classification m).

(** The part of [main] under [Aggregate Statistics], on the values of
    [results["channels"]] in the order of the dict. *)
Definition aggregate (channel_values : list Niemci.ChannelData) : Statistics :=
  let all_messages := flat_map Niemci.messages channel_values in
  let lang_counts := PyList.count_by lang all_messages in
  let type_counts := PyList.count_by rt all_messages in
  let high_priority := List.filter (fun m => 3 <=? score m) all_messages in
  mkStatistics (Z.of_nat (length all_messages)) (Z.of_nat (length high_priority))
    lang_counts type_counts
    (take 50 (PyList.sorted_desc score high_priority)).

(** [results["channels"].values()]: a dict is iterated in the order in
    which its keys were first set; [main] sets one key for each name of
    [TARGET_CHANNELS], in the order of that list, which holds no name
    twice. *)
Definition channel_values (results : Niemci.Run) : list Niemci.ChannelData :=
  omap (fun ch_name => Niemci.channels results !! ch_name) Niemci.TARGET_CHANNELS.

Section WithRuntime.
Context `{RT : PyRuntime}.

(** [main]: the run over [TARGET_CHANNELS] with [ALL_QUERIES], then the
    statistics.  (Signing in, writing the two result files and the
    printed summary are left out.) *)
Definition main (fuel : nat) (client : Tg.TelegramClient)
    : option (Niemci.Run * Statistics) :=
  match Niemci.search_all fuel client Niemci.TARGET_CHANNELS Niemci.ALL_QUERIES
          (Niemci.mkRun ∅ Tg.start) with
  | None => None
  | Some results => Some (results, aggregate (channel_values results))
  end.

End WithRuntime.
End NiemciMain.

(** ** The summary of the phone-number collector: [main] of
    [telegram_phone_number_search.py] *)

Module PhonesMain.

Record Statistics : Type := mkStatistics {
  total_messages : Z;
  high_relevance_count : Z;
  known_phone_hits : Z;
  entity_hits : Z;
  person_hits : Z;
  top_findings : list Phones.MessageData;
}.

(** [m.get("relevance_score", 0)] *)
Definition score (m : Phones.MessageData) : Z :=
  Phones.relevance_score (Phones.scoring m).

(** [any(tag in i for i in m.get("indicators", []))] *)
Definition mentions (tag : string) (m : Phones.MessageData) : bool :=
  existsb (PyStr.contains tag) (Phones.indicators (Phones.scoring m)).

(** The part of [main] under [Aggregate]. *)
Definition aggregate (channel_values : list Phones.ChannelData) : Statistics :=
  let all_messages := flat_map Phones.messages channel_values in
  let all_messages := PyList.sorted_desc score all_messages in
  mkStatistics (Z.of_nat (length all_messages))
    (PyList.count_if (fun m => 3 <=? score m) all_messages)
    (PyList.count_if (mentions "KNOWN_PHONE") all_messages)
    (PyList.count_if (mentions "ENTITY") all_messages)
    (PyList.count_if (mentions "PERSON") all_messages)
    (take 20 all_messages).

(** [results["channels"].values()], in the order of [TARGET_CHANNELS]
    (no name is listed twice). *)
Definition channel_values (results : Phones.Run) : list Phones.ChannelData :=
  omap (fun ch_name => Phones.channels results !! ch_name) Phones.TARGET_CHANNELS.

Section WithRuntime.
Context `{RT : PyRuntime} `{SO : SetOrder}.

Definition main (client : Tg.TelegramClient) : Phones.Run * Statistics :=
  let results :=
    Phones.search_all client Phones.TARGET_CHANNELS (Phones.mkRun ∅ Tg.start) in
  (results, aggregate (channel_values results)).

End WithRuntime.
End PhonesMain.

(** ** The analysis of the extended @Niemci search:
    [search_niemci_extended] of [telegram_niemci_extended_search.py] *)

Module NiemciExtendedMain.

Definition EXTENDED_QUERIES : list string :=
  [ "вербовка Берлин"; "работа в Германии 2025"; "трудоустройство Берлин";
    "строительные вакансии Берлин"; "электрики в Германию"; "работа без визы Германия";
    "легализация в Германии"; "помощь с документами Германия";
    "строительная бригада Берлин"; "высокооплачиваемая работа Берлин";
    "Русские в Берлине работа"; "соотечественники Германия работа";
    "русскоязычные вакансии Берлин"; "электроподстанция"; "кабельные сети";
    "энергетика Германия"; "ремонт сетей Берлин"; "кадровое агентство Берлин";
    "подбор персонала Берлин"; "аренда рабочих Германия"; "Berlin Arbeitgeber";
    "Stromnetz Berlin Jobs"; "Kabelarbeiten Berlin"; "Elektroinstallation Berlin";
    "Tiefbau Berlin Jobs"; "Infrastruktur Berlin"; "Energieversorgung Berlin";
    "Bau Berlin 2025"; "Baustelle Berlin Süd"; "Steglitz Arbeit"; "Zehlendorf Jobs";
    "Lichterfelde Stellen"; "Tempelhof Bau"; "Mariendorf Arbeit"; "работа Штеглиц";
    "работа Целлендорф"; "электрик Берлин"; "строитель Берлин зарплата";
    "немецкая фирма работа"; "официальное трудоустройство Берлин"; "срочно Берлин";
    "зарплата евро Берлин"; "жилье работа Берлин"; "без опыта Берлин" ].

Record MessageData : Type := mkMessageData {
  message_id : Z;
  date : string;
  text : string;
  views : Z;
  forwards : Z;
  matched_queries : list string;
  has_media : bool;
  language : string;
  recruitment_type : string;
  mentions_housing : bool;
  no_german_required : bool;
  berlin_specific : bool;
}.

(** [results["statistics"]]; the last three counters are the entries
    [housing_mentioned], [no_german_required] and [berlin_specific]. *)
Record Statistics : Type := mkStatistics {
  total_messages : Z;
  by_query : gmap string Z;
  by_month : gmap string Z;
  by_language : gmap string Z;
  by_recruitment_type : gmap string Z;
  housing_mentioned : Z;
  no_german_required_count : Z;
  berlin_specific_count : Z;
}.

Record Results : Type := mkResults {
  messages : list MessageData;
  statistics : Statistics;
}.

Definition initial : Results :=
  mkResults []
    (mkStatistics 0 ∅ ∅
       (list_to_map [("russian", 0); ("ukrainian", 0); ("german", 0); ("mixed", 0)])
       (list_to_map [("construction", 0); ("electrical", 0); ("general_labor", 0);
                     ("skilled_trade", 0); ("other", 0)])
       0 0 0).

Section WithRuntime.
Context `{RT : PyRuntime}.

(** The body of [for msg in all_messages], for a message with the text
    [text].  The counters of a language and of a recruitment type are
    there from the start, so [+= 1] finds them. *)
Definition analyse_message (msg : Tg.Message) (text : string) (r : Results) : Results :=
  let text_lower := lower text in
  let matched_queries :=
    List.filter (fun query => PyStr.contains (lower query) text_lower) EXTENDED_QUERIES in
  let language :=
    if PyStr.any_in ["работа"; "вакансия"; "требуется"; "зарплата"; "трудоустройство";
                     "электрик"; "строитель"] text_lower then "russian"
    else if PyStr.any_in ["робота"; "вакансія"] text_lower then "ukrainian"
    else if PyStr.any_in ["arbeit"; "stelle"; "gesucht"; "berlin"; "germany"] text_lower
    then "german"
    else "mixed" in
  let recruitment_type :=
    if PyStr.any_in ["электрик"; "электромонтаж"; "elektriker"; "kabel"; "strom"] text_lower
    then "electrical"
    else if PyStr.any_in ["строитель"; "бетонщик"; "bauarbeiter"; "bau"; "construction"]
              text_lower
    then "construction"
    else if PyStr.any_in ["разнорабочий"; "подсобник"; "helfer"; "lager"] text_lower
    then "general_labor"
    else if PyStr.any_in ["сантехник"; "маляр"; "плиточник"; "installateur"; "fliesen"]
              text_lower
    then "skilled_trade"
    else "other" in
  let mentions_housing :=
    PyStr.any_in ["жилье"; "wohnung"; "unterkunft"; "housing"] text_lower in
  let no_german_required :=
    PyStr.any_in ["без немецкого"; "без языка"; "kein deutsch"; "ohne sprache"] text_lower in
  let berlin_specific :=
    PyStr.any_in ["берлин"; "berlin"; "штеглиц"; "zehlendorf"; "lichterfelde"] text_lower in
  let message_data :=
    mkMessageData (Tg.id msg) (isoformat (Tg.date msg)) text (Tg.views msg)
      (Tg.forwards msg) matched_queries (Tg.media msg) language recruitment_type
      mentions_housing no_german_required berlin_specific in
  let s := statistics r in
  let month_key := strftime_year_month (Tg.date msg) in
  let s :=
    mkStatistics (total_messages s)
      (fold_left (fun d query => Recruitment.bump query 1 d) matched_queries (by_query s))
      (Recruitment.bump month_key 1 (by_month s))
      (Recruitment.bump language 1 (by_language s))
      (Recruitment.bump recruitment_type 1 (by_recruitment_type s))
      (housing_mentioned s + (if mentions_housing then 1 else 0))
      (no_german_required_count s + (if no_german_required then 1 else 0))
      (berlin_specific_count s + (if berlin_specific then 1 else 0)) in
  mkResults (messages r ++ [message_data]) s.

(** [for msg in all_messages]: a message without text is passed over. *)
Definition analyse (all_messages : list Tg.Message) (r : Results) : Results :=
  fold_left
    (fun r msg =>
       match Tg.text_of msg with
       | None => r
       | Some text => analyse_message msg text r
       end)
    all_messages r.

(** [results["statistics"]["total_messages"] = len(results["messages"])] *)
Definition with_total (r : Results) : Results :=
  let s := statistics r in
  mkResults (messages r)
    (mkStatistics (Z.of_nat (length (messages r))) (by_query s) (by_month s)
       (by_language s) (by_recruitment_type s) (housing_mentioned s)
       (no_german_required_count s) (berlin_specific_count s)).

(** [search_niemci_extended]: the channel is resolved, its history
    retrieved and analysed; when the channel cannot be resolved the
    exception is printed and the results are returned as they were set
    up.  [None] when [fuel] rounds do not end the retrieval.  (Signing
    in and writing the result files are left out.) *)
Definition search_niemci_extended (fuel : nat) (client : Tg.TelegramClient)
    : option (Results * Tg.World) :=
  let answer := Tg.get_entity client (Tg.tick Tg.start) NiemciExtended.TARGET_CHANNEL in
  let w := Tg.request (Tg.Resolve NiemciExtended.TARGET_CHANNEL) Tg.start in
  match answer with
  | Raise e => Some (initial, w)
  | Ok channel =>
      let got := NiemciExtended.retrieve_history fuel client channel 0 [] w in
      if NiemciExtended.finished got then
        Some (with_total (analyse (NiemciExtended.all_messages got) initial),
              NiemciExtended.world got)
      else None
  end.

End WithRuntime.
End NiemciExtendedMain.

(** ** Readings of the results of the extended recruitment search *)

Module RecruitmentReadings.
Import Recruitment.

(** Nothing has been recorded: no message, no month, the language
    counters as they were set up, and only zeros among the counters by
    channel and by query and the message counts of the channels. *)
Definition nothing_recorded (r : Results) : Prop :=
  messages r = []
  /\ by_language (statistics r) = by_language (statistics initial)
  /\ by_month (statistics r) = ∅
  /\ (forall k n, by_channel (statistics r) !! k = Some n -> n = 0)
  /\ (forall k n, by_query (statistics r) !! k = Some n -> n = 0)
  /\ Forall (fun a => snd a = 0) (accessible_channels r).

End RecruitmentReadings.

(** ** The result files of the collectors

    What [json.dump(results, f, ensure_ascii=False, indent=2)] writes
    and [json.load] reads back: the dict [results] of each collector as
    a JSON value, key by key in the order of the dict.  The clock
    readings are parameters.  A dict of counters comes in the order in
    which the map enumerates its keys; nothing below depends on it. *)

Module ResultFile.

Definition opt {A : Type} (f : A -> json) (o : option A) : json :=
  match o with
  | Some x => f x
  | None => JNull
  end.

Definition strings (l : list string) : json := JArr (map JStr l).

Definition counts (d : gmap string Z) : json :=
  JObj (map (fun kv => (fst kv, JInt (snd kv))) (map_to_list d)).

Section WithRuntime.
Context `{RT : PyRuntime}.

Definition period (start_date end_date : datetime) : json :=
  JObj [("start", JStr (isoformat start_date)); ("end", JStr (isoformat end_date))].

(** *** [telegram_niemci_de4ru_osint.py] *)

Definition niemci_message (m : Niemci.MessageData) : json :=
  let c := Niemci.classification m in
  JObj [ ("doc_id", JStr (Niemci.doc_id m));
         ("message_id", JInt (Niemci.message_id m));
         ("date", JStr (Niemci.date m));
         ("text", JStr (Niemci.text m));
         ("matched_query", JStr (Niemci.matched_query m));
         ("views", JInt (Niemci.views m));
         ("forwards", JInt (Niemci.forwards m));
         ("reply_to", opt JInt (Niemci.reply_to m));
         ("language", JStr (Niemci.language c));
         ("recruitment_type", JStr (Niemci.recruitment_type c));
         ("red_flags", strings (Niemci.red_flags c));
         ("red_flag_score", JInt (Niemci.red_flag_score c));
         ("contains_phone_number", JBool (Niemci.contains_phone_number c));
         ("mentions_housing", JBool (Niemci.mentions_housing c));
         ("mentions_no_language_required", JBool (Niemci.mentions_no_language_required c)) ].

(** The keys [channel_title], [channel_id] and [participants_count] are
    set when the channel was resolved. *)
Definition niemci_channel (d : Niemci.ChannelData) : json :=
  JObj ([ ("channel", JStr (Niemci.channel d));
          ("status", JStr (Niemci.status d));
          ("total_messages", JInt (Niemci.total_messages d));
          ("messages", JArr (map niemci_message (Niemci.messages d)));
          ("errors", strings (Niemci.errors d)) ]
        ++ match Niemci.channel_title d, Niemci.channel_id d with
           | Some t, Some i =>
               [ ("channel_title", JStr t);
                 ("channel_id", JInt i);
                 ("participants_count", opt JInt (Niemci.participants d)) ]
           | _, _ => []
           end).

Definition niemci_results (search_timestamp : string) (results : Niemci.Run)
    (s : NiemciMain.Statistics) : json :=
  JObj [ ("investigation", JStr "Berlin Grid Attack — Operation EG VOLT");
         ("collection_type", JStr "Telegram Channel Monitoring (@Niemci, DE4RU)");
         ("search_timestamp", JStr search_timestamp);
         ("search_method", JStr "Telethon API (SearchRequest + GetHistoryRequest)");
         ("search_period", period Niemci.SEARCH_START Niemci.SEARCH_END);
         ("target_channels", strings Niemci.TARGET_CHANNELS);
         ("query_categories",
          JObj [ ("location", strings Niemci.LOCATION_QUERIES);
                 ("infrastructure", strings Niemci.INFRASTRUCTURE_QUERIES);
                 ("construction", strings Niemci.CONSTRUCTION_QUERIES);
                 ("agency", strings Niemci.AGENCY_QUERIES);
                 ("subcontractor", strings Niemci.SUBCONTRACTOR_QUERIES) ]);
         ("channels",
          JObj (omap (fun ch_name =>
                        match Niemci.channels results !! ch_name with
                        | Some d => Some (ch_name, niemci_channel d)
                        | None => None
                        end) Niemci.TARGET_CHANNELS));
         ("statistics",
          JObj [ ("total_messages", JInt (NiemciMain.total_messages s));
                 ("total_red_flag_messages", JInt (NiemciMain.total_red_flag_messages s));
                 ("by_language", counts (NiemciMain.by_language s));
                 ("by_recruitment_type", counts (NiemciMain.by_recruitment_type s));
                 ("high_priority_findings",
                  JArr (map niemci_message (NiemciMain.high_priority_findings s))) ]) ].

(** *** [telegram_phone_number_search.py] *)

(** [datetime(2025, 5, 1, tzinfo=timezone.utc)] and
    [datetime(2026, 2, 14, tzinfo=timezone.utc)] *)
Definition PHONES_SEARCH_START : datetime := mkDate 1746057600 true.
Definition PHONES_SEARCH_END : datetime := mkDate 1771027200 true.

Definition phones_message (m : Phones.MessageData) : json :=
  let s := Phones.scoring m in
  JObj [ ("doc_id", JStr (Phones.doc_id m));
         ("message_id", JInt (Phones.message_id m));
         ("date", JStr (Phones.date m));
         ("text", JStr (Phones.text m));
         ("matched_query", JStr (Phones.matched_query m));
         ("views", JInt (Phones.views m));
         ("forwards", JInt (Phones.forwards m));
         ("relevance_score", JInt (Phones.relevance_score s));
         ("indicators", strings (Phones.indicators s));
         ("phones_extracted", strings (Phones.phones_extracted s)) ].

Definition phones_channel (d : Phones.ChannelData) : json :=
  JObj ([ ("channel", JStr (Phones.channel d));
          ("status", JStr (Phones.status d));
          ("total_messages", JInt (Phones.total_messages d));
          ("messages", JArr (map phones_message (Phones.messages d))) ]
        ++ match Phones.channel_title d, Phones.channel_id d with
           | Some t, Some i => [ ("channel_title", JStr t); ("channel_id", JInt i) ]
           | _, _ => []
           end).

Definition phones_results (search_timestamp : string) (results : Phones.Run)
    (s : PhonesMain.Statistics) : json :=
  JObj [ ("investigation", JStr "Berlin Grid Attack — Operation EG VOLT");
         ("collection_type",
          JStr "Enhanced Phone Number & Contact Infrastructure Search");
         ("search_timestamp", JStr search_timestamp);
         ("search_period", period PHONES_SEARCH_START PHONES_SEARCH_END);
         ("target_phones", strings (take 18 Phones.PHONE_QUERIES));
         ("target_entities", strings Phones.ENTITY_QUERIES);
         ("channels",
          JObj (omap (fun ch_name =>
                        match Phones.channels results !! ch_name with
                        | Some d => Some (ch_name, phones_channel d)
                        | None => None
                        end) Phones.TARGET_CHANNELS));
         ("statistics",
          JObj [ ("total_messages", JInt (PhonesMain.total_messages s));
                 ("high_relevance_count", JInt (PhonesMain.high_relevance_count s));
                 ("known_phone_hits", JInt (PhonesMain.known_phone_hits s));
                 ("entity_hits", JInt (PhonesMain.entity_hits s));
                 ("person_hits", JInt (PhonesMain.person_hits s));
                 ("top_findings",
                  JArr (map phones_message (PhonesMain.top_findings s))) ]) ].

(** *** [telegram_extended_recruitment_berlin_2025.py] *)

Definition recruitment_message (m : Recruitment.MessageData) : json :=
  JObj [ ("channel", JStr (Recruitment.channel m));
         ("message_id", JInt (Recruitment.message_id m));
         ("date", JStr (Recruitment.date m));
         ("text", opt JStr (Recruitment.text m));
         ("query", JStr (Recruitment.query m));
         ("views", JInt (Recruitment.views m));
         ("forwards", JInt (Recruitment.forwards m));
         ("language", JStr (Recruitment.language m)) ].

Definition recruitment_results (timestamp : string) (r : Recruitment.Results) : json :=
  let s := Recruitment.statistics r in
  JObj [ ("investigation", JStr "Berlin Russian Recruitment Extended Search");
         ("search_period",
          period Recruitment.SEARCH_START_DATE Recruitment.SEARCH_END_DATE);
         ("search_queries", strings Recruitment.ADDITIONAL_QUERIES);
         ("channels_searched", strings Recruitment.ADDITIONAL_CHANNELS);
         ("timestamp", JStr timestamp);
         ("accessible_channels",
          JArr (map (fun c =>
                       JObj [ ("username", JStr (fst (fst c)));
                              ("title", JStr (snd (fst c)));
                              ("message_count", JInt (snd c)) ])
                  (Recruitment.accessible_channels r)));
         ("inaccessible_channels",
          JArr (map (fun c => JObj [ ("username", JStr (fst c)); ("error", JStr (snd c)) ])
                  (Recruitment.inaccessible_channels r)));
         ("messages", JArr (map recruitment_message (Recruitment.messages r)));
         ("statistics",
          JObj [ ("total_messages", JInt (Recruitment.total_messages s));
                 ("by_channel", counts (Recruitment.by_channel s));
                 ("by_query", counts (Recruitment.by_query s));
                 ("by_language", counts (Recruitment.by_language s));
                 ("by_month", counts (Recruitment.by_month s)) ]) ].

(** *** [telegram_niemci_extended_search.py] *)

Definition extended_message (m : NiemciExtendedMain.MessageData) : json :=
  JObj [ ("message_id", JInt (NiemciExtendedMain.message_id m));
         ("date", JStr (NiemciExtendedMain.date m));
         ("text", JStr (NiemciExtendedMain.text m));
         ("views", JInt (NiemciExtendedMain.views m));
         ("forwards", JInt (NiemciExtendedMain.forwards m));
         ("matched_queries", strings (NiemciExtendedMain.matched_queries m));
         ("has_media", JBool (NiemciExtendedMain.has_media m));
         ("language", JStr (NiemciExtendedMain.language m));
         ("recruitment_type", JStr (NiemciExtendedMain.recruitment_type m));
         ("mentions_housing", JBool (NiemciExtendedMain.mentions_housing m));
         ("no_german_required", JBool (NiemciExtendedMain.no_german_required m));
         ("berlin_specific", JBool (NiemciExtendedMain.berlin_specific m)) ].

Definition extended_results (timestamp : string) (r : NiemciExtendedMain.Results) : json :=
  let s := NiemciExtendedMain.statistics r in
  JObj [ ("investigation", JStr "Berlin Russian Recruitment - @Niemci Extended Search");
         ("channel", JStr NiemciExtended.TARGET_CHANNEL);
         ("search_period",
          period NiemciExtended.SEARCH_START_DATE NiemciExtended.SEARCH_END_DATE);
         ("search_queries", strings NiemciExtendedMain.EXTENDED_QUERIES);
         ("timestamp", JStr timestamp);
         ("messages", JArr (map extended_message (NiemciExtendedMain.messages r)));
         ("statistics",
          JObj [ ("total_messages", JInt (NiemciExtendedMain.total_messages s));
                 ("by_query", counts (NiemciExtendedMain.by_query s));
                 ("by_month", counts (NiemciExtendedMain.by_month s));
                 ("by_language", counts (NiemciExtendedMain.by_language s));
                 ("by_recruitment_type", counts (NiemciExtendedMain.by_recruitment_type s));
                 ("housing_mentioned", JInt (NiemciExtendedMain.housing_mentioned s));
                 ("no_german_required",
                  JInt (NiemciExtendedMain.no_german_required_count s));
                 ("berlin_specific",
                  JInt (NiemciExtendedMain.berlin_specific_count s)) ]) ].

End WithRuntime.
End ResultFile.

(** ** The entry point of the ingestor: [load_env], [get_es_client] and
    [main] of [ingest_elastic.py] *)

Module IngestMain.

(** [key, value = line.split("=", 1)]: the text before the first [sep]
    and the text after it; [None] when there is no [sep] in the line and
    the assignment raises [ValueError]. *)
Fixpoint split_once (sep : ascii) (line : string) : option (string * string) :=
  match line with
  | EmptyString => None
  | String c rest =>
      if Ascii.eqb c sep then Some (EmptyString, rest)
      else match split_once sep rest with
           | Some (key, value) => Some (String c key, value)
           | None => None
           end
  end.

(** What the script finds on the disk. *)
Record FileSystem : Type := {
  (** [os.path.exists(p)] *)
  path_exists : string -> bool;
  (** the lines of the text file [p], each with its line end *)
  read_lines : string -> result (list string);
  (** [os.walk(base_dir)]: each directory with its files *)
  os_walk : string -> list (string * list string);
  (** [json.load] on the file [p] *)
  load_json : string -> result json;
}.

(** The arguments [Elasticsearch] is built with. *)
Record Connection : Type := mkConnection {
  host : string;
  basic_auth : option (string * string);
}.

(** The client built, with the answer of [es.ping()]. *)
Record Elasticsearch : Type := {
  ping : result bool;
  client : Ingest.EsClient;
}.

Section WithRuntime.
Context `{RT : PyRuntime}.

(** [s.strip()] *)
Variable strip : string -> string.

Variable now : nat -> string.

(** The body of [for line in f]. *)
Definition env_line (env_vars : gmap string string) (line : string)
    : gmap string string :=
  let line := strip line in
  if negb (String.eqb line "") && negb (PyStr.startswith "#" line) then
    match split_once "="%char line with
    | Some (key, value) => <[key := value]> env_vars
    | None => env_vars
    end
  else env_vars.

Definition load_env (fs : FileSystem) : result (gmap string string) :=
  let env_vars := ∅ in
  let env_paths := [".env"; "../.env"] in
  match List.find (path_exists fs) env_paths with
  | Some env_file =>
      lines <- read_lines fs env_file ;;
      Ok (fold_left env_line lines env_vars)
  | None => Ok env_vars
  end.

Definition get_es_client (env : gmap string string) : Connection :=
  let host := default "http://localhost:9200" (env !! "ES_HOST") in
  let user := default "" (env !! "ES_USER") in
  let password := default "" (env !! "ES_PASS") in
  if negb (String.eqb user "") && negb (String.eqb password "")
  then mkConnection host (Some (user, password))
  else mkConnection host None.

(** [main]: what it logs and what it asks of Elasticsearch.  [connect]
    is the constructor [Elasticsearch(...)]. *)
Definition main (fs : FileSystem) (connect : Connection -> result Elasticsearch)
    : list Ingest.event :=
  let fatal e := [Ingest.Logged (error "Fatal error: " (Some e))] in
  match load_env fs with
  | Raise e => fatal e
  | Ok env =>
      let es_host := default "http://localhost:9200" (env !! "ES_HOST") in
      let tr :=
        [ Ingest.Logged (info ("Loaded .env file with "
                               +:+ format_value (JInt (Z.of_nat (size env)))
                               +:+ " variables"));
          Ingest.Logged (info ("Connecting to Elasticsearch at: " +:+ es_host)) ] in
      match connect (get_es_client env) with
      | Raise e => tr ++ fatal e
      | Ok es =>
          match ping es with
          | Raise e => tr ++ fatal e
          | Ok false =>
              tr ++ [Ingest.Logged (error "Could not connect to Elasticsearch." None)]
          | Ok true =>
              let index_prefix := default "osint_" (env !! "ES_INDEX_PREFIX") in
              let reports_dir :=
                if path_exists fs "reports" then "reports" else "../reports" in
              if negb (path_exists fs reports_dir) then
                tr ++ [Ingest.Logged (error "Could not find reports directory" None)]
              else
                let tr :=
                  tr ++ [Ingest.Logged (info ("Scanning " +:+ reports_dir
                                              +:+ " for data..."))] in
                match Ingest.ingest_directory now (os_walk fs reports_dir) (load_json fs)
                        reports_dir (client es) index_prefix with
                | (evs, Ok _) => tr ++ evs
                | (evs, Raise e) => tr ++ evs ++ fatal e
                end
          end
      end
  end.

End WithRuntime.
End IngestMain.

(** ** Further scenarios *)

Module Cases.

(** An Elasticsearch server that cannot be reached. *)
Definition unreachable : exn := OtherError "ConnectionError".

Definition unreachable_client : Ingest.EsClient := {|
  Ingest.indices_exists _ := Raise unreachable;
  Ingest.indices_create _ := Ok tt;
  Ingest.helpers_bulk actions := Ok (Z.of_nat (length actions), []);
|}.

(** An Elasticsearch server without indices that creates what it is
    asked for. *)
Definition empty_server : Ingest.EsClient := {|
  Ingest.indices_exists _ := Ok false;
  Ingest.indices_create _ := Ok tt;
  Ingest.helpers_bulk actions := Ok (Z.of_nat (length actions), []);
|}.

(** A report tree with files the ingestor does not look at, and a
    loader that can read nothing but the one JSON file of [raw_data]. *)
Definition noisy_walk : list (string * list string) :=
  [ ("reports/20260204_110300_berlin", ["README.md"]);
    (Scenario.report_root, ["page.json"; "notes.txt"]) ].

Definition load_only_page (filepath : string) : result json :=
  if String.eqb filepath "reports/20260204_110300_berlin/raw_data/page.json"
  then Ok Scenario.page else Raise (OtherError "unreadable").

(** A report whose [raw_data] directory is empty. *)
Definition empty_walk : list (string * list string) := [(Scenario.report_root, [])].



Definition start_state : Ingest.IngestState := Ingest.mkIngest [] ∅ [].

(** A search-result payload with two organic results, the second one
    without a position, and one related search. *)
Definition serp_fields : list (string * json) :=
  [ ("search_parameters", JObj [("q", JStr "Stromnetz Berlin")]);
    ("organic_results",
     JArr [ JObj [("title", JStr "a"); ("position", JInt 7)];
            JObj [("title", JStr "b")] ]);
    ("related_searches", JArr [ JObj [("query", JStr "Stromnetz Berlin Jobs")] ]) ].

(** [strip] on plain ASCII text. *)
Fixpoint lstrip (s : string) : string :=
  match s with
  | EmptyString => EmptyString
  | String c s' => if Toy.is_space c then lstrip s' else s
  end.

Definition reversed (s : string) : string :=
  string_of_list_ascii (rev (list_ascii_of_string s)).

Definition strip (s : string) : string := reversed (lstrip (reversed (lstrip s))).

Definition newline : string := String (ascii_of_nat 10) "".

(** A working directory with a [.env] file and a [reports] tree, and
    an Elasticsearch server that answers. *)
Definition env_lines : list string :=
  [ "# connection" +:+ newline;
    newline;
    "ES_HOST=http://es:9200/?a=b" +:+ newline;
    "not an assignment" +:+ newline;
    "ES_USER=elastic" +:+ newline;
    "  ES_INDEX_PREFIX=OSINT_  " +:+ newline;
    "ES_USER=" +:+ newline ].

Definition disk : IngestMain.FileSystem := {|
  IngestMain.path_exists p := String.eqb p ".env" || String.eqb p "reports";
  IngestMain.read_lines _ := Ok env_lines;
  IngestMain.os_walk _ := Scenario.one_file_walk;
  IngestMain.load_json := Scenario.load_page;
|}.

Definition answering (c : IngestMain.Connection) : result IngestMain.Elasticsearch :=
  Ok {| IngestMain.ping := Ok true; IngestMain.client := empty_server |}.

End Cases.


(** * Properties *)

(** ** Readings of the log *)

Module TgFacts.
Import Tg.

Lemma history_requests_app ch l1 l2 :
  history_requests ch (l1 ++ l2) = history_requests ch l1 ++ history_requests ch l2.
Proof. apply omap_app. Qed.

Lemma search_requests_app ch l1 l2 :
  search_requests ch (l1 ++ l2) = search_requests ch l1 ++ search_requests ch l2.
Proof. apply omap_app. Qed.

Lemma classified_app ch l1 l2 :
  classified ch (l1 ++ l2) = classified ch l1 ++ classified ch l2.
Proof. apply omap_app. Qed.

Lemma resolved_app l1 l2 : resolved (l1 ++ l2) = resolved l1 ++ resolved l2.
Proof. apply omap_app. Qed.

Lemma classified_map ch ids : classified ch (map (Classified ch) ids) = ids.
Proof.
  induction ids as [|i ids IH]; [reflexivity|].
  cbn. rewrite String.eqb_refl. cbn. f_equal. exact IH.
Qed.

Lemma history_requests_map ch ch' ids :
  history_requests ch (map (Classified ch') ids) = [].
Proof. induction ids as [|i ids IH]; [reflexivity | exact IH]. Qed.

Lemma search_requests_map ch ch' ids :
  search_requests ch (map (Classified ch') ids) = [].
Proof. induction ids as [|i ids IH]; [reflexivity | exact IH]. Qed.

Lemma resolved_map ch' ids : resolved (map (Classified ch') ids) = [].
Proof. induction ids as [|i ids IH]; [reflexivity | exact IH]. Qed.

Lemma stretch_classified ch ids : stretch ch [] [] (map (Classified ch) ids).
Proof.
  split; [apply search_requests_map|].
  split; [apply history_requests_map | apply resolved_map].
Qed.

Lemma stretch_app ch q1 o1 a1 q2 o2 a2 :
  stretch ch q1 o1 a1 -> stretch ch q2 o2 a2 -> stretch ch (q1 ++ q2) (o1 ++ o2) (a1 ++ a2).
Proof.
  intros (H1 & H2 & H3) (K1 & K2 & K3). unfold stretch.
  rewrite search_requests_app, history_requests_app, resolved_app, H1, H2, H3, K1, K2, K3.
  repeat split; reflexivity.
Qed.

Lemma stretch_search ch q : stretch ch [q] [] [Search ch q].
Proof. unfold stretch. cbn. rewrite String.eqb_refl. repeat split; reflexivity. Qed.

Lemma stretch_history ch off : stretch ch [] [off] [History ch off].
Proof. unfold stretch. cbn. rewrite String.eqb_refl. repeat split; reflexivity. Qed.

Lemma stretch_sleep ch ms : stretch ch [] [] [Sleep ms].
Proof. repeat split; reflexivity. Qed.

Lemma stretch_nil ch : stretch ch [] [] [].
Proof. repeat split; reflexivity. Qed.

End TgFacts.

(** ** The history scan of the @Niemci/DE4RU collector *)

Module NiemciFacts.
Import Tg Niemci TgFacts.

Section WithRuntime.
Context `{RT : PyRuntime}.

(** The loop over a page leaves the clock alone and logs nothing but
    classifier calls; the cursor it returns is the one it was given,
    or 0. *)
Lemma history_messages_effect ch msgs : forall sc off n sc' off' n' r,
  history_messages ch msgs sc off n = (sc', off', n', r) ->
  tick (world sc') = tick (world sc)
  /\ (exists ids, log (world sc') = log (world sc) ++ map (Classified ch) ids)
  /\ (off' = off \/ off' = 0).
Proof.
  assert (Hnil : forall sc off,
             tick (world sc) = tick (world sc)
             /\ (exists ids, log (world sc) = log (world sc) ++ map (Classified ch) ids)
             /\ (off = off \/ off = 0)).
  { intros sc off. split; [reflexivity|]. split; [|left; reflexivity].
    exists []. cbn [map]. rewrite app_nil_r. reflexivity. }
  induction msgs as [|msg rest IH]; intros sc off n sc' off' n' r H;
    cbn [history_messages] in H.
  - inversion H; subst. apply Hnil.
  - destruct (decide (id msg ∈ seen_ids sc)); [eapply IH; eassumption|].
    destruct (text_of msg) as [body|]; [|eapply IH; eassumption].
    destruct (lt (Tg.date msg) SEARCH_START) as [[|]|e].
    + inversion H; subst. split; [reflexivity|]. split; [|right; reflexivity].
      exists []. cbn [map]. rewrite app_nil_r. reflexivity.
    + destruct (gt (Tg.date msg) SEARCH_END) as [[|]|e].
      * eapply IH; eassumption.
      * match type of H with (if ?b then _ else _) = _ => destruct b end;
          apply IH in H; destruct H as (Ht & (ids & Hl) & Ho);
          (split; [exact Ht|]; split; [|exact Ho]);
          exists (id msg :: ids); rewrite Hl; cbn [map];
          unfold add_message, in_world, mark_seen, note; cbn [world log];
          rewrite <- app_assoc; reflexivity.
      * inversion H; subst. apply Hnil.
    + inversion H; subst. apply Hnil.
Qed.

(** One round of the loop from cursor 0 always ends it. *)
Lemma history_loop_one_round fuel client entity ch batch sc :
  exists sc' r ids,
    history_loop (S fuel) client entity ch 0 batch sc = Some (sc', r)
    /\ tick (world sc') = S (tick (world sc))
    /\ log (world sc') = log (world sc) ++ History ch 0 :: map (Classified ch) ids.
Proof.
  cbn [history_loop].
  destruct (get_history_request client (tick (world sc)) entity 0 100)
    as [[|m msgs]|e].
  - eexists _, _, []. split; [reflexivity|]. split; reflexivity.
  - destruct (history_messages ch (m :: msgs)
                (in_world (request (History ch 0)) sc) 0 0)
      as [[[sc1 off1] n1] r1] eqn:Hm.
    apply history_messages_effect in Hm.
    destruct Hm as (Ht & (ids & Hl) & Ho).
    assert (off1 = 0) as -> by (destruct Ho; assumption).
    unfold in_world, request in Ht, Hl; cbn [world tick log] in Ht, Hl.
    destruct r1 as [e|].
    + eexists _, _, ids. split; [reflexivity|]. split; [exact Ht|].
      rewrite Hl, <- app_assoc. reflexivity.
    + change (0 =? 0) with true. cbn iota.
      eexists _, _, ids. split; [reflexivity|]. split; [exact Ht|].
      rewrite Hl, <- app_assoc. reflexivity.
  - eexists _, _, []. split; [reflexivity|]. split; reflexivity.
Qed.

(** A loop rule for the messages of a search: what holds before the
    loop and is kept by each admission holds after it. *)
Lemma query_messages_rule (P : Scan -> Prop) ch q :
  (forall sc msg body,
      id msg ∉ seen_ids sc -> text_of msg = Some body ->
      or_else (lt (Tg.date msg) SEARCH_START) (gt (Tg.date msg) SEARCH_END) = Ok false ->
      P sc ->
      P (add_message (message_data ch q msg body (classify_message body))
           (in_world (note (Classified ch (id msg))) (mark_seen (id msg) sc)))) ->
  forall msgs sc n sc' n' r,
    query_messages ch q msgs sc n = (sc', n', r) -> P sc -> P sc'.
Proof.
  intros Hstep.
  induction msgs as [|msg rest IH]; intros sc n sc' n' r H HP;
    cbn [query_messages] in H.
  - inversion H; subst. exact HP.
  - destruct (decide (id msg ∈ seen_ids sc)); [eapply IH; eassumption|].
    destruct (text_of msg) as [body|] eqn:Ht; [|eapply IH; eassumption].
    destruct (or_else (lt (Tg.date msg) SEARCH_START) (gt (Tg.date msg) SEARCH_END))
      as [[|]|e] eqn:Hw.
    + eapply IH; eassumption.
    + eapply IH; [eassumption|]. apply Hstep; assumption.
    + inversion H; subst. exact HP.
Qed.

(** The same for the messages of a history page: a message that is
    classified is appended or not. *)
Lemma history_messages_rule (P : Scan -> Prop) ch :
  (forall sc msg body,
      id msg ∉ seen_ids sc -> text_of msg = Some body ->
      lt (Tg.date msg) SEARCH_START = Ok false ->
      gt (Tg.date msg) SEARCH_END = Ok false ->
      P sc ->
      P (in_world (note (Classified ch (id msg))) (mark_seen (id msg) sc))
      /\ P (add_message
              (message_data ch "_history_scan" msg body (classify_message body))
              (in_world (note (Classified ch (id msg))) (mark_seen (id msg) sc)))) ->
  forall msgs sc off n sc' off' n' r,
    history_messages ch msgs sc off n = (sc', off', n', r) -> P sc -> P sc'.
Proof.
  intros Hstep.
  induction msgs as [|msg rest IH]; intros sc off n sc' off' n' r H HP;
    cbn [history_messages] in H.
  - inversion H; subst. exact HP.
  - destruct (decide (id msg ∈ seen_ids sc)); [eapply IH; eassumption|].
    destruct (text_of msg) as [body|] eqn:Ht; [|eapply IH; eassumption].
    destruct (lt (Tg.date msg) SEARCH_START) as [[|]|e] eqn:Hlt.
    + inversion H; subst. exact HP.
    + destruct (gt (Tg.date msg) SEARCH_END) as [[|]|e] eqn:Hgt.
      * eapply IH; eassumption.
      * specialize (Hstep sc msg body n0 Ht Hlt Hgt HP) as [HK HA].
        match type of H with (if ?b then _ else _) = _ => destruct b end;
          (eapply IH; [eassumption|]); assumption.
      * inversion H; subst. exact HP.
    + inversion H; subst. exact HP.
Qed.

(** *** The invariant of one call *)

Lemma window_of_lt_gt (d : datetime) :
  lt d SEARCH_START = Ok false -> gt d SEARCH_END = Ok false ->
  aware d = true /\ seconds SEARCH_START <= seconds d <= seconds SEARCH_END.
Proof.
  unfold gt, lt. cbn [aware seconds SEARCH_START SEARCH_END].
  destruct (aware d); cbn [Bool.eqb]; [|discriminate].
  intros H1 H2. injection H1 as H1. injection H2 as H2.
  apply Z.ltb_ge in H1, H2. split; [reflexivity | split; assumption].
Qed.

Lemma window_of_or_else (d : datetime) :
  or_else (lt d SEARCH_START) (gt d SEARCH_END) = Ok false ->
  lt d SEARCH_START = Ok false /\ gt d SEARCH_END = Ok false.
Proof.
  unfold or_else, bind.
  destruct (lt d SEARCH_START) as [[|]|e]; [discriminate| |discriminate].
  intros H. split; [reflexivity | exact H].
Qed.

(** Classifying a message that was not seen keeps the invariant, whether
    the message is then appended or not. *)
Lemma scan_inv_step ch already sc msg q body :
  id msg ∉ seen_ids sc ->
  lt (Tg.date msg) SEARCH_START = Ok false ->
  gt (Tg.date msg) SEARCH_END = Ok false ->
  scan_inv ch already sc ->
  scan_inv ch already (in_world (note (Classified ch (id msg))) (mark_seen (id msg) sc))
  /\ scan_inv ch already
       (add_message (message_data ch q msg body (classify_message body))
          (in_world (note (Classified ch (id msg))) (mark_seen (id msg) sc))).
Proof.
  intros Hnew Hlt Hgt [(new & Hc & Hnd & Hseen & Hsub) [Hwin Hhead]].
  assert (Hfresh : id msg ∉ new) by (rewrite <- Hseen; exact Hnew).
  assert (Hc' : classified ch (log (world sc) ++ [Classified ch (id msg)])
                = already ++ new ++ [id msg]).
  { rewrite classified_app, Hc, <- app_assoc. f_equal. f_equal.
    cbn. rewrite String.eqb_refl. reflexivity. }
  assert (Hnd' : NoDup (new ++ [id msg])).
  { apply NoDup_app. split; [exact Hnd|]. split; [|apply NoDup_singleton].
    intros x Hx Hx'. apply list_elem_of_singleton in Hx'. subst x. contradiction. }
  assert (Hseen' : forall i, i ∈ ({[id msg]} ∪ seen_ids sc : gset Z) <-> i ∈ new ++ [id msg]).
  { intros i. rewrite elem_of_union, elem_of_singleton, elem_of_app,
      list_elem_of_singleton, Hseen. tauto. }
  split; (split; [|split; [|exact Hhead]]).
  - exists (new ++ [id msg]). repeat split; try assumption; try apply Hseen'.
    apply sublist_inserts_r. exact Hsub.
  - exact Hwin.
  - exists (new ++ [id msg]). repeat split; try assumption; try apply Hseen'.
    unfold message_ids, add_message. cbn [channel_data messages].
    rewrite map_app. apply sublist_app; [exact Hsub|]. reflexivity.
  - unfold add_message. cbn [channel_data messages].
    apply Forall_app. split; [exact Hwin|]. constructor; [|constructor].
    exists msg, q, body. split; [reflexivity|].
    apply window_of_lt_gt; assumption.
Qed.

(** A change of the world that classifies nothing keeps the invariant,
    and so does a new entry of [errors]. *)
Lemma scan_inv_quiet ch already sc (ev : event) (f : event -> World -> World) :
  (f = request \/ f = note) ->
  classified ch [ev] = [] ->
  scan_inv ch already sc -> scan_inv ch already (in_world (f ev) sc).
Proof.
  intros Hf Hev [(new & Hc & Hnd & Hseen & Hsub) Hrest].
  split; [|exact Hrest].
  exists new. repeat split; try assumption; try apply Hseen.
  destruct Hf as [-> | ->]; unfold in_world, request, note; cbn [world log];
    rewrite classified_app, Hev, app_nil_r; exact Hc.
Qed.

Lemma scan_inv_add_error ch already sc err :
  scan_inv ch already sc -> scan_inv ch already (add_error err sc).
Proof. intros H. exact H. Qed.

(** *** What one query and the loop over the queries do *)

(** The messages of a search: the clock stands still and only
    classifier calls are logged. *)
Lemma query_messages_effect ch q msgs sc n sc' n' r :
  query_messages ch q msgs sc n = (sc', n', r) ->
  tick (world sc') = tick (world sc)
  /\ exists ids, log (world sc') = log (world sc) ++ map (Classified ch) ids.
Proof.
  intros H.
  apply (query_messages_rule
           (fun s => tick (world s) = tick (world sc)
                     /\ exists ids, log (world s) = log (world sc) ++ map (Classified ch) ids)
           ch q) in H; [exact H| |].
  - intros s msg body _ _ _ [Ht [ids Hl]].
    unfold add_message, in_world, mark_seen, note. cbn [world tick log].
    split; [exact Ht|]. exists (ids ++ [id msg]).
    rewrite Hl, map_app, <- app_assoc. reflexivity.
  - split; [reflexivity|]. exists []. cbn [map]. rewrite app_nil_r. reflexivity.
Qed.

Lemma query_failed_effect ch q e sc :
  tick (world (query_failed q e sc)) = tick (world sc)
  /\ exists tail, log (world (query_failed q e sc)) = log (world sc) ++ tail
                  /\ stretch ch [] [] tail.
Proof.
  unfold query_failed. destruct (is_flood e).
  - split; [reflexivity|]. exists [Sleep 30000]. split; [reflexivity|apply stretch_sleep].
  - split; [reflexivity|]. exists []. cbn [add_error world].
    rewrite app_nil_r. split; [reflexivity|apply stretch_nil].
Qed.

(** One query: one search request, whatever the answer. *)
Lemma run_query_effect client entity ch sc q :
  tick (world (run_query client entity ch sc q)) = S (tick (world sc))
  /\ exists added,
       log (world (run_query client entity ch sc q)) = log (world sc) ++ added
       /\ stretch ch [q] [] added.
Proof.
  unfold run_query.
  set (sc0 := in_world (request (Search ch q)) sc).
  assert (H0 : tick (world sc0) = S (tick (world sc))
               /\ log (world sc0) = log (world sc) ++ [Search ch q]) by (split; reflexivity).
  destruct H0 as [Ht0 Hl0].
  destruct (search_request client (tick (world sc)) entity q) as [msgs|e].
  - destruct (query_messages ch q msgs sc0 0) as [[sc1 n1] r1] eqn:Hq.
    apply query_messages_effect in Hq. destruct Hq as [Ht1 [ids Hl1]].
    destruct r1 as [e|].
    + destruct (query_failed_effect ch q e sc1) as [Ht2 (tail & Hl2 & Hs2)].
      split; [congruence|].
      exists ([Search ch q] ++ map (Classified ch) ids ++ tail).
      split; [rewrite Hl2, Hl1, Hl0, <- !app_assoc; reflexivity|].
      apply (stretch_app ch [q] [] _ [] []); [apply stretch_search|].
      apply (stretch_app ch [] [] _ [] []); [apply stretch_classified|exact Hs2].
    + split; [cbn [sleep in_world world note tick]; congruence|].
      exists ([Search ch q] ++ map (Classified ch) ids ++ [Sleep 500]).
      split.
      * unfold sleep, in_world, note. cbn [world log].
        rewrite Hl1, Hl0, <- !app_assoc. reflexivity.
      * apply (stretch_app ch [q] [] _ [] []); [apply stretch_search|].
        apply (stretch_app ch [] [] _ [] []); [apply stretch_classified|apply stretch_sleep].
  - destruct (query_failed_effect ch q e sc0) as [Ht2 (tail & Hl2 & Hs2)].
    split; [congruence|].
    exists ([Search ch q] ++ tail).
    split; [rewrite Hl2, Hl0, <- app_assoc; reflexivity|].
    apply (stretch_app ch [q] [] _ [] []); [apply stretch_search|exact Hs2].
Qed.

Lemma run_query_inv client entity ch already sc q :
  scan_inv ch already sc -> scan_inv ch already (run_query client entity ch sc q).
Proof.
  intros Hinv. unfold run_query.
  set (sc0 := in_world (request (Search ch q)) sc).
  assert (H0 : scan_inv ch already sc0).
  { apply scan_inv_quiet; [left; reflexivity|reflexivity|exact Hinv]. }
  assert (Hfail : forall e s, scan_inv ch already s -> scan_inv ch already (query_failed q e s)).
  { intros e s Hs. unfold query_failed. destruct (is_flood e).
    - apply scan_inv_quiet; [right; reflexivity|reflexivity|].
      apply scan_inv_add_error. exact Hs.
    - apply scan_inv_add_error. exact Hs. }
  destruct (search_request client (tick (world sc)) entity q) as [msgs|e].
  - destruct (query_messages ch q msgs sc0 0) as [[sc1 n1] r1] eqn:Hq.
    assert (H1 : scan_inv ch already sc1).
    { eapply (query_messages_rule (scan_inv ch already)); [|exact Hq|exact H0].
      intros s msg body Hnew _ Hw Hs.
      apply window_of_or_else in Hw. destruct Hw as [Hlt Hgt].
      apply scan_inv_step; assumption. }
    destruct r1 as [e|]; [apply Hfail; exact H1|].
    apply scan_inv_quiet; [right; reflexivity|reflexivity|exact H1].
  - apply Hfail. exact H0.
Qed.

(** The loop over the queries: each query is searched once, in order. *)
Lemma run_queries_effect client entity ch queries : forall sc,
  let sc' := fold_left (run_query client entity ch) queries sc in
  tick (world sc') = (tick (world sc) + length queries)%nat
  /\ exists added, log (world sc') = log (world sc) ++ added /\ stretch ch queries [] added.
Proof.
  induction queries as [|q rest IH]; intros sc; cbn [fold_left length].
  - split; [lia|]. exists []. rewrite app_nil_r. split; [reflexivity|apply stretch_nil].
  - specialize (IH (run_query client entity ch sc q)). cbn zeta in IH.
    destruct IH as [Ht (added & Hl & Hs)].
    destruct (run_query_effect client entity ch sc q) as [Ht1 (added1 & Hl1 & Hs1)].
    split; [rewrite Ht, Ht1; lia|].
    exists (added1 ++ added). split; [rewrite Hl, Hl1, <- app_assoc; reflexivity|].
    apply (stretch_app ch [q] [] _ rest []); assumption.
Qed.

Lemma run_queries_inv client entity ch already queries : forall sc,
  scan_inv ch already sc ->
  scan_inv ch already (fold_left (run_query client entity ch) queries sc).
Proof.
  induction queries as [|q rest IH]; intros sc H; cbn [fold_left]; [exact H|].
  apply IH. apply run_query_inv. exact H.
Qed.

(** *** The history scan and the whole call *)

Lemma history_messages_inv ch already msgs sc off n sc' off' n' r :
  history_messages ch msgs sc off n = (sc', off', n', r) ->
  scan_inv ch already sc -> scan_inv ch already sc'.
Proof.
  intros H. eapply (history_messages_rule (scan_inv ch already)); [|exact H].
  intros s msg body Hnew _ Hlt Hgt Hs. apply scan_inv_step; assumption.
Qed.

(** From cursor 0 the loop is over after one round, with one page
    requested. *)
Lemma history_loop_round fuel client entity ch already batch sc :
  scan_inv ch already sc ->
  exists sc' r added,
    history_loop (S fuel) client entity ch 0 batch sc = Some (sc', r)
    /\ scan_inv ch already sc'
    /\ tick (world sc') = S (tick (world sc))
    /\ log (world sc') = log (world sc) ++ added
    /\ stretch ch [] [0] added.
Proof.
  intros Hinv. cbn [history_loop].
  set (sc0 := in_world (request (History ch 0)) sc).
  assert (H0 : scan_inv ch already sc0).
  { apply scan_inv_quiet; [left; reflexivity|reflexivity|exact Hinv]. }
  assert (Hbase : log (world sc0) = log (world sc) ++ [History ch 0]
                  /\ stretch ch [] [0] [History ch 0]).
  { split; [reflexivity|apply stretch_history]. }
  destruct (get_history_request client (tick (world sc)) entity 0 100)
    as [[|m msgs]|e].
  - eexists _, _, _. split; [reflexivity|]. split; [exact H0|].
    split; [reflexivity|exact Hbase].
  - destruct (history_messages ch (m :: msgs) sc0 0 0) as [[[sc1 off1] n1] r1] eqn:Hm.
    pose proof (history_messages_inv ch already _ _ _ _ _ _ _ _ Hm H0) as H1.
    apply history_messages_effect in Hm.
    destruct Hm as (Ht & (ids & Hl) & Ho).
    assert (off1 = 0) as -> by (destruct Ho; assumption).
    assert (Hlog : log (world sc1)
                   = log (world sc) ++ ([History ch 0] ++ map (Classified ch) ids)).
    { rewrite Hl. destruct Hbase as [-> _]. rewrite <- app_assoc. reflexivity. }
    assert (Hst : stretch ch [] [0] ([History ch 0] ++ map (Classified ch) ids)).
    { apply (stretch_app ch [] [0] _ [] []); [apply stretch_history|apply stretch_classified]. }
    destruct r1 as [e|].
    + eexists _, _, _. split; [reflexivity|]. split; [exact H1|].
      split; [exact Ht|]. split; [exact Hlog|exact Hst].
    + change (0 =? 0) with true. cbn iota.
      eexists _, _, _. split; [reflexivity|]. split; [exact H1|].
      split; [exact Ht|]. split; [exact Hlog|exact Hst].
  - eexists _, _, _. split; [reflexivity|]. split; [exact H0|].
    split; [reflexivity|exact Hbase].
Qed.

Lemma history_scan_round fuel client entity ch already sc :
  scan_inv ch already sc ->
  exists sc' added,
    history_scan (S fuel) client entity ch sc = Some sc'
    /\ scan_inv ch already sc'
    /\ tick (world sc') = S (tick (world sc))
    /\ log (world sc') = log (world sc) ++ added
    /\ stretch ch [] [0] added.
Proof.
  intros Hinv. unfold history_scan.
  destruct (history_loop_round fuel client entity ch already 0 sc Hinv)
    as (sc1 & r & added & -> & H1 & Ht & Hl & Hs).
  destruct r as [e|]; eexists _, added; (split; [reflexivity|]);
    (split; [try apply scan_inv_add_error; exact H1|]);
    (split; [exact Ht|]); (split; [exact Hl|exact Hs]).
Qed.

(** The record of a channel that could not be resolved. *)
Lemma search_channel_inaccessible fuel client ch queries results e :
  get_entity client (tick (run_world results)) ch = Raise e ->
  search_channel fuel client ch queries results
  = Some (mkRun (<[ch := mkChannelData ch "inaccessible" 0 [] 
                          ["Cannot access channel: " +:+ str e] None None None]>
                   (channels results))
                (request (Resolve ch) (run_world results))).
Proof. intros H. unfold search_channel. rewrite H. reflexivity. Qed.

(** A call on a channel that resolves: with a round of fuel it returns;
    the channel is searched once for each query and one history page is
    requested; each message id is classified at most once and appended at
    most once, and what is appended lies in the window. *)
Lemma search_channel_accessible fuel client ch queries results entity :
  get_entity client (tick (run_world results)) ch = Ok entity ->
  exists d added,
    search_channel (S fuel) client ch queries results
    = Some (mkRun (<[ch := d]> (channels results))
                  (mkWorld (S (S (tick (run_world results)) + length queries))
                           (log (run_world results) ++ Resolve ch :: added)))
    /\ status d = "accessible" /\ channel d = ch
    /\ total_messages d = Z.of_nat (length (messages d))
    /\ stretch ch queries [0] added
    /\ NoDup (classified ch added)
    /\ sublist (message_ids d) (classified ch added)
    /\ Forall (from_window ch) (messages d).
Proof.
  intros Hres. unfold search_channel. rewrite Hres.
  set (w := request (Resolve ch) (run_world results)).
  set (d0 := mkChannelData ch "accessible" 0 [] [] _ _ _).
  set (already := classified ch (log w)).
  assert (Hinit : scan_inv ch already (mkScan d0 ∅ w)).
  { split; [|split; [constructor|split; reflexivity]].
    exists []. cbn [world seen_ids channel_data].
    rewrite app_nil_r. split; [reflexivity|]. split; [constructor|].
    split; [|constructor]. intros i. split; intros Hi; [|inversion Hi].
    apply not_elem_of_empty in Hi. contradiction. }
  pose proof (run_queries_inv client entity ch already queries _ Hinit) as Hq.
  destruct (run_queries_effect client entity ch queries (mkScan d0 ∅ w))
    as [Htq (addq & Hlq & Hsq)].
  set (scq := fold_left (run_query client entity ch) queries (mkScan d0 ∅ w)) in *.
  destruct (history_scan_round fuel client entity ch already scq Hq)
    as (sch & addh & -> & Hh & Hth & Hlh & Hsh).
  exists (finish sch), (addq ++ addh).
  assert (Hlog : log (world sch) = log (run_world results) ++ Resolve ch :: addq ++ addh).
  { rewrite Hlh, Hlq. cbn [world]. unfold w, request. cbn [log].
    rewrite <- !app_assoc. reflexivity. }
  assert (Htick : tick (world sch) = S (S (tick (run_world results)) + length queries)).
  { rewrite Hth, Htq. cbn [world]. unfold w, request. cbn [tick]. lia. }
  assert (Hw : world sch = mkWorld (S (S (tick (run_world results)) + length queries))
                             (log (run_world results) ++ Resolve ch :: addq ++ addh)).
  { destruct (world sch) as [t l]. cbn [tick log] in Htick, Hlog. subst. reflexivity. }
  rewrite Hw. split; [reflexivity|].
  destruct Hh as [(new & Hc & Hnd & Hseen & Hsub) (Hwin & Hch & Hst)].
  assert (Hnew : classified ch (addq ++ addh) = new).
  { assert (Hlog' : log (world sch) = log w ++ (addq ++ addh)).
    { rewrite Hlh, Hlq. cbn [world]. rewrite <- app_assoc. reflexivity. }
    rewrite Hlog', classified_app in Hc. unfold already in Hc.
    apply app_inv_head in Hc. exact Hc. }
  rewrite Hnew.
  split; [exact Hst|]. split; [exact Hch|]. split; [reflexivity|].
  split; [|split; [exact Hnd|split; [exact Hsub|exact Hwin]]].
  pose proof (stretch_app ch queries [] _ [] [0] _ Hsq Hsh) as Hs.
  rewrite app_nil_r in Hs. exact Hs.
Qed.

(** More rounds change nothing: the loop never reaches its second one. *)
Lemma history_loop_fuel fuel client entity ch batch sc :
  history_loop (S fuel) client entity ch 0 batch sc
  = history_loop 1 client entity ch 0 batch sc.
Proof.
  cbn [history_loop].
  destruct (get_history_request client (tick (world sc)) entity 0 100)
    as [[|m msgs]|e]; [reflexivity| |reflexivity].
  destruct (history_messages ch (m :: msgs)
              (in_world (request (History ch 0)) sc) 0 0)
    as [[[sc1 off1] n1] r1] eqn:Hm.
  apply history_messages_effect in Hm. destruct Hm as (_ & _ & Ho).
  assert (off1 = 0) as -> by (destruct Ho; assumption).
  destruct r1; reflexivity.
Qed.

(** Whatever the client answers, the record a call writes holds only
    messages of the window, and the call requests at most one history
    page. *)
Lemma search_channel_window fuel client ch queries results :
  exists r' d added,
    search_channel (S fuel) client ch queries results = Some r'
    /\ channels r' = <[ch := d]> (channels results)
    /\ log (run_world r') = log (run_world results) ++ Resolve ch :: added
    /\ Forall (from_window ch) (messages d)
    /\ (length (history_requests ch added) <= 1)%nat.
Proof.
  destruct (get_entity client (tick (run_world results)) ch) as [entity|e] eqn:Hres.
  - destruct (search_channel_accessible fuel client ch queries results entity Hres)
      as (d & added & -> & _ & _ & _ & (Hs1 & Hs2 & Hs3) & _ & _ & Hwin).
    eexists _, d, added. split; [reflexivity|]. split; [reflexivity|].
    split; [reflexivity|]. split; [exact Hwin|]. rewrite Hs2. cbn [length]. lia.
  - rewrite (search_channel_inaccessible _ _ _ _ _ _ Hres).
    eexists _, _, []. split; [reflexivity|]. split; [reflexivity|].
    split; [reflexivity|]. split; [constructor|]. cbn. lia.
Qed.

(** *** The loop over the channels *)

(** With a round of fuel a call returns, whatever the client answers; it
    resolves its channel once, writes the record of that channel and
    leaves the records of the others alone. *)
Lemma search_channel_total fuel client ch queries results :
  exists r',
    search_channel (S fuel) client ch queries results = Some r'
    /\ (exists d, channels r' = <[ch := d]> (channels results))
    /\ (exists added, log (run_world r') = log (run_world results) ++ Resolve ch :: added
                      /\ resolved added = []
                      /\ length (history_requests ch added) <= 1)%nat.
Proof.
  destruct (get_entity client (tick (run_world results)) ch) as [entity|e] eqn:Hres.
  - destruct (search_channel_accessible fuel client ch queries results entity Hres)
      as (d & added & -> & _ & _ & _ & (Hs1 & Hs2 & Hs3) & _).
    eexists. split; [reflexivity|]. cbn [channels run_world log].
    split; [exists d; reflexivity|]. exists added. split; [reflexivity|].
    split; [exact Hs3|]. rewrite Hs2. cbn. lia.
  - rewrite (search_channel_inaccessible _ _ _ _ _ _ Hres).
    eexists. split; [reflexivity|]. cbn [channels run_world].
    split; [eexists; reflexivity|]. exists []. split; [reflexivity|].
    split; [reflexivity|]. cbn. lia.
Qed.

Lemma search_all_app fuel client queries pre : forall post results,
  search_all fuel client (pre ++ post) queries results
  = match search_all fuel client pre queries results with
    | Some r1 => search_all fuel client post queries r1
    | None => None
    end.
Proof.
  induction pre as [|c pre IH]; intros post results; cbn [search_all app]; [reflexivity|].
  destruct (search_channel fuel client c queries results) as [r|]; [|reflexivity].
  apply IH.
Qed.

(** The run over any list of channels returns; every channel of the list
    is resolved, in order, and has a record at the end; the records of
    channels outside the list are untouched. *)
Lemma search_all_total fuel client queries targets : forall results,
  exists r',
    search_all (S fuel) client targets queries results = Some r'
    /\ resolved (log (run_world r')) = resolved (log (run_world results)) ++ targets
    /\ (forall c, c ∈ targets -> is_Some (channels r' !! c))
    /\ (forall c, c ∉ targets -> channels r' !! c = channels results !! c).
Proof.
  induction targets as [|c rest IH]; intros results; cbn [search_all].
  - exists results. split; [reflexivity|]. rewrite app_nil_r. split; [reflexivity|].
    split; [intros c Hc; inversion Hc|reflexivity].
  - destruct (search_channel_total fuel client c queries results)
      as (r1 & -> & (d & Hd) & (added & Hl & Hr & _)).
    set (r1' := mkRun (channels r1) (note (Sleep 1000) (run_world r1))).
    destruct (IH r1') as (r' & Hrun & Hres & Hin & Hout).
    exists r'. split; [exact Hrun|].
    split.
    { rewrite Hres. unfold r1', note. cbn [run_world log].
      rewrite Hl. rewrite !resolved_app.
      change (Resolve c :: added) with ([Resolve c] ++ added).
      rewrite resolved_app, Hr. cbn. rewrite !app_nil_r, <- app_assoc. reflexivity. }
    split.
    { intros c' Hc'. apply elem_of_cons in Hc'.
      destruct (decide (c' ∈ rest)) as [Hr'|Hr']; [apply Hin; exact Hr'|].
      destruct Hc' as [->|Hc']; [|contradiction].
      rewrite (Hout c Hr'). unfold r1'. cbn [channels]. rewrite Hd.
      rewrite lookup_insert_eq. eexists; reflexivity. }
    intros c' Hc'. apply not_elem_of_cons in Hc'. destruct Hc' as [Hne Hr'].
    rewrite (Hout c' Hr'). unfold r1'. cbn [channels]. rewrite Hd.
    apply lookup_insert_ne. congruence.
Qed.

End WithRuntime.
End NiemciFacts.

(** ** The phone-number collector *)

Module PhonesFacts.
Import Tg Phones TgFacts.

Section WithRuntime.
Context `{RT : PyRuntime} `{SO : SetOrder}.

(** The messages of a search: every message with a text whose id was not
    seen is classified and appended; nothing else changes. *)
Lemma query_messages_spec ch q already msgs : forall sc n,
  dedup_inv ch already sc ->
  let sc' := fst (query_messages ch q msgs sc n) in
  dedup_inv ch already sc'
  /\ tick (world sc') = tick (world sc)
  /\ (exists ids, log (world sc') = log (world sc) ++ map (Classified ch) ids)
  /\ seen_ids sc ⊆ seen_ids sc'
  /\ (forall m, m ∈ msgs -> is_Some (text_of m) -> id m ∈ seen_ids sc').
Proof.
  induction msgs as [|msg rest IH]; intros sc n Hinv; cbn [query_messages].
  - cbn [fst]. split; [exact Hinv|]. split; [reflexivity|].
    split; [exists []; cbn [map]; rewrite app_nil_r; reflexivity|].
    split; [reflexivity|]. intros m Hm. inversion Hm.
  - destruct (decide (id msg ∈ seen_ids sc)) as [Hin|Hnew].
    + specialize (IH sc n Hinv). cbn zeta in IH.
      destruct IH as (H1 & H2 & H3 & H4 & H5).
      repeat (split; [assumption|]).
      intros m Hm Ht. apply elem_of_cons in Hm. destruct Hm as [->|Hm]; [|auto].
      apply H4. exact Hin.
    + destruct (text_of msg) as [body|] eqn:Htext.
      * set (sc1 := add_message _ _).
        assert (Hinv1 : dedup_inv ch already sc1).
        { destruct Hinv as (new & Hc & Hnd & Hseen & Hids & Hhead).
          exists (new ++ [id msg]).
          assert (Hfresh : id msg ∉ new) by (rewrite <- Hseen; exact Hnew).
          split.
          { unfold sc1, add_message, in_world, mark_seen, note. cbn [world log].
            rewrite classified_app, Hc, <- app_assoc. f_equal. f_equal.
            cbn. rewrite String.eqb_refl. reflexivity. }
          split.
          { apply NoDup_app. split; [exact Hnd|]. split; [|apply NoDup_singleton].
            intros x Hx Hx'. apply list_elem_of_singleton in Hx'. subst x. contradiction. }
          split.
          { intros i. unfold sc1, add_message, in_world, mark_seen. cbn [seen_ids].
            rewrite elem_of_union, elem_of_singleton, elem_of_app,
              list_elem_of_singleton, Hseen. tauto. }
          split; [|exact Hhead].
          unfold sc1, message_ids, add_message, in_world, mark_seen.
          cbn [channel_data messages].
          rewrite map_app. unfold message_ids in Hids. rewrite Hids. reflexivity. }
        specialize (IH sc1 (n + 1) Hinv1). cbn zeta in IH.
        destruct IH as (H1 & H2 & (ids & H3) & H4 & H5).
        split; [exact H1|]. split; [exact H2|].
        split.
        { exists (id msg :: ids). rewrite H3. unfold sc1, add_message, in_world, note.
          cbn [world log map]. rewrite <- app_assoc. reflexivity. }
        assert (Hsub : ({[id msg]} ∪ seen_ids sc : gset Z)
                       ⊆ seen_ids (fst (query_messages ch q rest sc1 (n + 1)))) by exact H4.
        split; [set_solver|].
        intros m Hm Ht. apply elem_of_cons in Hm. destruct Hm as [->|Hm]; [|auto].
        set_solver.
      * specialize (IH sc n Hinv). cbn zeta in IH.
        destruct IH as (H1 & H2 & H3 & H4 & H5).
        repeat (split; [assumption|]).
        intros m Hm Ht. apply elem_of_cons in Hm. destruct Hm as [->|Hm]; [|auto].
        rewrite Htext in Ht. destruct Ht as [x Hx]. discriminate.
Qed.

Lemma phones_query_messages_effect ch q msgs : forall sc n,
  tick (world (fst (query_messages ch q msgs sc n))) = tick (world sc)
  /\ exists ids, log (world (fst (query_messages ch q msgs sc n)))
                 = log (world sc) ++ map (Classified ch) ids.
Proof.
  induction msgs as [|msg rest IH]; intros sc n; cbn [query_messages].
  - split; [reflexivity|]. exists []. cbn [map fst]. rewrite app_nil_r. reflexivity.
  - destruct (decide (id msg ∈ seen_ids sc)); [apply IH|].
    destruct (text_of msg) as [body|]; [|apply IH].
    set (sc1 := add_message _ _).
    destruct (IH sc1 (n + 1)) as [Ht [ids Hl]].
    split; [exact Ht|]. exists (id msg :: ids). rewrite Hl.
    unfold sc1, add_message, in_world, mark_seen, note. cbn [world log map].
    rewrite <- app_assoc. reflexivity.
Qed.

(** One query: one search request, whatever the answer. *)
Lemma phones_run_query_effect client entity ch sc q :
  tick (world (run_query client entity ch sc q)) = S (tick (world sc))
  /\ exists added,
       log (world (run_query client entity ch sc q)) = log (world sc) ++ added
       /\ stretch ch [q] [] added.
Proof.
  unfold run_query.
  set (sc0 := in_world (request (Search ch q)) sc).
  destruct (search_request client (tick (world sc)) entity q) as [msgs|e].
  - destruct (phones_query_messages_effect ch q msgs sc0 0) as [Ht [ids Hl]].
    split; [cbn [sleep in_world world note tick]; rewrite Ht; reflexivity|].
    exists ([Search ch q] ++ map (Classified ch) ids ++ [Sleep 500]). split.
    + unfold sleep, in_world, note. cbn [world log]. rewrite Hl.
      unfold sc0, in_world, request. cbn [world log].
      rewrite <- !app_assoc. reflexivity.
    + apply (stretch_app ch [q] [] _ [] []); [apply stretch_search|].
      apply (stretch_app ch [] [] _ [] []); [apply stretch_classified|apply stretch_sleep].
  - destruct (is_flood e).
    + split; [reflexivity|]. exists ([Search ch q] ++ [Sleep 30000]). split.
      * unfold sleep, sc0, in_world, note, request. cbn [world log].
        rewrite <- app_assoc. reflexivity.
      * apply (stretch_app ch [q] [] _ [] []); [apply stretch_search|apply stretch_sleep].
    + split; [reflexivity|]. exists [Search ch q].
      split; [reflexivity|apply stretch_search].
Qed.

(** The loop over the queries: each query is searched once, in order. *)
Lemma phones_run_queries_effect client entity ch queries : forall sc,
  let sc' := fold_left (run_query client entity ch) queries sc in
  tick (world sc') = (tick (world sc) + length queries)%nat
  /\ exists added, log (world sc') = log (world sc) ++ added /\ stretch ch queries [] added.
Proof.
  induction queries as [|q rest IH]; intros sc; cbn [fold_left length].
  - split; [lia|]. exists []. rewrite app_nil_r. split; [reflexivity|apply stretch_nil].
  - specialize (IH (run_query client entity ch sc q)). cbn zeta in IH.
    destruct IH as [Ht (added & Hl & Hs)].
    destruct (phones_run_query_effect client entity ch sc q) as [Ht1 (added1 & Hl1 & Hs1)].
    split; [rewrite Ht, Ht1; lia|].
    exists (added1 ++ added). split; [rewrite Hl, Hl1, <- app_assoc; reflexivity|].
    apply (stretch_app ch [q] [] _ rest []); assumption.
Qed.

Lemma dedup_inv_quiet ch already sc (ev : event) (f : event -> World -> World) :
  (f = request \/ f = note) ->
  classified ch [ev] = [] ->
  dedup_inv ch already sc -> dedup_inv ch already (in_world (f ev) sc).
Proof.
  intros Hf Hev (new & Hc & Hrest).
  exists new. split; [|exact Hrest].
  destruct Hf as [-> | ->]; unfold in_world, request, note; cbn [world log];
    rewrite classified_app, Hev, app_nil_r; exact Hc.
Qed.

(** One query: one search request, whatever the answer, and every
    message with a text in the answer is in [seen_ids] afterwards. *)
Lemma run_query_spec client entity ch already sc q :
  dedup_inv ch already sc ->
  let sc' := run_query client entity ch sc q in
  dedup_inv ch already sc'
  /\ tick (world sc') = S (tick (world sc))
  /\ (exists added, log (world sc') = log (world sc) ++ added /\ stretch ch [q] [] added)
  /\ seen_ids sc ⊆ seen_ids sc'
  /\ (forall msgs m,
        search_request client (tick (world sc)) entity q = Ok msgs ->
        m ∈ msgs -> is_Some (text_of m) -> id m ∈ seen_ids sc').
Proof.
  intros Hinv. cbn zeta. unfold run_query.
  set (sc0 := in_world (request (Search ch q)) sc).
  assert (H0 : dedup_inv ch already sc0).
  { apply dedup_inv_quiet; [left; reflexivity|reflexivity|exact Hinv]. }
  destruct (search_request client (tick (world sc)) entity q) as [msgs|e].
  - destruct (query_messages_spec ch q already msgs sc0 0 H0)
      as (H1 & H2 & (ids & H3) & H4 & H5).
    set (sc1 := fst (query_messages ch q msgs sc0 0)) in *.
    split; [apply dedup_inv_quiet; [right; reflexivity|reflexivity|exact H1]|].
    split; [cbn [sleep in_world world note tick]; rewrite H2; reflexivity|].
    split.
    { exists ([Search ch q] ++ map (Classified ch) ids ++ [Sleep 500]). split.
      - unfold sleep, in_world, note. cbn [world log]. rewrite H3.
        unfold sc0, in_world, request. cbn [world log].
        rewrite <- !app_assoc. reflexivity.
      - apply (stretch_app ch [q] [] _ [] []); [apply stretch_search|].
        apply (stretch_app ch [] [] _ [] []);
          [apply stretch_classified|apply stretch_sleep]. }
    split; [exact H4|].
    intros msgs' m Heq Hm Ht. injection Heq as <-. apply H5; assumption.
  - assert (Hlog : forall s, s = sc0 \/ s = sleep 30000 sc0 ->
               exists added, log (world s) = log (world sc) ++ added
                             /\ stretch ch [q] [] added).
    { intros s [->| ->].
      - exists [Search ch q]. split; [reflexivity|apply stretch_search].
      - exists ([Search ch q] ++ [Sleep 30000]). split.
        + unfold sleep, sc0, in_world, note, request. cbn [world log].
          rewrite <- app_assoc. reflexivity.
        + apply (stretch_app ch [q] [] _ [] []);
            [apply stretch_search|apply stretch_sleep]. }
    destruct (is_flood e).
    + split; [apply dedup_inv_quiet; [right; reflexivity|reflexivity|exact H0]|].
      split; [reflexivity|]. split; [apply Hlog; right; reflexivity|].
      split; [reflexivity|]. intros msgs m Heq. discriminate.
    + split; [exact H0|]. split; [reflexivity|].
      split; [apply Hlog; left; reflexivity|].
      split; [reflexivity|]. intros msgs m Heq. discriminate.
Qed.

(** The loop over the queries. *)
Lemma run_queries_spec client entity ch already queries : forall sc,
  dedup_inv ch already sc ->
  let sc' := fold_left (run_query client entity ch) queries sc in
  dedup_inv ch already sc'
  /\ tick (world sc') = (tick (world sc) + length queries)%nat
  /\ (exists added, log (world sc') = log (world sc) ++ added /\ stretch ch queries [] added)
  /\ seen_ids sc ⊆ seen_ids sc'
  /\ (forall k q msgs m,
        queries !! k = Some q ->
        search_request client (tick (world sc) + k) entity q = Ok msgs ->
        m ∈ msgs -> is_Some (text_of m) -> id m ∈ seen_ids sc').
Proof.
  induction queries as [|q rest IH]; intros sc Hinv; cbn [fold_left length].
  - split; [exact Hinv|]. split; [lia|].
    split; [exists []; rewrite app_nil_r; split;
            [reflexivity|apply stretch_nil]|].
    split; [reflexivity|]. intros k q msgs m Hk. rewrite lookup_nil in Hk. discriminate.
  - destruct (run_query_spec client entity ch already sc q Hinv)
      as (H1 & H2 & (add1 & H3 & H3') & H4 & H5).
    specialize (IH _ H1). cbn zeta in IH.
    destruct IH as (K1 & K2 & (add2 & K3 & K3') & K4 & K5).
    split; [exact K1|]. split; [rewrite K2, H2; lia|].
    split.
    { exists (add1 ++ add2). split; [rewrite K3, H3, <- app_assoc; reflexivity|].
      apply (stretch_app ch [q] [] _ rest []); assumption. }
    split; [etransitivity; eassumption|].
    intros k q' msgs m Hk Hq Hm Ht. destruct k as [|k].
    + cbn in Hk. injection Hk as <-. rewrite Nat.add_0_r in Hq.
      apply K4. eapply H5; eassumption.
    + cbn in Hk. eapply K5; try eassumption.
      rewrite H2. replace (S (tick (world sc)) + k)%nat with (tick (world sc) + S k)%nat by lia.
      exact Hq.
Qed.

Lemma search_channel_phones_inaccessible client ch results e :
  get_entity client (tick (run_world results)) ch = Raise e ->
  search_channel_phones client ch results
  = mkRun (<[ch := mkChannelData ch "inaccessible" 0 [] None None]> (channels results))
          (request (Resolve ch) (run_world results)).
Proof. intros H. unfold search_channel_phones. rewrite H. reflexivity. Qed.

(** A call on a channel that resolves: each query is searched once; a
    message id is classified exactly when it is appended, and at most
    once; every message with a text that a search delivers is in the
    result list. *)
Lemma search_channel_phones_accessible client ch results entity :
  get_entity client (tick (run_world results)) ch = Ok entity ->
  exists d added,
    search_channel_phones client ch results
    = mkRun (<[ch := d]> (channels results))
            (mkWorld (S (tick (run_world results)) + length ALL_QUERIES)
                     (log (run_world results) ++ Resolve ch :: added))
    /\ status d = "accessible" /\ channel d = ch
    /\ total_messages d = Z.of_nat (length (messages d))
    /\ stretch ch ALL_QUERIES [] added
    /\ NoDup (message_ids d)
    /\ classified ch added = message_ids d
    /\ (forall k q msgs m,
          ALL_QUERIES !! k = Some q ->
          search_request client (S (tick (run_world results)) + k) entity q = Ok msgs ->
          m ∈ msgs -> is_Some (text_of m) -> id m ∈ message_ids d).
Proof.
  intros Hres. unfold search_channel_phones. rewrite Hres.
  generalize ALL_QUERIES. intros queries.
  set (w := request (Resolve ch) (run_world results)).
  set (d0 := mkChannelData ch "accessible" 0 [] _ _).
  set (already := classified ch (log w)).
  assert (Hinit : dedup_inv ch already (mkScan d0 ∅ w)).
  { exists []. cbn [world seen_ids channel_data]. rewrite app_nil_r.
    split; [reflexivity|]. split; [constructor|].
    split; [|repeat split; reflexivity].
    intros i. split; intros Hi; [|inversion Hi].
    apply not_elem_of_empty in Hi. contradiction. }
  destruct (run_queries_spec client entity ch already queries _ Hinit)
    as ((new & Hc & Hnd & Hseen & Hids & Hch & Hst) & Ht & (added & Hl & Hs) & _ & Hall).
  set (scq := fold_left (run_query client entity ch) queries (mkScan d0 ∅ w)) in *.
  exists (finish scq), added.
  assert (Hw : world scq = mkWorld (S (tick (run_world results)) + length queries)
                             (log (run_world results) ++ Resolve ch :: added)).
  { destruct (world scq) as [t l]. cbn [tick log world] in Ht, Hl.
    unfold w, request in Ht, Hl. cbn [tick log] in Ht, Hl. subst t l.
    rewrite <- app_assoc. reflexivity. }
  rewrite Hw. split; [reflexivity|].
  split; [exact Hst|]. split; [exact Hch|]. split; [reflexivity|].
  split; [exact Hs|].
  change (message_ids (finish scq)) with (message_ids (channel_data scq)).
  rewrite Hids. split; [exact Hnd|].
  split.
  { rewrite Hl, classified_app in Hc. unfold already in Hc. cbn [world] in Hc.
    apply app_inv_head in Hc. exact Hc. }
  intros k q msgs m Hk Hq Hm Htext. apply Hseen.
  eapply Hall; try eassumption.
Qed.

End WithRuntime.
End PhonesFacts.

(** ** The history retrieval of the extended @Niemci search *)

Module NiemciExtendedFacts.
Import Tg NiemciExtended.





End NiemciExtendedFacts.

(** ** The extended recruitment search *)

Module RecruitmentFacts.
Import Tg Recruitment TgFacts.

Section WithRuntime.
Context `{RT : PyRuntime}.

Lemma history_messages_frame ch msgs : forall st,
  frame (fst (history_messages ch msgs st)) = frame st.
Proof.
  induction msgs as [|msg rest IH]; intros st; cbn [history_messages]; [reflexivity|].
  destruct (in_window msg) as [[|]|e]; [|apply IH|reflexivity].
  rewrite IH. reflexivity.
Qed.

Lemma query_messages_frame ch q msgs : forall st,
  frame (fst (query_messages ch q msgs st)) = frame st.
Proof.
  induction msgs as [|msg rest IH]; intros st; cbn [query_messages]; [reflexivity|].
  destruct (in_window msg) as [[|]|e]; [|apply IH|reflexivity].
  destruct (decide _); [apply IH|]. rewrite IH. reflexivity.
Qed.

Lemma frame_request (ev : event) (st : State) :
  resolved [ev] = [] -> frame (in_world (request ev) st) = frame st.
Proof.
  intros H. unfold frame, in_world, request. cbn [results world log].
  rewrite resolved_app, H, app_nil_r. reflexivity.
Qed.

Lemma scan_history_frame client entity ch st :
  frame (scan_history client entity ch st) = frame st.
Proof.
  unfold scan_history.
  destruct (get_history_request client (tick (world st)) entity 0 200) as [msgs|e].
  - rewrite history_messages_frame. apply frame_request. reflexivity.
  - apply frame_request. reflexivity.
Qed.

Lemma run_query_frame client entity ch st q :
  frame (run_query client entity ch st q) = frame st.
Proof.
  unfold run_query.
  set (st0 := in_world (request (Search ch q)) st).
  assert (H0 : frame st0 = frame st) by (apply frame_request; reflexivity).
  destruct (search_request client (tick (world st)) entity q) as [msgs|e]; [|exact H0].
  pose proof (query_messages_frame ch q msgs st0) as H1.
  destruct (query_messages ch q msgs st0) as [st1 [e|]]; cbn [fst] in H1; [congruence|].
  destruct (count_in_window msgs) as [n|e]; [|congruence].
  rewrite <- H0, <- H1. reflexivity.
Qed.

Lemma run_queries_frame client entity ch queries : forall st,
  frame (fold_left (run_query client entity ch) queries st) = frame st.
Proof.
  induction queries as [|q rest IH]; intros st; cbn [fold_left]; [reflexivity|].
  rewrite IH. apply run_query_frame.
Qed.

(** A channel that cannot be resolved. *)
Lemma search_one_inaccessible client r w ch e :
  get_entity client (tick w) ch = Raise e ->
  search_one client (r, w) ch
  = (mkResults (accessible_channels r) (inaccessible_channels r ++ [(ch, str e)])
       (messages r)
       (mkStatistics (total_messages (statistics r))
          (<[ch := 0]> (by_channel (statistics r)))
          (by_query (statistics r)) (by_language (statistics r))
          (by_month (statistics r))),
     request (Resolve ch) w).
Proof. intros H. unfold search_one. rewrite H. reflexivity. Qed.

(** Any channel: it is resolved once, it gets a count, and the list of
    inaccessible channels only grows. *)
Lemma search_one_total client r w ch :
  let r' := fst (search_one client (r, w) ch) in
  let w' := snd (search_one client (r, w) ch) in
  (exists n, by_channel (statistics r') = <[ch := n]> (by_channel (statistics r)))
  /\ (exists l, inaccessible_channels r' = inaccessible_channels r ++ l)
  /\ resolved (log w') = resolved (log w) ++ [ch].
Proof.
  cbn zeta.
  destruct (get_entity client (tick w) ch) as [entity|e] eqn:Hres.
  - unfold search_one. rewrite Hres. generalize ADDITIONAL_QUERIES. intros queries.
    set (st0 := mkState r [] (request (Resolve ch) w)).
    set (st1 := scan_history client entity ch st0).
    set (st2 := fold_left (run_query client entity ch) queries st1).
    assert (Hf : frame st2 = frame st0).
    { unfold st2, st1. rewrite run_queries_frame, scan_history_frame. reflexivity. }
    unfold frame in Hf. cbn [results world st0] in Hf.
    injection Hf as H1 H2 H3.
    cbn [fst snd set_by_channel with_statistics results statistics by_channel
         inaccessible_channels world].
    split; [eexists; rewrite H1; reflexivity|].
    split; [exists []; rewrite H2, app_nil_r; reflexivity|].
    rewrite H3. unfold request. cbn [log]. rewrite resolved_app. reflexivity.
  - rewrite (search_one_inaccessible _ _ _ _ _ Hres). cbn [fst snd statistics by_channel
      inaccessible_channels].
    split; [eexists; reflexivity|]. split; [eexists; reflexivity|].
    unfold request. cbn [log]. rewrite resolved_app. reflexivity.
Qed.

(** The loop over any list of channels: every channel of the list is
    resolved, in order, and has a count at the end; counts of other
    channels and earlier entries of the inaccessible list stay. *)
Lemma search_loop_total client targets : forall r w,
  let r' := fst (fold_left (search_one client) targets (r, w)) in
  let w' := snd (fold_left (search_one client) targets (r, w)) in
  resolved (log w') = resolved (log w) ++ targets
  /\ (forall c, c ∈ targets -> is_Some (by_channel (statistics r') !! c))
  /\ (forall c, c ∉ targets ->
        by_channel (statistics r') !! c = by_channel (statistics r) !! c)
  /\ (exists l, inaccessible_channels r' = inaccessible_channels r ++ l).
Proof.
  induction targets as [|c rest IH]; intros r w; cbn [fold_left]; cbn zeta.
  - cbn [fst snd]. rewrite app_nil_r. split; [reflexivity|].
    split; [intros c Hc; inversion Hc|]. split; [reflexivity|].
    exists []. rewrite app_nil_r. reflexivity.
  - destruct (search_one_total client r w c) as ((n & Hn) & (l1 & Hl1) & Hres).
    destruct (search_one client (r, w) c) as [r1 w1]. cbn [fst snd] in Hn, Hl1, Hres.
    specialize (IH r1 w1). cbn zeta in IH. destruct IH as (K1 & K2 & K3 & (l2 & K4)).
    split; [rewrite K1, Hres, <- app_assoc; reflexivity|].
    split.
    { intros c' Hc'. apply elem_of_cons in Hc'.
      destruct (decide (c' ∈ rest)) as [Hr|Hr]; [apply K2; exact Hr|].
      destruct Hc' as [->|Hc']; [|contradiction].
      rewrite (K3 c Hr), Hn, lookup_insert_eq. eexists; reflexivity. }
    split.
    { intros c' Hc'. apply not_elem_of_cons in Hc'. destruct Hc' as [Hne Hr].
      rewrite (K3 c' Hr), Hn. apply lookup_insert_ne. congruence. }
    exists (l1 ++ l2). rewrite K4, Hl1, <- app_assoc. reflexivity.
Qed.

End WithRuntime.
End RecruitmentFacts.

(** ** The classifiers *)

Module ClassifierFacts.
Import Phones.

Lemma append_cons (x : ascii) (a b : string) : String x a +:+ b = String x (a +:+ b).
Proof. reflexivity. Qed.

Lemma append_nil (b : string) : "" +:+ b = b.
Proof. reflexivity. Qed.

Lemma append_assoc (a b c : string) : (a +:+ b) +:+ c = a +:+ (b +:+ c).
Proof.
  induction a as [|x a IH]; [reflexivity|].
  rewrite !append_cons. f_equal. exact IH.
Qed.

Lemma startswith_spec (p s : string) :
  PyStr.startswith p s = true <-> exists r, s = p +:+ r.
Proof.
  revert s. induction p as [|a p IH]; intros s; cbn [PyStr.startswith].
  - split; [intros _; exists s; reflexivity|reflexivity].
  - destruct s as [|b s].
    + split; [discriminate|]. intros [r Hr]. rewrite append_cons in Hr. discriminate.
    + destruct (Ascii.eqb_spec a b) as [->|Hne].
      * rewrite IH. split; intros [r Hr]; exists r; rewrite append_cons in *;
          [f_equal; exact Hr|].
        injection Hr as Hr. exact Hr.
      * split; [discriminate|]. intros [r Hr]. rewrite append_cons in Hr.
        injection Hr as Hab _. congruence.
Qed.

(** [needle in hay] holds exactly when [hay] is [needle] between a prefix
    and a suffix. *)
Lemma contains_spec (needle hay : string) :
  PyStr.contains needle hay = true <-> exists a b, hay = a +:+ needle +:+ b.
Proof.
  induction hay as [|c hay IH]; cbn [PyStr.contains].
  - rewrite orb_false_r, startswith_spec. split.
    + intros [r Hr]. exists "", r. exact Hr.
    + intros (a & b & H). destruct a as [|x a]; [exists b; exact H|].
      rewrite append_cons in H. discriminate.
  - rewrite orb_true_iff, startswith_spec, IH. split.
    + intros [[r Hr]|(a & b & H)].
      * exists "", r. exact Hr.
      * exists (String c a), b. rewrite append_cons. f_equal. exact H.
    + intros (a & b & H). destruct a as [|x a].
      * left. exists b. exact H.
      * right. rewrite append_cons in H. injection H as _ H. exists a, b. exact H.
Qed.

Lemma contains_trans (a b c : string) :
  PyStr.contains a b = true -> PyStr.contains b c = true -> PyStr.contains a c = true.
Proof.
  rewrite !contains_spec. intros (p & q & ->) (p' & q' & ->).
  exists (p' +:+ p), (q +:+ q'). rewrite !append_assoc. reflexivity.
Qed.

Lemma hits_mono (table : list string) (h1 h2 : string) :
  (forall kw, kw ∈ table -> PyStr.contains kw h1 = true -> PyStr.contains kw h2 = true) ->
  (PyStr.hits table h1 <= PyStr.hits table h2)%nat.
Proof.
  unfold PyStr.hits. induction table as [|kw rest IH]; intros H; [reflexivity|].
  rewrite !filter_cons.
  assert (IH' : (length (filter (fun kw => PyStr.contains kw h1 = true) rest)
                 <= length (filter (fun kw => PyStr.contains kw h2 = true) rest))%nat).
  { apply IH. intros k Hk. apply H. right. exact Hk. }
  destruct (decide (PyStr.contains kw h1 = true)) as [H1|H1].
  - rewrite decide_True by (apply H; [left|exact H1]). cbn [length]. lia.
  - destruct (decide (PyStr.contains kw h2 = true)); cbn [length]; lia.
Qed.

(** A scan adds its weight once for each entry of the table found. *)
Lemma scan_score (tag : string) (weight : Z) (table : list string) (hay : string) :
  forall acc,
    fst (scan tag weight table hay acc)
    = fst acc + weight * Z.of_nat (PyStr.hits table hay).
Proof.
  unfold scan, PyStr.hits.
  induction table as [|kw rest IH]; intros acc; cbn [fold_left].
  - cbn. lia.
  - rewrite IH, filter_cons.
    destruct (PyStr.contains kw hay) eqn:Hc.
    + rewrite decide_True by reflexivity. cbn [fst length]. lia.
    + rewrite decide_False by discriminate. lia.
Qed.

Section WithRuntime.
Context `{RT : PyRuntime}.

(** The score before the cap, as a weighted count of the table entries
    found. *)
Lemma relevance_score_spec `{SO : SetOrder} (text : string) :
  relevance_score (score_message text)
  = Z.min (5 * Z.of_nat (PyStr.hits known_phones (re_sub_nondigits text))
           + 3 * Z.of_nat (PyStr.hits high_entities (Niemci.lowered text))
           + 2 * Z.of_nat (PyStr.hits person_names (Niemci.lowered text))
           + 2 * Z.of_nat (PyStr.hits locations (Niemci.lowered text))
           + 1 * Z.of_nat (PyStr.hits construction (Niemci.lowered text))) 20.
Proof.
  unfold score_message. cbn [relevance_score].
  rewrite !scan_score. cbn [fst]. f_equal; lia.
Qed.

Lemma red_flag_score_spec (text : string) :
  Niemci.red_flag_score (Niemci.classify_message text)
  = Z.min (Z.of_nat (PyStr.hits Niemci.RED_FLAG_KEYWORDS (Niemci.lowered text))) 10.
Proof. reflexivity. Qed.

End WithRuntime.
End ClassifierFacts.

(** ** The normalizers *)

Module IngestFacts.
Import Ingest.

(** Taking apart an equation between a chain of binds and a value. *)
Ltac bind_inv H :=
  repeat match type of H with
         | bind ?r _ = Ok _ =>
             let v := fresh "v" in
             let E := fresh "E" in
             destruct r as [v|] eqn:E; cbn [bind] in H; [|discriminate H]
         end.

Section WithRuntime.
Context `{RT : PyRuntime}.

(** What holds of the documents before a loop and of each document its
    body builds holds of the documents after it. *)
Lemma for_enumerate_Forall (P : Document -> Prop) body :
  (forall idx x docs d, body idx x docs = Ok d -> P d) ->
  forall items idx acc out,
    for_enumerate body idx items acc = Ok out -> Forall P acc -> Forall P out.
Proof.
  intros Hbody. induction items as [|x rest IH]; intros idx acc out H Hacc;
    cbn [for_enumerate] in H.
  - injection H as <-. exact Hacc.
  - destruct (body idx x acc) as [d|e] eqn:Hd; cbn [bind] in H; [|discriminate].
    eapply IH; [exact H|]. apply Forall_app. split; [exact Hacc|].
    constructor; [eapply Hbody; exact Hd|constructor].
Qed.

(** A loop appends one document for each item, in order. *)
Lemma for_enumerate_Forall2 (R : json -> Document -> Prop) body :
  (forall idx x docs d, body idx x docs = Ok d -> R x d) ->
  forall items idx acc out,
    for_enumerate body idx items acc = Ok out ->
    exists new, out = acc ++ new /\ Forall2 R items new.
Proof.
  intros Hbody. induction items as [|x rest IH]; intros idx acc out H;
    cbn [for_enumerate] in H.
  - injection H as <-. exists []. rewrite app_nil_r. split; [reflexivity|constructor].
  - destruct (body idx x acc) as [d|e] eqn:Hd; cbn [bind] in H; [|discriminate].
    apply IH in H. destruct H as (new & -> & Hnew).
    exists (d :: new). rewrite <- app_assoc. split; [reflexivity|].
    constructor; [eapply Hbody; exact Hd|exact Hnew].
Qed.

(** Two loops over the same items whose bodies fail on the same items
    and build documents of the same identity do so as a whole. *)
Lemma for_enumerate_identity (body1 body2 : nat -> json -> list Document -> result Document) :
  (forall idx x docs1 docs2,
      result_map identity (body1 idx x docs1) = result_map identity (body2 idx x docs2)) ->
  forall items idx acc1 acc2,
    map identity acc1 = map identity acc2 ->
    result_map (map identity) (for_enumerate body1 idx items acc1)
    = result_map (map identity) (for_enumerate body2 idx items acc2).
Proof.
  intros Hbody. induction items as [|x rest IH]; intros idx acc1 acc2 Hacc;
    cbn [for_enumerate].
  - cbn. rewrite Hacc. reflexivity.
  - specialize (Hbody idx x acc1 acc2).
    destruct (body1 idx x acc1) as [d1|e1], (body2 idx x acc2) as [d2|e2];
      cbn [bind result_map] in Hbody |- *; try discriminate.
    + apply IH. assert (Hid : identity d1 = identity d2) by congruence.
      rewrite !map_app, Hacc. cbn [map]. rewrite Hid. reflexivity.
    + injection Hbody as ->. reflexivity.
Qed.

Ltac same_gets :=
  repeat match goal with
         | |- context [bind (Py.get ?a ?b ?c) _] =>
             destruct (Py.get a b c); cbn [bind]; [|reflexivity]
         | |- context [bind (Py.iter ?a) _] =>
             destruct (Py.iter a); cbn [bind]; [|reflexivity]
         | |- context [bind (Py.len ?a) _] =>
             destruct (Py.len a); cbn [bind]; [|reflexivity]
         end.

(** The documents of a loop whose body reads fields of its item and then
    builds a dict literal around it. *)
Ltac loop_addressed :=
  match goal with
  | E : for_enumerate ?b ?i ?items ?acc = Ok ?out |- Forall ?P ?out =>
      refine (for_enumerate_Forall P b _ items i acc out E _); clear E;
      [ let x := fresh "x" in
        let H := fresh "H" in
        intros ? x ? ? H; bind_inv H; injection H as <-;
        exists x; repeat split; reflexivity
      | ]
  end.

Lemma serp_content_addressed now raw f rid docs :
  normalize_serp_api_data now raw f rid = Ok docs -> Forall (content_addressed f) docs.
Proof.
  unfold normalize_serp_api_data. cbn zeta. intros H. bind_inv H. injection H as <-.
  do 3 loop_addressed. constructor.
Qed.

Lemma telegram_content_addressed now raw f rid docs :
  normalize_telegram_osint_data now raw f rid = Ok docs -> Forall (content_addressed f) docs.
Proof.
  unfold normalize_telegram_osint_data. cbn zeta. intros H. bind_inv H.
  destruct (negb (Py.truthy _)).
  - bind_inv H. injection H as <-. apply Forall_app. split.
    + loop_addressed. constructor.
    + constructor; [|constructor]. exists raw. repeat split; reflexivity.
  - injection H as <-. loop_addressed. constructor.
Qed.

Lemma report_content_addressed now raw f rid docs :
  normalize_comprehensive_report now raw f rid = Ok docs -> Forall (content_addressed f) docs.
Proof.
  unfold normalize_comprehensive_report. cbn zeta. intros H. bind_inv H.
  injection H as <-. constructor; [|constructor]. exists raw. repeat split; reflexivity.
Qed.

Lemma item_content_addressed now f rid item docs d :
  normalize_item now f rid item docs = Ok d -> content_addressed f d.
Proof.
  unfold normalize_item. intros H. bind_inv H. injection H as <-.
  exists item. repeat split; reflexivity.
Qed.

(** Every Document of the dispatcher is content-addressed by its own raw
    record and names the file given. *)
Lemma normalize_document_addressed now raw f ts rid docs :
  snd (normalize_document now raw f ts rid) = Ok docs -> Forall (content_addressed f) docs.
Proof.
  unfold normalize_document. cbn zeta.
  destruct (detect raw) as [[| | | | | |]|e]; cbn [snd]; intros H.
  - apply serp_content_addressed in H. exact H.
  - apply telegram_content_addressed in H. exact H.
  - apply report_content_addressed in H. exact H.
  - bind_inv H.
    refine (for_enumerate_Forall _ _ _ _ _ _ _ H _); [|constructor].
    intros idx x acc d Hd. eapply item_content_addressed. exact Hd.
  - bind_inv H.
    refine (for_enumerate_Forall _ _ _ _ _ _ _ H _); [|constructor].
    intros idx x acc d Hd. eapply item_content_addressed. exact Hd.
  - bind_inv H.
    refine (for_enumerate_Forall _ _ _ _ _ _ _ H _); [|constructor].
    intros idx x acc d Hd. eapply item_content_addressed. exact Hd.
  - injection H as <-. constructor.
  - discriminate.
Qed.

(** *** The identities do not depend on the file, the clock or the report *)

Ltac body_identity :=
  intros ? ? ? ?; unfold result_map; cbn beta; same_gets; reflexivity.

(** Two loops over the same items, in two runs, at the head of both
    sides of the goal. *)
Ltac same_loop Hl :=
  match goal with
  | |- bind (bind (for_enumerate ?b1 ?i ?items ?a1) _) _
       = bind (bind (for_enumerate ?b2 ?i ?items ?a2) _) _ =>
      assert (Hl : result_map (map identity) (for_enumerate b1 i items a1)
                   = result_map (map identity) (for_enumerate b2 i items a2));
      [ apply for_enumerate_identity; [body_identity|assumption || reflexivity]
      | destruct (for_enumerate b1 i items a1), (for_enumerate b2 i items a2);
        cbn [bind result_map] in Hl |- *; try discriminate Hl;
        [ injection Hl as Hl | injection Hl as ->; reflexivity ] ]
  end.

Lemma serp_identity now1 now2 raw f1 f2 rid1 rid2 :
  result_map (map identity) (normalize_serp_api_data now1 raw f1 rid1)
  = result_map (map identity) (normalize_serp_api_data now2 raw f2 rid2).
Proof.
  unfold normalize_serp_api_data, result_map. cbn zeta.
  same_gets. same_loop H1. same_gets. same_loop H2. same_gets. same_loop H3.
  congruence.
Qed.

Lemma telegram_identity now1 now2 raw f1 f2 rid1 rid2 :
  result_map (map identity) (normalize_telegram_osint_data now1 raw f1 rid1)
  = result_map (map identity) (normalize_telegram_osint_data now2 raw f2 rid2).
Proof.
  unfold normalize_telegram_osint_data, result_map. cbn zeta.
  same_gets. same_loop H1.
  destruct (negb (Py.truthy _)); cbn [bind]; [|congruence].
  same_gets. rewrite !map_app, H1. reflexivity.
Qed.

Lemma report_identity now1 now2 raw f1 f2 rid1 rid2 :
  result_map (map identity) (normalize_comprehensive_report now1 raw f1 rid1)
  = result_map (map identity) (normalize_comprehensive_report now2 raw f2 rid2).
Proof.
  unfold normalize_comprehensive_report, result_map. cbn zeta.
  same_gets. reflexivity.
Qed.

Lemma item_identity now1 now2 f1 f2 rid1 rid2 item docs1 docs2 :
  result_map identity (normalize_item now1 f1 rid1 item docs1)
  = result_map identity (normalize_item now2 f2 rid2 item docs2).
Proof.
  unfold normalize_item, result_map, and_then.
  destruct (Py.contains "source" item) as [[|]|e]; cbn [bind]; [| |reflexivity].
  - destruct (Py.contains "uri" item) as [[|]|e]; cbn [bind]; [| |reflexivity].
    + same_gets. reflexivity.
    + destruct (Py.contains "url" item) as [[|]|e]; cbn [bind]; [| |reflexivity];
        same_gets; reflexivity.
  - destruct (Py.contains "url" item) as [[|]|e]; cbn [bind]; [| |reflexivity];
      same_gets; reflexivity.
Qed.

(** The identities of the Documents, and whether the call raises, depend
    on the payload alone. *)
Lemma normalize_document_identity now1 now2 raw f1 f2 ts1 ts2 rid1 rid2 :
  result_map (map identity) (snd (normalize_document now1 raw f1 ts1 rid1))
  = result_map (map identity) (snd (normalize_document now2 raw f2 ts2 rid2)).
Proof.
  unfold normalize_document. cbn zeta.
  assert (Hitems : forall items,
             result_map (map identity)
               (items <- items ;; items <- Py.iter items ;;
                for_enumerate (fun _ => normalize_item now1 f1 rid1) 0 items [])
             = result_map (map identity)
                 (items <- items ;; items <- Py.iter items ;;
                  for_enumerate (fun _ => normalize_item now2 f2 rid2) 0 items [])).
  { intros [items|e]; cbn [bind]; [|reflexivity].
    destruct (Py.iter items) as [l|e]; cbn [bind]; [|reflexivity].
    apply for_enumerate_identity; [|reflexivity].
    intros idx x d1 d2. apply item_identity. }
  destruct (detect raw) as [[| | | | | |]|e]; cbn [snd].
  - apply serp_identity.
  - apply telegram_identity.
  - apply report_identity.
  - apply Hitems.
  - apply Hitems.
  - apply Hitems.
  - reflexivity.
  - reflexivity.
Qed.

(** *** The Documents of the organic results, by position *)

Lemma serp_organic_position now raw f rid docs organic i r :
  Py.get raw "organic_results" (JArr []) = Ok (JArr organic) ->
  organic !! i = Some r ->
  normalize_serp_api_data now raw f rid = Ok docs ->
  exists d,
    docs !! i = Some d
    /\ raw_source d = Some r
    /\ doc_id d = Some (JStr (sha256_hexdigest (json_dumps_sort_keys r)))
    /\ source_file d = Some (JStr f)
    /\ data_type d = Some (JStr "organic_result").
Proof.
  intros Horg Hi. unfold normalize_serp_api_data. cbn zeta. intros H.
  bind_inv H. injection H as <-. injection Horg as ->.
  match goal with E : Py.iter (JArr organic) = Ok ?v |- _ =>
    cbn [Py.iter] in E; injection E as <- end.
  match goal with
  | E3 : for_enumerate _ _ _ ?acc3 = Ok ?out,
    E2 : for_enumerate _ _ _ ?acc2 = Ok ?acc3,
    E1 : for_enumerate _ _ organic [] = Ok ?acc2 |- _ =>
      apply (for_enumerate_Forall2 (fun _ _ => True)) in E3; [|intros; exact I];
      apply (for_enumerate_Forall2 (fun _ _ => True)) in E2; [|intros; exact I];
      apply (for_enumerate_Forall2
               (fun x d =>
                  raw_source d = Some x
                  /\ doc_id d = Some (JStr (sha256_hexdigest (json_dumps_sort_keys x)))
                  /\ source_file d = Some (JStr f)
                  /\ data_type d = Some (JStr "organic_result"))) in E1;
      [|let Hb := fresh "Hb" in
        intros ? ? ? ? Hb; bind_inv Hb; injection Hb as <-; repeat split; reflexivity];
      destruct E3 as (new3 & -> & _); destruct E2 as (new2 & -> & _);
      destruct E1 as (new1 & -> & Hnew)
  end.
  destruct (Forall2_lookup_l _ _ _ _ _ Hnew Hi) as (d & Hd & HR).
  exists d. split; [|exact HR].
  cbn [app]. rewrite <- app_assoc. apply lookup_app_l_Some. exact Hd.
Qed.

(** *** Where the dispatcher returns and where it raises *)

(** The branch is chosen without raising, except for an object whose
    [articles] value does not support [in]. *)
Lemma detect_total_or_scalar_articles raw :
  (exists kind, detect raw = Ok kind)
  \/ (exists fields v,
         raw = JObj fields /\ Py.assoc "articles" fields = Some v
         /\ Py.contains "results" v = Raise TypeError
         /\ detect raw = Raise TypeError).
Proof.
  unfold detect.
  destruct (_ && _ && _); [left; eexists; reflexivity|].
  destruct (_ && (_ || _)); [left; eexists; reflexivity|].
  destruct (_ && _ && _); [left; eexists; reflexivity|].
  destruct (Py.isinstance_list raw); [left; eexists; reflexivity|].
  destruct raw as [| | | | |items|fields]; cbn [Py.isinstance_dict has_key andb bind];
    try (left; eexists; reflexivity).
  destruct (Py.assoc "articles" fields) as [v|] eqn:Hv.
  - replace (bool_decide (is_Some (Some v))) with true
      by (symmetry; apply bool_decide_eq_true; eexists; reflexivity).
    cbn [Py.getitem bind]. rewrite Hv. cbn [bind].
    destruct v; cbn [Py.contains bind];
      try (right; eexists _, _; repeat split; [exact Hv|reflexivity]);
      match goal with
      | |- context [if ?b then _ else _] => destruct b; left; eexists; reflexivity
      end.
  - replace (bool_decide (is_Some (@None json))) with false
      by (symmetry; apply bool_decide_eq_false; intros [x Hx]; discriminate).
    cbn [bind]. left. eexists. reflexivity.
Qed.

(** A payload that is neither an object nor a list: a warning and no
    Document. *)
Lemma normalize_document_unknown now raw f ts rid :
  Py.isinstance_dict raw = false -> Py.isinstance_list raw = false ->
  normalize_document now raw f ts rid
  = ([warning ("Unknown JSON structure in " +:+ f)], Ok []).
Proof.
  intros Hd Hl. unfold normalize_document, detect. rewrite Hd, Hl. reflexivity.
Qed.

Lemma normalize_item_object now f rid fields docs :
  exists d, normalize_item now f rid (JObj fields) docs = Ok d.
Proof.
  unfold normalize_item, and_then. cbn [Py.contains Py.get bind].
  destruct (bool_decide (is_Some (Py.assoc "source" fields)));
    destruct (bool_decide (is_Some (Py.assoc "uri" fields)));
    destruct (bool_decide (is_Some (Py.assoc "url" fields)));
    cbn [bind]; eexists; reflexivity.
Qed.

Lemma for_enumerate_objects now f rid items : forall idx acc,
  Forall (fun x => Py.isinstance_dict x = true) items ->
  exists out,
    for_enumerate (fun _ => normalize_item now f rid) idx items acc = Ok out
    /\ length out = (length acc + length items)%nat.
Proof.
  induction items as [|x rest IH]; intros idx acc Hall; cbn [for_enumerate].
  - exists acc. split; [reflexivity|]. cbn [length]. lia.
  - apply Forall_cons in Hall. destruct Hall as [Hx Hrest].
    destruct x; try discriminate.
    destruct (normalize_item_object now f rid fields acc) as [d ->]. cbn [bind].
    destruct (IH (S idx) (acc ++ [d]) Hrest) as (out & -> & Hlen).
    exists out. split; [reflexivity|]. rewrite Hlen, length_app. cbn [length]. lia.
Qed.

(** A list of objects: one Document for each. *)
Lemma normalize_document_objects now items f ts rid :
  Forall (fun x => Py.isinstance_dict x = true) items ->
  exists docs,
    normalize_document now (JArr items) f ts rid = ([], Ok docs)
    /\ length docs = length items.
Proof.
  intros Hall. unfold normalize_document, detect.
  cbn [Py.isinstance_dict Py.isinstance_list andb bind Py.iter].
  destruct (for_enumerate_objects now f rid items 0 [] Hall) as (docs & -> & Hlen).
  exists docs. split; [reflexivity|exact Hlen].
Qed.

(** An object that no earlier test recognises: one Document. *)
Lemma normalize_document_single now raw f ts rid :
  detect raw = Ok SingleItem ->
  exists d, normalize_document now raw f ts rid = ([], Ok [d]).
Proof.
  intros Hk. unfold normalize_document. rewrite Hk. cbn [bind Py.iter for_enumerate].
  assert (Hd : exists fields, raw = JObj fields).
  { unfold detect in Hk.
    destruct (_ && _ && _); [discriminate|].
    destruct (_ && (_ || _)); [discriminate|].
    destruct (_ && _ && _); [discriminate|].
    destruct (Py.isinstance_list raw); [discriminate|].
    destruct raw; try (cbn in Hk; discriminate). eexists; reflexivity. }
  destruct Hd as [fields ->].
  destruct (normalize_item_object now f rid fields []) as [d ->].
  exists d. reflexivity.
Qed.

(** *** The step of [ingest_directory] for one file *)

Lemma fold_logged_docs lines : forall st,
  docs_to_index (fold_left (fun st r => logged r st) lines st) = docs_to_index st
  /\ trace (fold_left (fun st r => logged r st) lines st) = trace st ++ map Logged lines.
Proof.
  induction lines as [|r rest IH]; intros st; cbn [fold_left map].
  - rewrite app_nil_r. split; reflexivity.
  - destruct (IH (logged r st)) as [H1 H2]. rewrite H1, H2. cbn [logged docs_to_index trace].
    rewrite <- app_assoc. split; reflexivity.
Qed.

(** A raise of the normalizer is caught: the file adds no action, and the
    failure is logged with the exception. *)
Lemma ingest_file_raise now load root ts rid index_name file st raw e :
  PyStr.endswith ".json" file = true ->
  load (path_join root file) = Ok raw ->
  snd (normalize_document now raw (path_join root file) ts rid) = Raise e ->
  docs_to_index (ingest_file now load root ts rid index_name file st) = docs_to_index st
  /\ exists before,
       trace (ingest_file now load root ts rid index_name file st)
       = trace st ++ before
         ++ [Logged (error ("Failed to process " +:+ path_join root file +:+ ": ") (Some e))].
Proof.
  intros Hjson Hload Hraise. unfold ingest_file. rewrite Hjson, Hload.
  destruct (normalize_document now raw (path_join root file) ts rid) as [lines r].
  cbn [snd] in Hraise. subst r.
  destruct (fold_logged_docs lines
              (logged (info ("Processing " +:+ path_join root file)) st)) as [H1 H2].
  cbn [logged docs_to_index trace]. rewrite H1, H2. cbn [logged docs_to_index trace].
  split; [reflexivity|].
  exists ([Logged (info ("Processing " +:+ path_join root file))] ++ map Logged lines).
  rewrite <- !app_assoc. reflexivity.
Qed.

Lemma append_actions_addressed index_name f docs : forall st,
  Forall (content_addressed f) docs ->
  exists st',
    append_actions index_name docs st = (st', None)
    /\ length (docs_to_index st') = (length (docs_to_index st) + length docs)%nat
    /\ trace st' = trace st.
Proof.
  induction docs as [|d rest IH]; intros st Hall; cbn [append_actions].
  - exists st. split; [reflexivity|]. cbn [length]. split; [lia|reflexivity].
  - apply Forall_cons in Hall. destruct Hall as [(record & _ & Hid & _) Hrest].
    unfold pop. unfold doc_id in Hid. rewrite Hid.
    match goal with |- context [append_actions index_name rest ?s] =>
      destruct (IH s Hrest) as (st' & -> & Hlen & Htr) end.
    exists st'. split; [reflexivity|].
    cbn [docs_to_index trace] in Hlen, Htr. rewrite length_app in Hlen. cbn [length] in *.
    split; [lia|exact Htr].
Qed.

(** When the normalizer returns, the file adds one action for each
    Document. *)
Lemma ingest_file_ok now load root ts rid index_name file st raw docs :
  PyStr.endswith ".json" file = true ->
  load (path_join root file) = Ok raw ->
  snd (normalize_document now raw (path_join root file) ts rid) = Ok docs ->
  length (docs_to_index (ingest_file now load root ts rid index_name file st))
  = (length (docs_to_index st) + length docs)%nat.
Proof.
  intros Hjson Hload Hok. unfold ingest_file. rewrite Hjson, Hload.
  pose proof (normalize_document_addressed now raw _ ts rid docs Hok) as Hall.
  destruct (normalize_document now raw (path_join root file) ts rid) as [lines r].
  cbn [snd] in Hok. subst r.
  destruct (fold_logged_docs lines
              (logged (info ("Processing " +:+ path_join root file)) st)) as [H1 H2].
  match goal with |- context [append_actions index_name docs ?s] =>
    destruct (append_actions_addressed index_name _ docs s Hall) as (st' & -> & Hlen & _) end.
  rewrite Hlen, H1. reflexivity.
Qed.

End WithRuntime.
End IngestFacts.

(** * The claims about the classifiers *)

Module ClassifierClaims.
Import Phones ClassifierFacts.

(** C6.  Both scores are integers under a fixed ceiling (20 for the
    relevance score, 10 for the red-flag score) and never negative; and a
    score does not decrease when more indicator keywords are present:
    whenever every table entry found in a first text is also found in a
    second one, the second text scores at least as much.  That is so in
    particular when the first text, lower-cased and reduced to digits,
    occurs inside the second, as it does when keywords are added before
    or after it. *)
Theorem score_bounded_and_monotone `{RT : PyRuntime} `{SO : SetOrder} (t1 t2 : string) :
  0 <= relevance_score (score_message t1) <= 20
  /\ 0 <= Niemci.red_flag_score (Niemci.classify_message t1) <= 10
  /\ ((forall kw, kw ∈ known_phones ->
         PyStr.contains kw (re_sub_nondigits t1) = true ->
         PyStr.contains kw (re_sub_nondigits t2) = true) ->
      (forall kw, kw ∈ high_entities ++ person_names ++ locations ++ construction ->
         PyStr.contains kw (Niemci.lowered t1) = true ->
         PyStr.contains kw (Niemci.lowered t2) = true) ->
      relevance_score (score_message t1) <= relevance_score (score_message t2))
  /\ ((forall kw, kw ∈ Niemci.RED_FLAG_KEYWORDS ->
         PyStr.contains kw (Niemci.lowered t1) = true ->
         PyStr.contains kw (Niemci.lowered t2) = true) ->
      Niemci.red_flag_score (Niemci.classify_message t1)
      <= Niemci.red_flag_score (Niemci.classify_message t2))
  /\ (PyStr.contains (Niemci.lowered t1) (Niemci.lowered t2) = true ->
      PyStr.contains (re_sub_nondigits t1) (re_sub_nondigits t2) = true ->
      relevance_score (score_message t1) <= relevance_score (score_message t2)
      /\ Niemci.red_flag_score (Niemci.classify_message t1)
         <= Niemci.red_flag_score (Niemci.classify_message t2)).
Proof.
  rewrite !relevance_score_spec, !red_flag_score_spec.
  generalize known_phones high_entities person_names locations construction
    Niemci.RED_FLAG_KEYWORDS.
  intros phones entities persons places works flags.
  assert (Hrel : (forall kw, kw ∈ phones ->
                    PyStr.contains kw (re_sub_nondigits t1) = true ->
                    PyStr.contains kw (re_sub_nondigits t2) = true) ->
                 (forall kw, kw ∈ entities ++ persons ++ places ++ works ->
                    PyStr.contains kw (Niemci.lowered t1) = true ->
                    PyStr.contains kw (Niemci.lowered t2) = true) ->
                 Z.min (5 * Z.of_nat (PyStr.hits phones (re_sub_nondigits t1))
                        + 3 * Z.of_nat (PyStr.hits entities (Niemci.lowered t1))
                        + 2 * Z.of_nat (PyStr.hits persons (Niemci.lowered t1))
                        + 2 * Z.of_nat (PyStr.hits places (Niemci.lowered t1))
                        + 1 * Z.of_nat (PyStr.hits works (Niemci.lowered t1))) 20
                 <= Z.min (5 * Z.of_nat (PyStr.hits phones (re_sub_nondigits t2))
                           + 3 * Z.of_nat (PyStr.hits entities (Niemci.lowered t2))
                           + 2 * Z.of_nat (PyStr.hits persons (Niemci.lowered t2))
                           + 2 * Z.of_nat (PyStr.hits places (Niemci.lowered t2))
                           + 1 * Z.of_nat (PyStr.hits works (Niemci.lowered t2))) 20).
  { intros Hd Hl.
    pose proof (hits_mono phones _ _ Hd) as H1.
    assert (H2 : forall table, table ⊆ entities ++ persons ++ places ++ works ->
               (PyStr.hits table (Niemci.lowered t1)
                <= PyStr.hits table (Niemci.lowered t2))%nat).
    { intros table Hsub. apply hits_mono. intros kw Hkw. apply Hl. apply Hsub. exact Hkw. }
    pose proof (H2 entities ltac:(set_solver)) as He.
    pose proof (H2 persons ltac:(set_solver)) as Hp.
    pose proof (H2 places ltac:(set_solver)) as Hpl.
    pose proof (H2 works ltac:(set_solver)) as Hw.
    apply Z.min_le_compat_r. lia. }
  assert (Hflag : (forall kw, kw ∈ flags ->
                     PyStr.contains kw (Niemci.lowered t1) = true ->
                     PyStr.contains kw (Niemci.lowered t2) = true) ->
                  Z.min (Z.of_nat (PyStr.hits flags (Niemci.lowered t1))) 10
                  <= Z.min (Z.of_nat (PyStr.hits flags (Niemci.lowered t2))) 10).
  { intros Hl. pose proof (hits_mono flags _ _ Hl). apply Z.min_le_compat_r. lia. }
  split; [lia|]. split; [lia|]. split; [exact Hrel|]. split; [exact Hflag|].
  intros Hlow Hdig. split.
  - apply Hrel; intros kw _ Hkw; eapply contains_trans; eassumption.
  - apply Hflag; intros kw _ Hkw; eapply contains_trans; eassumption.
Qed.

Lemma score_bounded_and_monotone_witness :
  relevance_score (score_message (SO := Scenario.first_order) "ITAAR, call 7881228865")
  <= relevance_score
       (score_message (SO := Scenario.first_order)
          "Stromnetz: ITAAR, call 7881228865 (Anastasia)")
  /\ Niemci.red_flag_score (Niemci.classify_message "ITAAR, call 7881228865")
     <= Niemci.red_flag_score
          (Niemci.classify_message "Stromnetz: ITAAR, call 7881228865 (Anastasia)").
Proof.
  exact (proj2 (proj2 (proj2 (proj2
           (score_bounded_and_monotone (SO := Scenario.first_order)
              "ITAAR, call 7881228865"
              "Stromnetz: ITAAR, call 7881228865 (Anastasia)"))))
           eq_refl eq_refl).
Defined.

End ClassifierClaims.

(** * The claims about the collectors *)

Module CollectorClaims.
Import Tg TgFacts.

(** C10.  In the @Niemci/DE4RU collector the history scan requests
    exactly one page per channel: the test of the stop signal
    ([history_offset_id == 0]) comes before the cursor is first advanced,
    so the loop is left after its first batch, whatever that batch holds
    and whatever the batch counter is; further rounds, and with them the
    cap of 20 batches, are never reached. *)
Theorem history_scan_single_page `{RT : PyRuntime}
    (fuel : nat) (client : TelegramClient) (entity : Entity) (ch : string)
    (batch : Z) (sc : Niemci.Scan) :
  Niemci.history_loop (S fuel) client entity ch 0 batch sc
  = Niemci.history_loop 1 client entity ch 0 batch sc
  /\ (exists sc' r ids,
         Niemci.history_loop 1 client entity ch 0 batch sc = Some (sc', r)
         /\ tick (Niemci.world sc') = S (tick (Niemci.world sc))
         /\ log (Niemci.world sc')
            = log (Niemci.world sc) ++ History ch 0 :: map (Classified ch) ids)
  /\ (forall queries results,
         exists r' added,
           Niemci.search_channel (S fuel) client ch queries results = Some r'
           /\ log (Niemci.run_world r')
              = log (Niemci.run_world results) ++ Resolve ch :: added
           /\ (length (history_requests ch added) <= 1)%nat).
Proof.
  split; [apply NiemciFacts.history_loop_fuel|].
  split; [apply (NiemciFacts.history_loop_one_round 0)|].
  intros queries results.
  destruct (NiemciFacts.search_channel_total fuel client ch queries results)
    as (r' & Hr & _ & (added & Hl & _ & Hh)).
  exists r', added. split; [exact Hr|]. split; [exact Hl|exact Hh].
Qed.

(** C4, as the code has it.  When a search request fails with a
    flood-wait signal the collector records the error (in the
    @Niemci/DE4RU collector), sleeps a fixed 30 seconds whatever wait the
    server asked for, and goes on with the next query: over a list of
    queries each query is requested exactly once, in order, so the
    rate-limited request is not issued again. *)
Theorem flood_wait_sleeps_and_moves_on `{RT : PyRuntime} `{SO : SetOrder}
    (client : TelegramClient) (entity : Entity) (ch q : string) (e : failure)
    (Hflood : is_flood e = true) :
  (forall sc,
      search_request client (tick (Niemci.world sc)) entity q = Raise e ->
      Niemci.run_query client entity ch sc q
      = Niemci.sleep 30000
          (Niemci.add_error ("Query '" +:+ q +:+ "': " +:+ str e)
             (Niemci.in_world (request (Search ch q)) sc)))
  /\ (forall sc,
        search_request client (tick (Phones.world sc)) entity q = Raise e ->
        Phones.run_query client entity ch sc q
        = Phones.sleep 30000 (Phones.in_world (request (Search ch q)) sc))
  /\ (forall queries sc,
        exists added,
          log (Niemci.world (fold_left (Niemci.run_query client entity ch) queries sc))
          = log (Niemci.world sc) ++ added
          /\ search_requests ch added = queries)
  /\ (forall queries sc,
        exists added,
          log (Phones.world (fold_left (Phones.run_query client entity ch) queries sc))
          = log (Phones.world sc) ++ added
          /\ search_requests ch added = queries).
Proof.
  split; [|split; [|split]].
  - intros sc H. unfold Niemci.run_query, Niemci.query_failed. rewrite H, Hflood.
    reflexivity.
  - intros sc H. unfold Phones.run_query. rewrite H, Hflood. reflexivity.
  - intros queries sc.
    destruct (NiemciFacts.run_queries_effect client entity ch queries sc)
      as [_ (added & Hl & Hs & _)].
    exists added. split; assumption.
  - intros queries sc.
    destruct (PhonesFacts.phones_run_queries_effect client entity ch queries sc)
      as [_ (added & Hl & Hs & _)].
    exists added. split; assumption.
Qed.

Lemma flood_wait_sleeps_and_moves_on_witness :
  Niemci.run_query Scenario.flooding_client Scenario.entity "@c" Scenario.fresh_scan "q1"
  = Niemci.sleep 30000
      (Niemci.add_error ("Query 'q1': " +:+ str Scenario.flood_wait)
         (Niemci.in_world (request (Search "@c" "q1")) Scenario.fresh_scan)).
Proof.
  exact (proj1 (flood_wait_sleeps_and_moves_on (SO := Scenario.first_order)
                  Scenario.flooding_client Scenario.entity "@c" "q1"
                  Scenario.flood_wait eq_refl)
           Scenario.fresh_scan eq_refl).
Defined.

(** C4 as stated fails: the server asks for 60 seconds, the collector
    sleeps 30, and the rate-limited query [q1] is requested once only;
    the next request is the one for [q2]. *)
Lemma flood_wait_request_not_retried :
  search_request Scenario.flooding_client 0 Scenario.entity "q1"
  = Raise (Rpc "RPCError 420: FLOOD_WAIT_60" (Some 60))
  /\ log (Niemci.world
            (fold_left (Niemci.run_query Scenario.flooding_client Scenario.entity "@c")
               ["q1"; "q2"] Scenario.fresh_scan))
     = [Search "@c" "q1"; Sleep 30000; Search "@c" "q2"; Sleep 500]
  /\ log (Phones.world
            (fold_left (Phones.run_query (SO := Scenario.first_order)
                          Scenario.flooding_client Scenario.entity "@c")
               ["q1"; "q2"] Scenario.fresh_phone_scan))
     = [Search "@c" "q1"; Sleep 30000; Search "@c" "q2"; Sleep 500].
Proof. repeat split; vm_compute; reflexivity. Qed.



(** C8.  Wherever the failing channel stands in the list: when resolving
    it fails, its record is marked inaccessible with the error and no
    messages, the summary shows it with zero messages, and the run goes
    on: it returns, every channel of the list is resolved in list order,
    and every later channel has its record too.  The same holds for the
    extended recruitment search, where the channel is entered in the list
    of inaccessible channels with the error and counts zero messages.
    (A channel is taken not to be listed again after the failing
    position; the configured lists have no repetition.) *)
Theorem inaccessible_channel_is_reported `{RT : PyRuntime} :
  (forall fuel client queries pre ch post results r1 e,
      Niemci.search_all (S fuel) client pre queries results = Some r1 ->
      get_entity client (tick (Niemci.run_world r1)) ch = Raise e ->
      ch ∉ post ->
      exists r',
        Niemci.search_all (S fuel) client (pre ++ ch :: post) queries results = Some r'
        /\ Niemci.channels r' !! ch
           = Some (Niemci.mkChannelData ch "inaccessible" 0 []
                     ["Cannot access channel: " +:+ str e] None None None)
        /\ Niemci.summary_line r' ch = Some ("inaccessible", 0)
        /\ resolved (log (Niemci.run_world r'))
           = resolved (log (Niemci.run_world results)) ++ pre ++ ch :: post
        /\ (forall c, c ∈ post -> is_Some (Niemci.channels r' !! c)))
  /\ (forall client pre ch post e,
        get_entity client
          (tick (snd (fold_left (Recruitment.search_one client) pre
                        (Recruitment.initial, start)))) ch = Raise e ->
        ch ∉ post ->
        let r' := fst (Recruitment.extended_telegram_search client (pre ++ ch :: post)) in
        let w' := snd (Recruitment.extended_telegram_search client (pre ++ ch :: post)) in
        Recruitment.by_channel (Recruitment.statistics r') !! ch = Some 0
        /\ (ch, str e) ∈ Recruitment.inaccessible_channels r'
        /\ resolved (log w') = pre ++ ch :: post
        /\ (forall c, c ∈ post ->
              is_Some (Recruitment.by_channel (Recruitment.statistics r') !! c)))
  /\ NoDup Niemci.TARGET_CHANNELS /\ NoDup Recruitment.ADDITIONAL_CHANNELS.
Proof.
  split; [|split; [|split; apply (bool_decide_unpack _); vm_compute; exact I]].
  - intros fuel client queries pre ch post results r1 e Hpre Hres Hpost.
    rewrite NiemciFacts.search_all_app, Hpre. cbn [Niemci.search_all].
    rewrite (NiemciFacts.search_channel_inaccessible _ _ _ _ _ _ Hres).
    set (r2 := Niemci.mkRun _ _).
    destruct (NiemciFacts.search_all_total fuel client queries post r2)
      as (r' & Hrun & Hlog & Hin & Hout).
    exists r'. split; [exact Hrun|].
    assert (Hch : Niemci.channels r' !! ch
                  = Some (Niemci.mkChannelData ch "inaccessible" 0 []
                            ["Cannot access channel: " +:+ str e] None None None)).
    { rewrite (Hout ch Hpost). unfold r2. cbn [Niemci.channels].
      apply lookup_insert_eq. }
    split; [exact Hch|].
    split; [unfold Niemci.summary_line; rewrite Hch; reflexivity|].
    split; [|exact Hin].
    rewrite Hlog. unfold r2, note, request. cbn [Niemci.run_world log].
    destruct (NiemciFacts.search_all_total fuel client queries pre results)
      as (r1' & Hrun1 & Hlog1 & _).
    rewrite Hpre in Hrun1. injection Hrun1 as <-.
    rewrite !resolved_app, Hlog1. cbn [resolved omap].
    rewrite app_nil_r, <- !app_assoc. reflexivity.
  - intros client pre ch post e Hres Hpost. cbn zeta.
    unfold Recruitment.extended_telegram_search.
    rewrite fold_left_app. cbn [fold_left].
    destruct (RecruitmentFacts.search_loop_total client pre Recruitment.initial start)
      as (Hlog1 & _).
    destruct (fold_left (Recruitment.search_one client) pre (Recruitment.initial, start))
      as [r1 w1] eqn:Hfold. cbn [fst snd] in Hres, Hlog1.
    rewrite (RecruitmentFacts.search_one_inaccessible _ _ _ _ _ Hres).
    set (r2 := Recruitment.mkResults _ _ _ _).
    set (w2 := request (Resolve ch) w1).
    destruct (RecruitmentFacts.search_loop_total client post r2 w2)
      as (Hlog & Hin & Hout & (l & Hl)).
    destruct (fold_left (Recruitment.search_one client) post (r2, w2)) as [r' w'].
    cbn [fst snd] in Hlog, Hin, Hout, Hl |- *.
    cbn [Recruitment.statistics Recruitment.by_channel Recruitment.inaccessible_channels].
    split; [rewrite (Hout ch Hpost); unfold r2;
            cbn [Recruitment.statistics Recruitment.by_channel];
            apply lookup_insert_eq|].
    split; [rewrite Hl; unfold r2; cbn [Recruitment.inaccessible_channels];
            rewrite !elem_of_app, list_elem_of_singleton; left; right; reflexivity|].
    split; [|exact Hin].
    rewrite Hlog. unfold w2, request. cbn [log]. rewrite resolved_app, Hlog1.
    cbn [resolved omap start log app]. rewrite <- app_assoc. reflexivity.
Qed.

Lemma inaccessible_channel_is_reported_witness :
  exists r',
    Niemci.search_all 1 Scenario.quiet_client (["@a"] ++ "@b" :: ["@c"]) ["q"]
      Scenario.fresh_run = Some r'
    /\ Niemci.channels r' !! "@b"
       = Some (Niemci.mkChannelData "@b" "inaccessible" 0 []
                 ["Cannot access channel: " +:+ str Scenario.no_such_channel]
                 None None None)
    /\ Niemci.summary_line r' "@b" = Some ("inaccessible", 0)
    /\ resolved (log (Niemci.run_world r'))
       = resolved (log (Niemci.run_world Scenario.fresh_run)) ++ ["@a"] ++ "@b" :: ["@c"]
    /\ (forall c, c ∈ ["@c"] -> is_Some (Niemci.channels r' !! c)).
Proof.
  refine (proj1 inaccessible_channel_is_reported 0%nat Scenario.quiet_client ["q"]
            ["@a"] "@b" ["@c"] Scenario.fresh_run _ Scenario.no_such_channel
            eq_refl eq_refl _).
  apply (bool_decide_unpack _). vm_compute. exact I.
Defined.

End CollectorClaims.

(** * The claims about the ingestor *)

Module IngestClaims.
Import Ingest.

(** C1.  For every raw source record, the [_id] of the Document the
    normalization builds from it is the SHA-256 digest of the
    [sort_keys] JSON serialization of that record alone, and the
    Document's [source_file] is the file it was read from.  Hence
    normalizing one payload twice, under other file names, clocks and
    report ids, gives the same records and the same [_id]s (and raises in
    the same cases); and one organic result held by the payloads of two
    files gives two Documents with the same [_id], each naming its own
    file. *)
Theorem document_id_is_hash_of_raw_record `{RT : PyRuntime}
    (now1 now2 : nat -> string) (raw : json) (f1 f2 ts1 ts2 rid1 rid2 : string) :
  (forall docs,
      snd (normalize_document now1 raw f1 ts1 rid1) = Ok docs ->
      Forall (content_addressed f1) docs)
  /\ result_map (map identity) (snd (normalize_document now1 raw f1 ts1 rid1))
     = result_map (map identity) (snd (normalize_document now2 raw f2 ts2 rid2))
  /\ (forall raw' organic organic' i j r docs docs',
        Py.get raw "organic_results" (JArr []) = Ok (JArr organic) ->
        Py.get raw' "organic_results" (JArr []) = Ok (JArr organic') ->
        organic !! i = Some r -> organic' !! j = Some r ->
        normalize_serp_api_data now1 raw f1 rid1 = Ok docs ->
        normalize_serp_api_data now2 raw' f2 rid2 = Ok docs' ->
        exists d d',
          docs !! i = Some d /\ docs' !! j = Some d'
          /\ doc_id d = Some (JStr (sha256_hexdigest (json_dumps_sort_keys r)))
          /\ doc_id d' = doc_id d
          /\ source_file d = Some (JStr f1) /\ source_file d' = Some (JStr f2)).
Proof.
  split; [intros docs; apply IngestFacts.normalize_document_addressed|].
  split; [apply IngestFacts.normalize_document_identity|].
  intros raw' organic organic' i j r docs docs' Ho Ho' Hi Hj Hd Hd'.
  destruct (IngestFacts.serp_organic_position now1 raw f1 rid1 docs organic i r Ho Hi Hd)
    as (d & H1 & _ & H2 & H3 & _).
  destruct (IngestFacts.serp_organic_position now2 raw' f2 rid2 docs' organic' j r Ho' Hj Hd')
    as (d' & K1 & _ & K2 & K3 & _).
  exists d, d'. repeat split; try assumption. rewrite K2, H2. reflexivity.
Qed.

Lemma document_id_is_hash_of_raw_record_witness :
  exists d d',
    doc_id d
    = Some (JStr (sha256_hexdigest (json_dumps_sort_keys Scenario.organic)))
    /\ doc_id d' = doc_id d
    /\ source_file d = Some (JStr "a.json") /\ source_file d' = Some (JStr "b.json").
Proof.
  destruct (proj2 (proj2 (document_id_is_hash_of_raw_record Toy.clock Toy.clock
                            (Scenario.serp_payload "berlin" []) "a.json" "b.json"
                            "ts" "ts" "r1" "r2"))
              (Scenario.serp_payload "steglitz" [Scenario.organic])
              [Scenario.organic] [Scenario.organic; Scenario.organic] 0%nat 1%nat
              Scenario.organic _ _ eq_refl eq_refl eq_refl eq_refl eq_refl eq_refl)
    as (d & d' & _ & _ & H).
  exists d, d'. exact H.
Defined.

(** C2, as the code has it.  The dispatcher chooses its branch without
    raising for every JSON value except an object whose [articles] value
    is a number, a boolean or null.  [normalize_document] returns the
    empty list, with a warning, for every payload that is neither an
    object nor a list; it returns one Document for each element of a list
    of objects, and one Document for an object that no earlier test
    recognises.  On other shapes it may raise; the raise is caught by
    [ingest_directory], which logs the failure with the exception and
    takes no Document from that file, while a file whose payload
    normalizes adds one action for each Document. *)
Theorem normalizer_returns_or_is_caught `{RT : PyRuntime}
    (now : nat -> string) (raw : json) (f ts rid : string) :
  ((exists kind, detect raw = Ok kind)
   \/ (exists fields v,
          raw = JObj fields /\ Py.assoc "articles" fields = Some v
          /\ Py.contains "results" v = Raise TypeError
          /\ detect raw = Raise TypeError))
  /\ (Py.isinstance_dict raw = false -> Py.isinstance_list raw = false ->
      normalize_document now raw f ts rid
      = ([warning ("Unknown JSON structure in " +:+ f)], Ok []))
  /\ (forall items,
        raw = JArr items ->
        Forall (fun x => Py.isinstance_dict x = true) items ->
        exists docs,
          normalize_document now raw f ts rid = ([], Ok docs)
          /\ length docs = length items)
  /\ (detect raw = Ok SingleItem ->
      exists d, normalize_document now raw f ts rid = ([], Ok [d]))
  /\ (forall load root index_name file st,
        PyStr.endswith ".json" file = true ->
        load (path_join root file) = Ok raw ->
        match snd (normalize_document now raw (path_join root file) ts rid) with
        | Ok docs =>
            length (docs_to_index (ingest_file now load root ts rid index_name file st))
            = (length (docs_to_index st) + length docs)%nat
        | Raise e =>
            docs_to_index (ingest_file now load root ts rid index_name file st)
            = docs_to_index st
            /\ exists before,
                 trace (ingest_file now load root ts rid index_name file st)
                 = trace st ++ before
                   ++ [Logged (error ("Failed to process " +:+ path_join root file +:+ ": ")
                                 (Some e))]
        end).
Proof.
  split; [apply IngestFacts.detect_total_or_scalar_articles|].
  split; [apply IngestFacts.normalize_document_unknown|].
  split; [intros items ->; apply IngestFacts.normalize_document_objects|].
  split; [apply IngestFacts.normalize_document_single|].
  intros load root index_name file st Hjson Hload.
  destruct (snd (normalize_document now raw (path_join root file) ts rid)) as [docs|e] eqn:Hn.
  - eapply IngestFacts.ingest_file_ok; eassumption.
  - eapply IngestFacts.ingest_file_raise; eassumption.
Qed.

Lemma normalizer_returns_or_is_caught_witness :
  exists docs,
    normalize_document Toy.clock (JArr [Scenario.page; Scenario.organic]) "a.json" "ts" "r"
    = ([], Ok docs)
    /\ length docs = 2%nat.
Proof.
  refine (proj1 (proj2 (proj2 (normalizer_returns_or_is_caught Toy.clock
                                 (JArr [Scenario.page; Scenario.organic]) "a.json" "ts" "r")))
            [Scenario.page; Scenario.organic] eq_refl _).
  repeat constructor.
Defined.

(** C2 as stated fails: a list that holds a number makes
    [normalize_document] raise, and an object whose [articles] value is a
    number makes the choice of the branch raise. *)
Lemma normalize_document_raises :
  normalize_document Toy.clock (JArr [JInt 1]) "a.json" "ts" "r" = ([], Raise TypeError)
  /\ detect (JObj [("articles", JInt 5)]) = Raise TypeError
  /\ normalize_document Toy.clock (JObj [("articles", JInt 5)]) "a.json" "ts" "r"
     = ([], Raise TypeError).
Proof. repeat split; vm_compute; reflexivity. Qed.

(** C9 fails on the code.  One report directory holds one file with one
    web page; no index exists on the server and creating one is refused.
    [ensure_index_exists] logs the failure and returns [False]; the run
    goes on and issues the bulk write against that very index. *)
Theorem bulk_write_follows_failed_index_creation :
  indices_create Scenario.no_index_client "osint_20260204_110300"
  = Raise Scenario.creation_refused
  /\ ensure_index_exists Scenario.no_index_client "osint_20260204_110300"
     = ([EsExists "osint_20260204_110300"; EsCreate "osint_20260204_110300";
         Logged (error "Failed to create index osint_20260204_110300: "
                   (Some Scenario.creation_refused))],
        Ok false)
  /\ es_calls (fst (ingest_directory Toy.clock Scenario.one_file_walk Scenario.load_page
                      "reports" Scenario.no_index_client "osint_"))
     = [("exists", "osint_20260204_110300"); ("create", "osint_20260204_110300");
        ("bulk", "osint_20260204_110300")]
  /\ snd (ingest_directory Toy.clock Scenario.one_file_walk Scenario.load_page
            "reports" Scenario.no_index_client "osint_")
     = Ok tt.
Proof. repeat split; vm_compute; reflexivity. Qed.

End IngestClaims.

(** * Further properties of the code *)
Module IngestRunFacts.
Import Ingest IngestReadings IngestFacts.

Section WithRuntime.
Context `{RT : PyRuntime}.
Variable now : nat -> string.

Lemma es_calls_app (a b : list event) : es_calls (a ++ b) = es_calls a ++ es_calls b.
Proof. unfold es_calls. apply flat_map_app. Qed.

Lemma bulk_writes_app (a b : list event) : bulk_writes (a ++ b) = bulk_writes a ++ bulk_writes b.
Proof. unfold bulk_writes. apply omap_app. Qed.

Lemma es_calls_logged (l : list LogRecord) : es_calls (map Logged l) = [].
Proof. induction l as [|r l IH]; [reflexivity|exact IH]. Qed.

Lemma bulk_writes_logged (l : list LogRecord) : bulk_writes (map Logged l) = [].
Proof. induction l as [|r l IH]; [reflexivity|exact IH]. Qed.

Lemma collected_logged r st : collected st -> collected (logged r st).
Proof.
  intros [[lines Hl] Hd]. split; [|exact Hd].
  exists (lines ++ [r]). cbn. rewrite Hl, map_app. reflexivity.
Qed.

Lemma collected_fold_logged lines : forall st,
  collected st -> collected (fold_left (fun st r => logged r st) lines st).
Proof.
  induction lines as [|r lines IH]; intros st H; [exact H|].
  cbn. apply IH, collected_logged, H.
Qed.

Lemma indices_fold_logged lines : forall st,
  indices_to_create (fold_left (fun st r => logged r st) lines st) = indices_to_create st.
Proof. induction lines as [|r lines IH]; intros st; [reflexivity|]. cbn. rewrite IH. reflexivity. Qed.

Lemma append_actions_collected index_name docs : forall st st' r,
  append_actions index_name docs st = (st', r) ->
  index_name ∈ indices_to_create st ->
  collected st ->
  collected st' /\ indices_to_create st' = indices_to_create st.
Proof.
  induction docs as [|d docs IH]; intros st st' r H Hin Hc; cbn in H.
  - injection H as <- <-. split; [exact Hc|reflexivity].
  - destruct (pop d "_id") as [[i d']|e].
    + apply IH in H as [H1 H2]; [split; [exact H1|exact H2]|exact Hin|].
      destruct Hc as [Hl Hd]. split; [exact Hl|]. cbn.
      apply Forall_app. split; [exact Hd|]. repeat constructor. exact Hin.
    + injection H as <- <-. split; [exact Hc|reflexivity].
Qed.

Lemma ingest_file_collected load root ts rid index_name file st :
  index_name ∈ indices_to_create st ->
  collected st ->
  collected (ingest_file now load root ts rid index_name file st)
  /\ indices_to_create (ingest_file now load root ts rid index_name file st)
     = indices_to_create st.
Proof.
  intros Hin Hc. unfold ingest_file.
  destruct (PyStr.endswith ".json" file); [|split; [exact Hc|reflexivity]].
  destruct (load (path_join root file)) as [raw|e].
  - destruct (normalize_document now raw (path_join root file) ts rid) as [lines [docs|e]].
    + destruct (append_actions index_name docs _) as [st' [e|]] eqn:Ha;
        apply append_actions_collected in Ha as [H1 H2];
        try (rewrite indices_fold_logged; exact Hin);
        try (apply collected_fold_logged, collected_logged, Hc).
      * split; [apply collected_logged, H1|]. cbn. rewrite H2, indices_fold_logged. reflexivity.
      * split; [exact H1|]. rewrite H2, indices_fold_logged. reflexivity.
    + split; [apply collected_logged, collected_fold_logged, collected_logged, Hc|].
      cbn. rewrite indices_fold_logged. reflexivity.
  - split; [apply collected_logged, collected_logged, Hc|reflexivity].
Qed.

Lemma ingest_files_collected load root ts rid index_name files : forall st,
  index_name ∈ indices_to_create st ->
  collected st ->
  let st' := fold_left (fun st file => ingest_file now load root ts rid index_name file st)
               files st in
  collected st' /\ indices_to_create st' = indices_to_create st.
Proof.
  induction files as [|f files IH]; intros st Hin Hc; [split; [exact Hc|reflexivity]|].
  cbn. destruct (ingest_file_collected load root ts rid index_name f st Hin Hc) as [H1 H2].
  destruct (IH (ingest_file now load root ts rid index_name f st)) as [H3 H4];
    [rewrite H2; exact Hin|exact H1|].
  split; [exact H3|]. rewrite <- H2. exact H4.
Qed.

Lemma collected_add name st :
  collected st ->
  collected (mkIngest (docs_to_index st) ({[name]} ∪ indices_to_create st) (trace st)).
Proof.
  intros [Hl Hd]. split; [exact Hl|]. cbn.
  eapply Forall_impl; [exact Hd|]. intros a [H1 H2]. split; [exact H1|apply elem_of_union_r, H2].
Qed.

Lemma ingest_root_collected load prefix st entry :
  collected st -> collected (ingest_root now load prefix st entry).
Proof.
  intros Hc. destruct entry as [root files]. unfold ingest_root.
  destruct (PyStr.contains "raw_data" root || PyStr.contains "osint_construction" root);
    [|exact Hc].
  match goal with
  | |- collected (fold_left _ _ (mkIngest _ ({[?n]} ∪ _) _)) =>
      apply (ingest_files_collected load root _ _ n files);
        [apply elem_of_union_l, elem_of_singleton; reflexivity|apply collected_add, Hc]
  end.
Qed.

Lemma walk_collected load prefix walk : forall st,
  collected st -> collected (fold_left (ingest_root now load prefix) walk st).
Proof.
  induction walk as [|entry walk IH]; intros st Hc; [exact Hc|].
  cbn. apply IH, ingest_root_collected, Hc.
Qed.

Ltac checks_only :=
  cbn [es_calls flat_map app];
  repeat (apply Forall_cons; split; [first [left; reflexivity|right; reflexivity]|]);
  constructor.

(** The index checks: every call is a lookup or a creation; when the
    loop runs to its end every name was looked up, and when it is left
    early a lookup raised. *)
Lemma ensure_all_calls es names : forall tr tr' r,
  ensure_all es names tr = (tr', r) ->
  exists evs,
    tr' = tr ++ evs
    /\ bulk_writes evs = []
    /\ Forall (fun c => c.1 = "exists" \/ c.1 = "create") (es_calls evs)
    /\ match r with
       | None => forall n, n ∈ names -> ("exists", n) ∈ es_calls evs
       | Some e => exists n, n ∈ names /\ indices_exists es n = Raise e
       end.
Proof.
  induction names as [|n names IH]; intros tr tr' r H; cbn in H.
  - injection H as <- <-. exists []. rewrite app_nil_r.
    repeat split; [constructor|]. intros n Hn. inversion Hn.
  - unfold ensure_index_exists in H.
    destruct (indices_exists es n) as [[|]|e] eqn:Hex.
    + apply IH in H as (evs & -> & Hb & Hc & Hr).
      eexists (_ ++ evs). rewrite app_assoc. split; [reflexivity|].
      rewrite bulk_writes_app, es_calls_app, Hb. split; [reflexivity|].
      split; [apply Forall_app; split; [checks_only|exact Hc]|].
      destruct r as [e|].
      * destruct Hr as (m & Hm & He). exists m. split; [apply list_elem_of_further, Hm|exact He].
      * intros m Hm. apply elem_of_app. apply elem_of_cons in Hm as [->|Hm];
          [left; apply list_elem_of_here|right; apply Hr, Hm].
    + destruct (indices_create es n) as [u|e].
      * apply IH in H as (evs & -> & Hb & Hc & Hr).
        eexists (_ ++ evs). rewrite app_assoc. split; [reflexivity|].
        rewrite bulk_writes_app, es_calls_app, Hb. split; [reflexivity|].
        split; [apply Forall_app; split;
                [checks_only|exact Hc]|].
        destruct r as [e|].
        -- destruct Hr as (m & Hm & He). exists m. split; [apply list_elem_of_further, Hm|exact He].
        -- intros m Hm. apply elem_of_app. apply elem_of_cons in Hm as [->|Hm];
             [left; apply list_elem_of_here|right; apply Hr, Hm].
      * apply IH in H as (evs & -> & Hb & Hc & Hr).
        eexists (_ ++ evs). rewrite app_assoc. split; [reflexivity|].
        rewrite bulk_writes_app, es_calls_app, Hb. split; [reflexivity|].
        split; [apply Forall_app; split;
                [checks_only|exact Hc]|].
        destruct r as [e'|].
        -- destruct Hr as (m & Hm & He). exists m. split; [apply list_elem_of_further, Hm|exact He].
        -- intros m Hm. apply elem_of_app. apply elem_of_cons in Hm as [->|Hm];
             [left; apply list_elem_of_here|right; apply Hr, Hm].
    + injection H as <- <-. eexists. split; [reflexivity|].
      split; [reflexivity|]. split; [checks_only|].
      exists n. split; [apply list_elem_of_here|exact Hex].
Qed.

Lemma walked_collected walk load base prefix : collected (walked now walk load base prefix).
Proof.
  apply walk_collected. split; [eexists [_]; reflexivity|constructor].
Qed.

(** When the loop over the indices runs to its end, every index the
    server did not have was asked to be created. *)
Lemma ensure_all_creates es names : forall tr tr' r,
  ensure_all es names tr = (tr', r) ->
  r = None ->
  exists evs,
    tr' = tr ++ evs
    /\ forall n, n ∈ names -> indices_exists es n = Ok false ->
                 ("create", n) ∈ es_calls evs.
Proof.
  induction names as [|n names IH]; intros tr tr' r H Hr; cbn in H.
  - injection H as <- <-. exists []. rewrite app_nil_r. split; [reflexivity|].
    intros n Hn. inversion Hn.
  - unfold ensure_index_exists in H.
    destruct (indices_exists es n) as [[|]|e] eqn:Hex.
    + apply IH in H as (evs & -> & Hc); [|exact Hr].
      eexists (_ ++ evs). rewrite app_assoc. split; [reflexivity|].
      intros m Hm Hf. rewrite es_calls_app. apply elem_of_app. right.
      apply elem_of_cons in Hm as [->|Hm]; [congruence|apply Hc; assumption].
    + destruct (indices_create es n) as [u|e].
      * apply IH in H as (evs & -> & Hc); [|exact Hr].
        eexists (_ ++ evs). rewrite app_assoc. split; [reflexivity|].
        intros m Hm Hf. rewrite es_calls_app. apply elem_of_app.
        apply elem_of_cons in Hm as [->|Hm];
          [left; cbn; apply list_elem_of_further, list_elem_of_here
          |right; apply Hc; assumption].
      * apply IH in H as (evs & -> & Hc); [|exact Hr].
        eexists (_ ++ evs). rewrite app_assoc. split; [reflexivity|].
        intros m Hm Hf. rewrite es_calls_app. apply elem_of_app.
        apply elem_of_cons in Hm as [->|Hm];
          [left; cbn; apply list_elem_of_further, list_elem_of_here
          |right; apply Hc; assumption].
    + injection H as <- <-. discriminate Hr.
Qed.

(** The shape of a run: log lines, then the index checks, then, when
    documents were collected and no lookup raised, one bulk write with
    all of them, then log lines. *)
Lemma ingest_directory_shape walk load base es prefix :
  let st := walked now walk load base prefix in
  exists lines evs tail,
    fst (ingest_directory now walk load base es prefix) = map Logged lines ++ evs ++ tail
    /\ ensure_all es (elements (indices_to_create st)) (trace st)
       = (trace st ++ evs,
          match snd (ingest_directory now walk load base es prefix) with
          | Raise e => Some e
          | Ok _ => None
          end)
    /\ bulk_writes evs = []
    /\ Forall (fun c => c.1 = "exists" \/ c.1 = "create") (es_calls evs)
    /\ match snd (ingest_directory now walk load base es prefix) with
       | Raise e =>
           tail = [] /\ exists n, n ∈ indices_to_create st /\ indices_exists es n = Raise e
       | Ok _ =>
           (forall n, n ∈ indices_to_create st -> ("exists", n) ∈ es_calls evs)
           /\ exists l1 l2,
                tail = map Logged l1
                       ++ match docs_to_index st with
                          | [] => []
                          | _ :: _ => [EsBulk (docs_to_index st)]
                          end
                       ++ map Logged l2
       end.
Proof.
  intros st. unfold ingest_directory. fold (walked now walk load base prefix). fold st.
  destruct (walked_collected walk load base prefix) as [[lines Hl] _]. fold st in Hl.
  destruct (ensure_all es (elements (indices_to_create st)) (trace st)) as [tr r] eqn:He.
  apply ensure_all_calls in He as (evs & -> & Hb & Hc & Hr).
  exists lines, evs. rewrite Hl in *.
  destruct r as [e|].
  - exists []. cbn [fst snd]. rewrite app_nil_r.
    split; [reflexivity|]. split; [reflexivity|]. split; [exact Hb|]. split; [exact Hc|].
    split; [reflexivity|].
    destruct Hr as (n & Hn & Hx). exists n. split; [apply elem_of_elements, Hn|exact Hx].
  - assert (Hall : forall n, n ∈ indices_to_create st -> ("exists", n) ∈ es_calls evs)
      by (intros n Hn; apply Hr, elem_of_elements, Hn).
    destruct (docs_to_index st) as [|a docs] eqn:Hd.
    + eexists. cbn [fst snd]. rewrite <- app_assoc. split; [reflexivity|].
      split; [reflexivity|]. split; [exact Hb|]. split; [exact Hc|]. split; [exact Hall|].
      exists [info "No documents found to ingest."], []. reflexivity.
    + destruct (helpers_bulk es (a :: docs)) as [[success errors]|e].
      * destruct errors as [|err errors].
        -- eexists. cbn [fst snd]. rewrite <- !app_assoc. split; [reflexivity|].
           split; [reflexivity|]. split; [exact Hb|]. split; [exact Hc|].
           split; [exact Hall|]. eexists [_], [_]. reflexivity.
        -- destruct (log_bulk_errors 0 (take 5 (err :: errors))) as [ls [e|]].
           ++ eexists. cbn [fst snd]. rewrite <- !app_assoc. split; [reflexivity|].
              split; [reflexivity|]. split; [exact Hb|]. split; [exact Hc|].
              split; [exact Hall|]. eexists [_], (_ :: ls ++ [_]).
              cbn [map app]. rewrite map_app. reflexivity.
           ++ destruct (5 <? length (err :: errors))%nat.
              ** eexists. cbn [fst snd]. rewrite <- !app_assoc. split; [reflexivity|].
                 split; [reflexivity|]. split; [exact Hb|]. split; [exact Hc|].
                 split; [exact Hall|]. eexists [_], (_ :: ls ++ [_]).
                 cbn [map app]. rewrite map_app. reflexivity.
              ** eexists. cbn [fst snd]. rewrite <- !app_assoc. split; [reflexivity|].
                 split; [reflexivity|]. split; [exact Hb|]. split; [exact Hc|].
                 split; [exact Hall|]. eexists [_], (_ :: ls).
                 cbn [map app]. reflexivity.
      * eexists. cbn [fst snd]. rewrite <- !app_assoc. split; [reflexivity|].
        split; [reflexivity|]. split; [exact Hb|]. split; [exact Hc|].
        split; [exact Hall|]. eexists [_], [_]. reflexivity.
Qed.

(** *** What the walk reads *)

Lemma ingest_files_same_load load1 load2 root ts rid index_name files : forall st,
  (forall file, file ∈ files -> PyStr.endswith ".json" file = true ->
     load1 (path_join root file) = load2 (path_join root file)) ->
  fold_left (fun st file => ingest_file now load1 root ts rid index_name file st) files st
  = fold_left (fun st file => ingest_file now load2 root ts rid index_name file st) files st.
Proof.
  induction files as [|f files IH]; intros st H; [reflexivity|].
  cbn. rewrite <- IH by (intros file Hf; apply H, list_elem_of_further, Hf).
  f_equal. unfold ingest_file.
  destruct (PyStr.endswith ".json" f) eqn:Hj; [|reflexivity].
  rewrite (H f (list_elem_of_here _ _) Hj). reflexivity.
Qed.

Lemma ingest_files_json load root ts rid index_name files : forall st,
  fold_left (fun st file => ingest_file now load root ts rid index_name file st) files st
  = fold_left (fun st file => ingest_file now load root ts rid index_name file st)
      (List.filter (PyStr.endswith ".json") files) st.
Proof.
  induction files as [|f files IH]; intros st; [reflexivity|].
  cbn [fold_left List.filter].
  destruct (PyStr.endswith ".json" f) eqn:Hj.
  - cbn [fold_left]. apply IH.
  - rewrite <- IH. f_equal. unfold ingest_file. rewrite Hj. reflexivity.
Qed.

Lemma walk_relevant load prefix walk : forall st,
  fold_left (ingest_root now load prefix) walk st
  = fold_left (ingest_root now load prefix) (relevant walk) st.
Proof.
  induction walk as [|[root files] walk IH]; intros st; [reflexivity|].
  unfold relevant. cbn [fold_left List.filter fst].
  destruct (in_scope root) eqn:Hs.
  - cbn [map fold_left fst snd]. fold (relevant walk). rewrite <- IH. f_equal.
    unfold ingest_root. fold (in_scope root). rewrite Hs. apply ingest_files_json.
  - fold (relevant walk). rewrite <- IH. f_equal.
    unfold ingest_root. fold (in_scope root). rewrite Hs. reflexivity.
Qed.

Lemma walk_same_load load1 load2 prefix walk : forall st,
  (forall root files file,
      (root, files) ∈ walk -> file ∈ files -> PyStr.endswith ".json" file = true ->
      in_scope root = true ->
      load1 (path_join root file) = load2 (path_join root file)) ->
  fold_left (ingest_root now load1 prefix) walk st
  = fold_left (ingest_root now load2 prefix) walk st.
Proof.
  induction walk as [|[root files] walk IH]; intros st H; [reflexivity|].
  cbn [fold_left].
  rewrite <- IH by (intros r fs f Hin; apply H, list_elem_of_further, Hin).
  f_equal. unfold ingest_root. fold (in_scope root).
  destruct (in_scope root) eqn:Hs; [|reflexivity].
  apply ingest_files_same_load. intros f Hf Hj.
  apply (H root files f); [apply list_elem_of_here|exact Hf|exact Hj|exact Hs].
Qed.

Lemma elem_of_relevant root files walk :
  (root, files) ∈ walk -> in_scope root = true ->
  (root, List.filter (PyStr.endswith ".json") files) ∈ relevant walk.
Proof.
  intros Hin Hs. unfold relevant.
  apply (list_elem_of_fmap_2
           (fun entry => (fst entry, List.filter (PyStr.endswith ".json") (snd entry)))
           _ (root, files)).
  apply list_elem_of_In, filter_In. split; [apply list_elem_of_In, Hin|exact Hs].
Qed.

End WithRuntime.
End IngestRunFacts.

Module IngestProperties.
Import Ingest IngestReadings IngestRunFacts.

(** X1.  In a run of [ingest_directory] every index lookup and index
    creation comes before the bulk write, there is at most one bulk
    write, and each of its actions is a [create] into an index that the
    run has looked up before. *)
Theorem bulk_write_follows_index_checks `{RT : PyRuntime} (now : nat -> string)
    (walk : list (string * list string)) (load : string -> result json)
    (base_dir : string) (es : EsClient) (index_prefix : string) :
  exists checks docs,
    es_calls (fst (ingest_directory now walk load base_dir es index_prefix))
    = checks ++ map (fun a => ("bulk", action_index a)) docs
    /\ bulk_writes (fst (ingest_directory now walk load base_dir es index_prefix))
       = match docs with [] => [] | _ :: _ => [docs] end
    /\ Forall (fun c => c.1 = "exists" \/ c.1 = "create") checks
    /\ Forall (fun a => action_op_type a = "create"
                        /\ ("exists", action_index a) ∈ checks) docs.
Proof.
  destruct (ingest_directory_shape now walk load base_dir es index_prefix)
    as (lines & evs & tail & -> & _ & Hb & Hc & Hr).
  rewrite !es_calls_app, !bulk_writes_app, es_calls_logged, bulk_writes_logged, Hb.
  cbn [app].
  destruct (snd (ingest_directory now walk load base_dir es index_prefix)) as [u|e].
  - destruct Hr as (Hall & l1 & l2 & ->).
    exists (es_calls evs), (docs_to_index (walked now walk load base_dir index_prefix)).
    rewrite !es_calls_app, !bulk_writes_app, !es_calls_logged, !bulk_writes_logged.
    destruct (walked_collected now walk load base_dir index_prefix) as [_ Hd].
    destruct (docs_to_index (walked now walk load base_dir index_prefix)) as [|a docs].
    + repeat split; [exact Hc|constructor].
    + cbn [es_calls flat_map bulk_writes omap app]. rewrite !app_nil_r.
      repeat split; [exact Hc|].
      eapply Forall_impl; [exact Hd|]. intros x [H1 H2]. split; [exact H1|apply Hall, H2].
  - destruct Hr as (-> & _). exists (es_calls evs), []. rewrite !app_nil_r.
    repeat split; [exact Hc|constructor].
Qed.

(** X2.  Of all the failures a run of [ingest_directory] can meet, only
    one leaves the function as an exception: a raise of
    [es.indices.exists].  Then no bulk write has been issued.  (A file
    that cannot be loaded or normalized, an index that cannot be created
    and a bulk write that raises are logged and the run returns.) *)
Theorem only_index_lookup_failure_escapes `{RT : PyRuntime} (now : nat -> string)
    (walk : list (string * list string)) (load : string -> result json)
    (base_dir : string) (es : EsClient) (index_prefix : string) (e : exn) :
  snd (ingest_directory now walk load base_dir es index_prefix) = Raise e ->
  (exists index_name, indices_exists es index_name = Raise e)
  /\ bulk_writes (fst (ingest_directory now walk load base_dir es index_prefix)) = [].
Proof.
  intros Hraise.
  destruct (ingest_directory_shape now walk load base_dir es index_prefix)
    as (lines & evs & tail & -> & _ & Hb & Hc & Hr).
  rewrite Hraise in Hr. destruct Hr as (-> & n & _ & Hn).
  split; [exists n; exact Hn|].
  rewrite !bulk_writes_app, bulk_writes_logged, Hb. reflexivity.
Qed.

Lemma only_index_lookup_failure_escapes_witness :
  (exists index_name,
      indices_exists Cases.unreachable_client index_name = Raise Cases.unreachable)
  /\ bulk_writes (fst (ingest_directory Toy.clock Scenario.one_file_walk Scenario.load_page
                         "reports" Cases.unreachable_client "osint_")) = [].
Proof.
  exact (only_index_lookup_failure_escapes (RT := Toy.runtime) Toy.clock Scenario.one_file_walk
           Scenario.load_page "reports" Cases.unreachable_client "osint_"
           Cases.unreachable ltac:(vm_compute; reflexivity)).
Defined.

(** X3.  A run reads nothing but the [.json] files of the directories
    whose path contains [raw_data] or [osint_construction]: the other
    directories and files of the walk can be left out, and what a loader
    answers for any other path makes no difference. *)
Theorem reads_only_json_files_in_scope `{RT : PyRuntime} (now : nat -> string)
    (walk : list (string * list string)) (load load' : string -> result json)
    (base_dir : string) (es : EsClient) (index_prefix : string) :
  ingest_directory now walk load base_dir es index_prefix
  = ingest_directory now (relevant walk) load base_dir es index_prefix
  /\ ((forall root files file,
          (root, files) ∈ relevant walk -> file ∈ files ->
          load' (path_join root file) = load (path_join root file)) ->
      ingest_directory now walk load' base_dir es index_prefix
      = ingest_directory now walk load base_dir es index_prefix).
Proof.
  split.
  - unfold ingest_directory. rewrite (walk_relevant now load index_prefix walk). reflexivity.
  - intros H. unfold ingest_directory.
    rewrite (walk_same_load now load' load index_prefix walk); [reflexivity|].
    intros root files file Hin Hf Hj Hs.
    apply (H root (List.filter (PyStr.endswith ".json") files) file).
    + apply elem_of_relevant; assumption.
    + apply list_elem_of_In, filter_In. split; [apply list_elem_of_In, Hf|exact Hj].
Qed.

Lemma reads_only_json_files_in_scope_witness :
  ingest_directory Toy.clock Cases.noisy_walk Cases.load_only_page "reports"
    Cases.empty_server "osint_"
  = ingest_directory Toy.clock Cases.noisy_walk Scenario.load_page "reports"
      Cases.empty_server "osint_".
Proof.
  apply (proj2 (reads_only_json_files_in_scope Toy.clock Cases.noisy_walk
                  Scenario.load_page Cases.load_only_page "reports"
                  Cases.empty_server "osint_")).
  intros root files file Hin Hf. vm_compute in Hin.
  apply list_elem_of_singleton in Hin. injection Hin as -> ->.
  apply list_elem_of_singleton in Hf. subst file. reflexivity.
Defined.

End IngestProperties.

(** ** Index names and the actions of a directory *)

Module IngestNameFacts.
Import Ingest IngestReadings IngestFacts ClassifierFacts.

Lemma append_empty (s : string) : s +:+ "" = s.
Proof. induction s as [|c s IH]; [reflexivity|]. rewrite append_cons, IH. reflexivity. Qed.

Lemma startswith_char (sep c : ascii) (s : string) :
  PyStr.startswith (String sep "") (String c s) = Ascii.eqb sep c.
Proof. cbn. destruct (Ascii.eqb sep c); reflexivity. Qed.

Lemma split_without (sep : ascii) (s : string) :
  PyStr.contains (String sep "") s = false -> split sep s = [s].
Proof.
  induction s as [|c s IH]; intros H; [reflexivity|].
  cbn [PyStr.contains] in H. apply orb_false_iff in H as [H1 H2].
  rewrite startswith_char in H1.
  cbn [split]. rewrite Ascii.eqb_sym, H1, (IH H2). reflexivity.
Qed.

Lemma split_at (sep : ascii) (a r : string) :
  PyStr.contains (String sep "") a = false ->
  split sep (a +:+ String sep r) = a :: split sep r.
Proof.
  induction a as [|c a IH]; intros H.
  - rewrite append_nil. cbn [split]. rewrite Ascii.eqb_refl. reflexivity.
  - cbn [PyStr.contains] in H. apply orb_false_iff in H as [H1 H2].
    rewrite startswith_char in H1.
    rewrite append_cons. cbn [split]. rewrite Ascii.eqb_sym, H1, (IH H2). reflexivity.
Qed.

(** The first two fields of [a_b], [a_b_rest]. *)
Lemma split_two_fields (a b tail : string) :
  PyStr.contains "_" a = false -> PyStr.contains "_" b = false ->
  tail = "" \/ PyStr.startswith "_" tail = true ->
  exists rest, split "_"%char (a +:+ "_" +:+ b +:+ tail) = a :: b :: rest.
Proof.
  intros Ha Hb Ht.
  change (a +:+ "_" +:+ b +:+ tail) with (a +:+ String "_"%char (b +:+ tail)).
  rewrite (split_at _ _ _ Ha).
  destruct Ht as [->|Ht].
  - rewrite append_empty, (split_without _ _ Hb). exists []. reflexivity.
  - apply startswith_spec in Ht as [t ->].
    change (b +:+ "_" +:+ t) with (b +:+ String "_"%char t).
    rewrite (split_at _ _ _ Hb). eexists. reflexivity.
Qed.

Section WithRuntime.
Context `{RT : PyRuntime}.
Variable now : nat -> string.

Lemma index_name_two_fields prefix root a b tail :
  path_basename (path_dirname root) = a +:+ "_" +:+ b +:+ tail ->
  PyStr.contains "_" a = false -> PyStr.contains "_" b = false ->
  tail = "" \/ PyStr.startswith "_" tail = true ->
  index_name_of prefix root = lower (prefix +:+ a +:+ "_" +:+ b).
Proof.
  intros Hid Ha Hb Ht. unfold index_name_of. cbv zeta. rewrite Hid.
  destruct (split_two_fields a b tail Ha Hb Ht) as [rest ->]. reflexivity.
Qed.

Lemma index_name_no_field prefix root :
  PyStr.contains "_" (path_basename (path_dirname root)) = false ->
  index_name_of prefix root = lower (prefix +:+ now_strftime).
Proof.
  intros H. unfold index_name_of. cbv zeta. rewrite (split_without _ _ H). reflexivity.
Qed.

Lemma extends_refl index_name st : extends index_name st st.
Proof. split; [reflexivity|]. exists []. rewrite app_nil_r. split; [reflexivity|constructor]. Qed.

Lemma extends_trans index_name st1 st2 st3 :
  extends index_name st1 st2 -> extends index_name st2 st3 -> extends index_name st1 st3.
Proof.
  intros [H1 (n1 & E1 & F1)] [H2 (n2 & E2 & F2)]. split; [congruence|].
  exists (n1 ++ n2). rewrite E2, E1, app_assoc. split; [reflexivity|].
  apply Forall_app. split; assumption.
Qed.

Lemma extends_logged index_name r st : extends index_name st (logged r st).
Proof.
  split; [reflexivity|]. exists []. cbn. rewrite app_nil_r. split; [reflexivity|constructor].
Qed.

Lemma extends_fold_logged index_name lines : forall st,
  extends index_name st (fold_left (fun st r => logged r st) lines st).
Proof.
  induction lines as [|r lines IH]; intros st; [apply extends_refl|].
  cbn. eapply extends_trans; [apply (extends_logged index_name r)|apply IH].
Qed.

Lemma append_actions_extends index_name docs : forall st,
  extends index_name st (fst (append_actions index_name docs st)).
Proof.
  induction docs as [|d docs IH]; intros st; cbn [append_actions]; [apply extends_refl|].
  destruct (pop d "_id") as [[i d']|e]; [|apply extends_refl].
  eapply extends_trans; [|apply IH].
  split; [reflexivity|]. eexists [_]. split; [reflexivity|].
  repeat constructor.
Qed.

Lemma ingest_file_extends load root ts rid index_name file st :
  extends index_name st (ingest_file now load root ts rid index_name file st).
Proof.
  unfold ingest_file.
  destruct (PyStr.endswith ".json" file); [|apply extends_refl].
  destruct (load (path_join root file)) as [raw|e].
  - destruct (normalize_document now raw (path_join root file) ts rid) as [lines [docs|e]].
    + pose proof (append_actions_extends index_name docs
                    (fold_left (fun st r => logged r st) lines
                       (logged (info ("Processing " +:+ path_join root file)) st))) as H.
      destruct (append_actions index_name docs _) as [st' [e|]]; cbn [fst] in H.
      * eapply extends_trans; [|apply extends_logged].
        eapply extends_trans; [|exact H].
        eapply extends_trans; [apply extends_logged|apply extends_fold_logged].
      * eapply extends_trans; [|exact H].
        eapply extends_trans; [apply extends_logged|apply extends_fold_logged].
    + eapply extends_trans; [|apply extends_logged].
      eapply extends_trans; [apply extends_logged|apply extends_fold_logged].
  - eapply extends_trans; apply extends_logged.
Qed.

Lemma ingest_files_extends load root ts rid index_name files : forall st,
  extends index_name st
    (fold_left (fun st file => ingest_file now load root ts rid index_name file st) files st).
Proof.
  induction files as [|f files IH]; intros st; [apply extends_refl|].
  cbn. eapply extends_trans; [apply ingest_file_extends|apply IH].
Qed.

(** A directory in scope: its index joins the set, and its actions go
    to that index. *)
Lemma ingest_root_in_scope load prefix st root files :
  in_scope root = true ->
  let st' := ingest_root now load prefix st (root, files) in
  indices_to_create st' = {[index_name_of prefix root]} ∪ indices_to_create st
  /\ exists new,
       docs_to_index st' = docs_to_index st ++ new
       /\ Forall (fun a => action_index a = index_name_of prefix root
                           /\ action_op_type a = "create") new.
Proof.
  intros Hs st'. subst st'. unfold ingest_root. fold (in_scope root). rewrite Hs.
  fold (index_name_of prefix root).
  match goal with
  | |- context [fold_left ?f files ?st0] =>
      destruct (ingest_files_extends load root
                  (match split "_"%char (path_basename (path_dirname root)) with
                   | a :: b :: _ => a +:+ "_" +:+ b
                   | _ => now_strftime
                   end)
                  (path_basename (path_dirname root))
                  (index_name_of prefix root) files st0) as [H1 H2]
  end.
  split; [exact H1|exact H2].
Qed.

Lemma ingest_root_grows load prefix st entry n :
  n ∈ indices_to_create st -> n ∈ indices_to_create (ingest_root now load prefix st entry).
Proof.
  intros Hn. destruct entry as [root files].
  destruct (in_scope root) eqn:Hs.
  - destruct (ingest_root_in_scope load prefix st root files Hs) as [-> _].
    apply elem_of_union_r, Hn.
  - unfold ingest_root. fold (in_scope root). rewrite Hs. exact Hn.
Qed.

Lemma walk_grows load prefix walk : forall st n,
  n ∈ indices_to_create st ->
  n ∈ indices_to_create (fold_left (ingest_root now load prefix) walk st).
Proof.
  induction walk as [|entry walk IH]; intros st n Hn; [exact Hn|].
  cbn. apply IH, ingest_root_grows, Hn.
Qed.

Lemma walk_indices load prefix walk : forall st root files,
  (root, files) ∈ walk -> in_scope root = true ->
  index_name_of prefix root
  ∈ indices_to_create (fold_left (ingest_root now load prefix) walk st).
Proof.
  induction walk as [|entry walk IH]; intros st root files Hin Hs; [inversion Hin|].
  cbn. apply elem_of_cons in Hin as [<-|Hin].
  - apply walk_grows.
    destruct (ingest_root_in_scope load prefix st root files Hs) as [-> _].
    apply elem_of_union_l, elem_of_singleton. reflexivity.
  - apply (IH _ root files Hin Hs).
Qed.

End WithRuntime.

(** *** The addresses of the actions do not depend on the file name *)

Section TwoRuns.
Context `{RT : PyRuntime}.





End TwoRuns.
End IngestNameFacts.

Module IngestDirectoryProperties.
Import Ingest IngestReadings IngestRunFacts IngestNameFacts.

(** X4.  The index of a report directory is named after the first two
    fields of the directory's name: for a directory [a_b] or [a_b_rest]
    above a [raw_data] or [osint_construction] directory the index is the
    lower-cased [prefix + a_b]; that index joins the set of indices to
    create, and every action collected from the directory is a [create]
    into it.  A directory name without [_] falls back on the clock. *)
Theorem index_named_after_report_directory `{RT : PyRuntime} (now : nat -> string)
    (load : string -> result json) (index_prefix : string) (st : IngestState)
    (root : string) (files : list string) :
  in_scope root = true ->
  let st' := ingest_root now load index_prefix st (root, files) in
  let goes_to index_name :=
    indices_to_create st' = {[index_name]} ∪ indices_to_create st
    /\ exists new,
         docs_to_index st' = docs_to_index st ++ new
         /\ Forall (fun act => action_index act = index_name
                               /\ action_op_type act = "create") new in
  (forall a b tail,
      path_basename (path_dirname root) = a +:+ "_" +:+ b +:+ tail ->
      PyStr.contains "_" a = false -> PyStr.contains "_" b = false ->
      tail = "" \/ PyStr.startswith "_" tail = true ->
      goes_to (lower (index_prefix +:+ a +:+ "_" +:+ b)))
  /\ (PyStr.contains "_" (path_basename (path_dirname root)) = false ->
      goes_to (lower (index_prefix +:+ now_strftime))).
Proof.
  intros Hs st' goes_to.
  pose proof (ingest_root_in_scope now load index_prefix st root files Hs) as H.
  split.
  - intros a b tail Hid Ha Hb Ht.
    rewrite (index_name_two_fields index_prefix root a b tail Hid Ha Hb Ht) in H. exact H.
  - intros Hno. rewrite (index_name_no_field index_prefix root Hno) in H. exact H.
Qed.

Lemma index_named_after_report_directory_witness :
  indices_to_create
    (ingest_root Toy.clock Scenario.load_page "OSINT_" Cases.start_state
       (Scenario.report_root, ["page.json"]))
  = {["osint_20260204_110300"]} ∪ ∅
  /\ exists new,
       docs_to_index
         (ingest_root Toy.clock Scenario.load_page "OSINT_" Cases.start_state
            (Scenario.report_root, ["page.json"]))
       = [] ++ new
       /\ Forall (fun act => action_index act = "osint_20260204_110300"
                             /\ action_op_type act = "create") new.
Proof.
  exact (proj1 (index_named_after_report_directory Toy.clock Scenario.load_page "OSINT_"
                  Cases.start_state Scenario.report_root ["page.json"] eq_refl)
           "20260204" "110300" "_berlin" eq_refl eq_refl eq_refl (or_intror eq_refl)).
Defined.

(** X5.  When a run returns, the index of every report directory of
    the walk has been looked up, and created if the server did not have
    it, whether or not the directory holds a file: a report without JSON
    files still gets its index. *)
Theorem every_report_directory_gets_its_index `{RT : PyRuntime} (now : nat -> string)
    (walk : list (string * list string)) (load : string -> result json)
    (base_dir : string) (es : EsClient) (index_prefix : string)
    (root : string) (files : list string) (a b tail : string) :
  (root, files) ∈ walk ->
  in_scope root = true ->
  path_basename (path_dirname root) = a +:+ "_" +:+ b +:+ tail ->
  PyStr.contains "_" a = false -> PyStr.contains "_" b = false ->
  tail = "" \/ PyStr.startswith "_" tail = true ->
  snd (ingest_directory now walk load base_dir es index_prefix) = Ok tt ->
  let index_name := lower (index_prefix +:+ a +:+ "_" +:+ b) in
  ("exists", index_name)
  ∈ es_calls (fst (ingest_directory now walk load base_dir es index_prefix))
  /\ (indices_exists es index_name = Ok false ->
      ("create", index_name)
      ∈ es_calls (fst (ingest_directory now walk load base_dir es index_prefix))).
Proof.
  intros Hin Hs Hid Ha Hb Ht Hok index_name.
  pose proof (walk_indices now load index_prefix walk
                (mkIngest [] ∅ [Logged (info ("Scanning " +:+ base_dir
                                              +:+ " for raw data..."))])
                root files Hin Hs) as Hn.
  rewrite (index_name_two_fields index_prefix root a b tail Hid Ha Hb Ht) in Hn.
  fold (walked now walk load base_dir index_prefix) in Hn. fold index_name in Hn.
  destruct (ingest_directory_shape now walk load base_dir es index_prefix)
    as (lines & evs & rest & -> & Hens & _ & _ & Hr).
  rewrite Hok in Hr, Hens. destruct Hr as [Hall _].
  rewrite !es_calls_app. split.
  - apply elem_of_app. right. apply elem_of_app. left. apply Hall, Hn.
  - intros Hnew.
    destruct (ensure_all_creates es _ _ _ _ Hens eq_refl) as (evs' & Heq & Hc).
    apply app_inv_head in Heq. subst evs'.
    apply elem_of_app. right. apply elem_of_app. left.
    apply Hc; [apply elem_of_elements, Hn|exact Hnew].
Qed.

Lemma every_report_directory_gets_its_index_witness :
  ("exists", "osint_20260204_110300")
  ∈ es_calls (fst (ingest_directory Toy.clock Cases.empty_walk Scenario.load_page
                     "reports" Cases.empty_server "osint_"))
  /\ (indices_exists Cases.empty_server "osint_20260204_110300" = Ok false ->
      ("create", "osint_20260204_110300")
      ∈ es_calls (fst (ingest_directory Toy.clock Cases.empty_walk Scenario.load_page
                         "reports" Cases.empty_server "osint_"))).
Proof.
  exact (every_report_directory_gets_its_index Toy.clock Cases.empty_walk
           Scenario.load_page "reports" Cases.empty_server "osint_"
           Scenario.report_root [] "20260204" "110300" "_berlin"
           (list_elem_of_here _ _) eq_refl eq_refl eq_refl eq_refl (or_intror eq_refl)
           ltac:(vm_compute; reflexivity)).
Defined.



End IngestDirectoryProperties.

(** ** The loops of the normalizers, item by item *)

Module NormalizerFacts.
Import Ingest IngestFacts.

Section WithRuntime.
Context `{RT : PyRuntime}.
Variable now : nat -> string.

(** A loop whose body returns on every item returns, with one Document
    for each item, in order; [R] relates the index of an item, the number
    of Documents before it, the item and its Document. *)
Lemma for_enumerate_lookup (R : nat -> nat -> json -> Document -> Prop) body items :
  (forall idx x docs, x ∈ items -> exists d, body idx x docs = Ok d /\ R idx (length docs) x d) ->
  forall idx acc,
    exists new,
      for_enumerate body idx items acc = Ok (acc ++ new)
      /\ length new = length items
      /\ forall i x, items !! i = Some x ->
                     exists d, new !! i = Some d /\ R (idx + i)%nat (length acc + i)%nat x d.
Proof.
  induction items as [|x items IH]; intros Hbody idx acc.
  - exists []. rewrite app_nil_r. split; [reflexivity|]. split; [reflexivity|].
    intros i y Hy. discriminate Hy.
  - destruct (Hbody idx x acc (list_elem_of_here _ _)) as (d & Hd & HR).
    destruct (IH (fun idx y docs Hy => Hbody idx y docs (list_elem_of_further _ _ _ Hy))
                (S idx) (acc ++ [d])) as (new & Hnew & Hlen & Hall).
    exists (d :: new). cbn [for_enumerate]. rewrite Hd. cbn [bind].
    rewrite Hnew, <- app_assoc. split; [reflexivity|].
    split; [cbn; rewrite Hlen; reflexivity|].
    intros [|i] y Hy.
    + injection Hy as <-. exists d. split; [reflexivity|].
      rewrite !Nat.add_0_r. exact HR.
    + destruct (Hall i y Hy) as (d' & Hd' & HR'). exists d'. split; [exact Hd'|].
      rewrite length_app in HR'. cbn [length] in HR'.
      replace (idx + S i)%nat with (S idx + i)%nat by lia.
      replace (length acc + S i)%nat with (length acc + 1 + i)%nat by lia.
      exact HR'.
Qed.

Lemma dict_fields (m : json) : Py.isinstance_dict m = true -> exists mfields, m = JObj mfields.
Proof. destruct m; try discriminate. intros _. eexists. reflexivity. Qed.

(** The loop over the messages of a Telegram payload. *)
Lemma telegram_message_loop f rid search_queries channels_searched ms :
  Forall (fun m => Py.isinstance_dict m = true) ms ->
  exists new,
    for_enumerate (fun (idx : nat) message docs =>
      sender <- Py.get message "sender_id" (JStr "unknown") ;;
      body <- Py.get message "message" (JStr "") ;;
      url_channel <- Py.get message "channel" (JStr "unknown") ;;
      url_id <- Py.get message "id" (JStr "unknown") ;;
      channel <- Py.get message "channel" (JStr "") ;;
      sender_id <- Py.get message "sender_id" (JStr "") ;;
      date <- Py.get message "date" (JStr "") ;;
      Ok [ ("timestamp", timestamp_of now docs);
           ("source_file", JStr f);
           ("source_type", JStr "telegram");
           ("data_type", JStr "message");
           ("title", JStr ("Telegram message from " +:+ format_value sender));
           ("body", body);
           ("url", JStr ("telegram://channel/" +:+ format_value url_channel
                         +:+ "/" +:+ format_value url_id));
           ("channel", channel);
           ("sender_id", sender_id);
           ("date", date);
           ("search_queries", search_queries);
           ("channels_searched", channels_searched);
           ("raw_source", message);
           ("report_id", JStr rid);
           ("_id", JStr (generate_doc_id (json_dumps_sort_keys message))) ])
      0%nat ms [] = Ok new
    /\ length new = length ms
    /\ forall i m, ms !! i = Some m ->
         exists mfields d,
           m = JObj mfields /\ new !! i = Some d
           /\ IngestReadings.message_document_of mfields d
           /\ Py.assoc "timestamp" d = Some (JStr (now i)).
Proof.
  intros Hd.
  match goal with
  | |- exists new, for_enumerate ?body _ _ _ = _ /\ _ =>
      destruct (for_enumerate_lookup
                  (fun (idx n : nat) m d =>
                     exists mfields, m = JObj mfields
                       /\ IngestReadings.message_document_of mfields d
                       /\ Py.assoc "timestamp" d = Some (JStr (now n)))
                  body ms) with (idx := 0%nat) (acc := @nil Document)
        as (new & Hnew & Hlen & Hall)
  end.
  - intros idx x docs Hx.
    rewrite Forall_forall in Hd. destruct (dict_fields x (Hd x Hx)) as [mfields ->].
    eexists. split; [reflexivity|]. exists mfields. split; [reflexivity|].
    split; [|reflexivity]. repeat split.
  - exists new. split; [exact Hnew|]. split; [exact Hlen|].
    intros i m Hm. destruct (Hall i m Hm) as (d & Hd' & mfields & -> & Hdoc & Hts).
    exists mfields, d. split; [reflexivity|]. split; [exact Hd'|].
    split; [exact Hdoc|exact Hts].
Qed.

(** A Telegram payload whose messages are objects. *)
Lemma telegram_documents fields f rid ms :
  default (JArr []) (Py.assoc "messages" fields) = JArr ms ->
  Forall (fun m => Py.isinstance_dict m = true) ms ->
  let raw := JObj fields in
  let search_queries := default (JArr []) (Py.assoc "search_queries" fields) in
  let channels_searched := default (JArr []) (Py.assoc "channels_searched" fields) in
  (ms <> [] ->
   exists docs,
     normalize_telegram_osint_data now raw f rid = Ok docs
     /\ length docs = length ms
     /\ forall i m, ms !! i = Some m ->
          exists mfields d,
            m = JObj mfields /\ docs !! i = Some d
            /\ IngestReadings.message_document_of mfields d)
  /\ (ms = [] ->
      forall n_channels n_queries,
        Py.len channels_searched = Ok n_channels ->
        Py.len search_queries = Ok n_queries ->
        exists d,
          normalize_telegram_osint_data now raw f rid = Ok [d]
          /\ IngestReadings.summary_document_of raw n_channels n_queries d)
  /\ (ms = [] ->
      forall e,
        Py.len channels_searched = Raise e ->
        normalize_telegram_osint_data now raw f rid = Raise e).
Proof.
  intros Hms Hd raw search_queries channels_searched.
  destruct (telegram_message_loop f rid search_queries channels_searched ms Hd)
    as (new & Hnew & Hlen & Hall).
  assert (Hrun : normalize_telegram_osint_data now raw f rid
                 = (if negb (Py.truthy (JArr ms)) then
                      n_channels <- Py.len channels_searched ;;
                      n_queries <- Py.len search_queries ;;
                      Ok (new ++
                          [ [ ("timestamp", timestamp_of now new);
                              ("source_file", JStr f);
                              ("source_type", JStr "telegram");
                              ("data_type", JStr "search_summary");
                              ("title", JStr "Telegram OSINT Search Summary");
                              ("body", JStr ("Searched " +:+ format_value (JInt n_channels)
                                             +:+ " channels with "
                                             +:+ format_value (JInt n_queries)
                                             +:+ " queries. No messages found."));
                              ("search_queries", search_queries);
                              ("channels_searched", channels_searched);
                              ("messages_found", JInt 0);
                              ("raw_source", raw);
                              ("report_id", JStr rid);
                              ("_id", JStr (generate_doc_id (json_dumps_sort_keys raw))) ] ])
                    else Ok new)).
  { unfold normalize_telegram_osint_data, raw. cbv zeta. cbn [Py.get bind].
    rewrite Hms. cbn [Py.iter bind].
    fold search_queries. fold channels_searched. rewrite Hnew. reflexivity. }
  split; [|split].
  - intros Hne. exists new. rewrite Hrun.
    destruct ms as [|m ms']; [congruence|]. cbn [Py.truthy length Nat.eqb negb].
    split; [reflexivity|]. split; [exact Hlen|].
    intros i x Hx. destruct (Hall i x Hx) as (mfields & d & -> & Hd' & Hdoc & _).
    exists mfields, d. split; [reflexivity|]. split; [exact Hd'|exact Hdoc].
  - intros -> n_c n_q Hc Hq. rewrite Hrun. cbn [Py.truthy length Nat.eqb negb].
    rewrite Hc, Hq. cbn [bind]. destruct new; [|discriminate Hlen].
    eexists. split; [reflexivity|]. repeat split.
  - intros -> e Hc. rewrite Hrun. cbn [Py.truthy length Nat.eqb negb].
    rewrite Hc. reflexivity.
Qed.

(** A search-result payload whose three lists hold objects: the
    Documents of the organic results, then those of the related
    questions, then those of the related searches. *)
Lemma serp_documents fields f rid sp organic questions searches :
  default (JObj []) (Py.assoc "search_parameters" fields) = JObj sp ->
  default (JArr []) (Py.assoc "organic_results" fields) = JArr organic ->
  default (JArr []) (Py.assoc "related_questions" fields) = JArr questions ->
  default (JArr []) (Py.assoc "related_searches" fields) = JArr searches ->
  Forall (fun x => Py.isinstance_dict x = true) (organic ++ questions ++ searches) ->
  exists docs,
    normalize_serp_api_data now (JObj fields) f rid = Ok docs
    /\ length docs = (length organic + length questions + length searches)%nat
    /\ (forall i xf, organic !! i = Some (JObj xf) ->
          exists d,
            docs !! i = Some d
            /\ raw_source d = Some (JObj xf)
            /\ data_type d = Some (JStr "organic_result")
            /\ Py.assoc "position" d
               = Some (default (JInt (Z.of_nat i + 1)) (Py.assoc "position" xf))
            /\ Py.assoc "search_query" d = Some (default (JStr "") (Py.assoc "q" sp)))
    /\ (forall j x, questions !! j = Some x ->
          exists d,
            docs !! (length organic + j)%nat = Some d
            /\ raw_source d = Some x
            /\ data_type d = Some (JStr "related_question"))
    /\ (forall k x, searches !! k = Some x ->
          exists d,
            docs !! (length organic + length questions + k)%nat = Some d
            /\ raw_source d = Some x
            /\ data_type d = Some (JStr "related_search")).
Proof.
  intros Hsp Ho Hq Hs Hd.
  apply Forall_app in Hd as [Hd1 Hd]. apply Forall_app in Hd as [Hd2 Hd3].
  rewrite Forall_forall in Hd1, Hd2, Hd3.
  unfold normalize_serp_api_data. cbv zeta. cbn [Py.get bind].
  rewrite Hsp. cbn [Py.get bind]. rewrite Ho. cbn [Py.iter bind].
  match goal with
  | |- context [for_enumerate ?b 0%nat organic []] =>
      destruct (for_enumerate_lookup
                  (fun (idx n : nat) x d =>
                     raw_source d = Some x
                     /\ data_type d = Some (JStr "organic_result")
                     /\ Py.assoc "search_query" d = Some (default (JStr "") (Py.assoc "q" sp))
                     /\ forall xf, x = JObj xf ->
                          Py.assoc "position" d
                          = Some (default (JInt (Z.of_nat idx + 1)) (Py.assoc "position" xf)))
                  b organic) with (idx := 0%nat) (acc := @nil Document)
        as (new1 & Hnew1 & Hlen1 & Hall1)
  end.
  { intros idx x docs Hx. destruct (dict_fields x (Hd1 x Hx)) as [xf ->].
    eexists. split; [reflexivity|]. split; [reflexivity|]. split; [reflexivity|].
    split; [reflexivity|]. intros xf' Hxf. injection Hxf as <-. reflexivity. }
  rewrite Hnew1. cbn [bind app]. rewrite Hq. cbn [Py.iter bind].
  match goal with
  | |- context [for_enumerate ?b 0%nat questions new1] =>
      destruct (for_enumerate_lookup
                  (fun (idx n : nat) x d =>
                     raw_source d = Some x /\ data_type d = Some (JStr "related_question"))
                  b questions) with (idx := 0%nat) (acc := new1)
        as (new2 & Hnew2 & Hlen2 & Hall2)
  end.
  { intros idx x docs Hx. destruct (dict_fields x (Hd2 x Hx)) as [xf ->].
    eexists. split; [reflexivity|]. split; reflexivity. }
  rewrite Hnew2. cbn [bind]. rewrite Hs. cbn [Py.iter bind].
  match goal with
  | |- context [for_enumerate ?b 0%nat searches (new1 ++ new2)] =>
      destruct (for_enumerate_lookup
                  (fun (idx n : nat) x d =>
                     raw_source d = Some x /\ data_type d = Some (JStr "related_search"))
                  b searches) with (idx := 0%nat) (acc := new1 ++ new2)
        as (new3 & Hnew3 & Hlen3 & Hall3)
  end.
  { intros idx x docs Hx. destruct (dict_fields x (Hd3 x Hx)) as [xf ->].
    eexists. split; [reflexivity|]. split; reflexivity. }
  rewrite Hnew3. cbn [bind].
  exists ((new1 ++ new2) ++ new3). split; [reflexivity|].
  split; [rewrite !length_app; lia|].
  split; [|split].
  - intros i xf Hx. destruct (Hall1 i _ Hx) as (d & Hd' & H1 & H2 & H3 & H4).
    exists d. split; [|repeat split; try assumption; exact (H4 xf eq_refl)].
    rewrite <- app_assoc. apply lookup_app_l_Some. exact Hd'.
  - intros j x Hx. destruct (Hall2 j _ Hx) as (d & Hd' & H1 & H2).
    exists d. split; [|split; assumption].
    rewrite <- app_assoc, lookup_app_r by lia.
    replace (length organic + j - length new1)%nat with j by lia.
    apply lookup_app_l_Some. exact Hd'.
  - intros k x Hx. destruct (Hall3 k _ Hx) as (d & Hd' & H1 & H2).
    exists d. split; [|split; assumption].
    rewrite lookup_app_r by (rewrite length_app; lia).
    rewrite length_app.
    replace (length organic + length questions + k - (length new1 + length new2))%nat
      with k by lia.
    exact Hd'.
Qed.

End WithRuntime.
End NormalizerFacts.

Module NormalizerProperties.
Import Ingest IngestReadings NormalizerFacts.

(** X7.  The Telegram normalizer returns one Document for each message,
    in order, and no summary, when the payload holds messages (each an
    object); when the list of messages is empty or missing it returns
    exactly one summary Document, with [messages_found] 0 and the counts
    of the channels and of the queries in its body; and when in that case
    [channels_searched] has no length (a number, say) it raises. *)
Theorem telegram_messages_or_one_summary `{RT : PyRuntime} (now : nat -> string)
    (fields : list (string * json)) (filename report_id : string) (ms : list json) :
  default (JArr []) (Py.assoc "messages" fields) = JArr ms ->
  Forall (fun m => Py.isinstance_dict m = true) ms ->
  let raw := JObj fields in
  let search_queries := default (JArr []) (Py.assoc "search_queries" fields) in
  let channels_searched := default (JArr []) (Py.assoc "channels_searched" fields) in
  (ms <> [] ->
   exists docs,
     normalize_telegram_osint_data now raw filename report_id = Ok docs
     /\ length docs = length ms
     /\ forall i m, ms !! i = Some m ->
          exists mfields d,
            m = JObj mfields /\ docs !! i = Some d /\ message_document_of mfields d)
  /\ (ms = [] ->
      forall n_channels n_queries,
        Py.len channels_searched = Ok n_channels ->
        Py.len search_queries = Ok n_queries ->
        exists d,
          normalize_telegram_osint_data now raw filename report_id = Ok [d]
          /\ summary_document_of raw n_channels n_queries d)
  /\ (ms = [] ->
      forall e,
        Py.len channels_searched = Raise e ->
        normalize_telegram_osint_data now raw filename report_id = Raise e).
Proof. intros Hms Hd. exact (telegram_documents now fields filename report_id ms Hms Hd). Qed.

Lemma telegram_messages_or_one_summary_witness :
  normalize_telegram_osint_data Toy.clock (JObj [("channels_searched", JInt 3)]) "t.json" "r"
  = Raise TypeError.
Proof.
  exact (proj2 (proj2 (telegram_messages_or_one_summary Toy.clock
                         [("channels_searched", JInt 3)] "t.json" "r" []
                         eq_refl (List.Forall_nil _)))
           eq_refl TypeError eq_refl).
Defined.

(** X8.  The ingestor does not find the text of the messages in the
    result file of the extended @Niemci search.  The file is taken for a
    Telegram payload and each message becomes one Document, but the
    normalizer reads the keys [message], [sender_id], [id] and
    [channel], and the search writes [text] and [message_id] and no
    channel: every Document has an empty body and sender, the title
    "Telegram message from unknown" and the URL
    [telegram://channel/unknown/unknown]. *)
Theorem exported_messages_lose_their_text `{RT : PyRuntime} (now : nat -> string)
    (timestamp filename valid_timestamp report_id : string)
    (r : NiemciExtendedMain.Results) :
  NiemciExtendedMain.messages r <> [] ->
  exists docs,
    normalize_document now (ResultFile.extended_results timestamp r)
      filename valid_timestamp report_id
    = ([info ("  Detected Telegram OSINT data in " +:+ filename)], Ok docs)
    /\ length docs = length (NiemciExtendedMain.messages r)
    /\ forall i m, NiemciExtendedMain.messages r !! i = Some m ->
         exists d,
           docs !! i = Some d
           /\ raw_source d = Some (ResultFile.extended_message m)
           /\ Py.assoc "body" d = Some (JStr "")
           /\ Py.assoc "sender_id" d = Some (JStr "")
           /\ Py.assoc "title" d
              = Some (JStr ("Telegram message from "
                            +:+ format_value (JStr "unknown")))
           /\ Py.assoc "url" d
              = Some (JStr ("telegram://channel/" +:+ format_value (JStr "unknown")
                            +:+ "/" +:+ format_value (JStr "unknown"))).
Proof.
  intros Hne.
  assert (Hdicts : Forall (fun m => Py.isinstance_dict m = true)
                     (map ResultFile.extended_message (NiemciExtendedMain.messages r)))
    by (apply Forall_fmap, Forall_forall; intros m _; reflexivity).
  destruct (telegram_documents now _ filename report_id
              (map ResultFile.extended_message (NiemciExtendedMain.messages r))
              (eq_refl : default (JArr [])
                           (Py.assoc "messages"
                              match ResultFile.extended_results timestamp r with
                              | JObj fields => fields
                              | _ => []
                              end) = _)
              Hdicts) as [Hdocs _].
  destruct Hdocs as (docs & Hrun & Hlen & Hall).
  { intros H. apply Hne.
    destruct (NiemciExtendedMain.messages r); [reflexivity|discriminate H]. }
  exists docs. split.
  { unfold normalize_document.
    change (detect (ResultFile.extended_results timestamp r)) with (@Ok exn _ TelegramOsint).
    f_equal. exact Hrun. }
  split; [rewrite Hlen, length_map; reflexivity|].
  intros i m Hm.
  destruct (Hall i (ResultFile.extended_message m)) as (mfields & d & Hf & Hd & Hdoc).
  { rewrite list_lookup_fmap, Hm. reflexivity. }
  injection Hf as <-. destruct Hdoc as (H1 & _ & H3 & H4 & H5 & H6).
  exists d. repeat split; assumption.
Qed.

(** The search of a server whose history holds one post of 2025 with a
    text: the file the search writes is normalized into one Document. *)
Lemma exported_messages_lose_their_text_witness :
  exists r w docs,
    NiemciExtendedMain.search_niemci_extended 1 Scenario.repeating_client = Some (r, w)
    /\ normalize_document Toy.clock
         (ResultFile.extended_results "2026-01-01T00:00:00" r)
         "telegram_niemci_extended.json" "20260101_000000" "r"
       = ([info "  Detected Telegram OSINT data in telegram_niemci_extended.json"], Ok docs)
    /\ length docs = 1%nat.
Proof.
  assert (Hrun : exists r w,
             NiemciExtendedMain.search_niemci_extended 1 Scenario.repeating_client
             = Some (r, w)
             /\ length (NiemciExtendedMain.messages r) = 1%nat)
    by (vm_compute; eexists _, _; split; reflexivity).
  destruct Hrun as (r & w & Hrun & Hone).
  destruct (exported_messages_lose_their_text Toy.clock "2026-01-01T00:00:00"
              "telegram_niemci_extended.json" "20260101_000000" "r" r)
    as (docs & Hdocs & Hlen & _).
  { intros H. rewrite H in Hone. discriminate Hone. }
  exists r, w, docs. split; [exact Hrun|]. split; [exact Hdocs|].
  rewrite Hlen. exact Hone.
Defined.

(** X9.  The result files of the @Niemci/DE4RU collector and of the
    phone-number collector are not taken for Telegram payloads: whatever
    was collected, a whole file becomes a single Document of source type
    and data type [unknown], with an empty title, body and URL, and no
    Document is made of any message in it. *)
Theorem collector_file_is_one_unknown_document `{RT : PyRuntime} `{SO : SetOrder}
    (now : nat -> string) (search_timestamp filename valid_timestamp report_id : string) :
  let unknown_document raw :=
    [ ("timestamp", JStr (now 0%nat));
      ("source_file", JStr filename);
      ("source_type", JStr "unknown");
      ("data_type", JStr "unknown");
      ("title", JStr "");
      ("body", JStr "");
      ("url", JStr "");
      ("raw_source", raw);
      ("report_id", JStr report_id);
      ("_id", JStr (sha256_hexdigest (json_dumps_sort_keys raw))) ] in
  (forall results s,
      normalize_document now (ResultFile.niemci_results search_timestamp results s)
        filename valid_timestamp report_id
      = ([], Ok [unknown_document (ResultFile.niemci_results search_timestamp results s)]))
  /\ (forall results s,
        normalize_document now (ResultFile.phones_results search_timestamp results s)
          filename valid_timestamp report_id
        = ([], Ok [unknown_document
                     (ResultFile.phones_results search_timestamp results s)])).
Proof. split; intros results s; reflexivity. Qed.

(** X10.  A search-result payload whose lists hold objects is normalized
    into one Document for each organic result, then one for each related
    question, then one for each related search, in the order of the
    lists; a missing list counts as empty.  An organic result keeps its
    own [position] and gets its rank in the list, counted from 1, when it
    has none; every Document carries the query of [search_parameters]. *)
Theorem serp_documents_in_order `{RT : PyRuntime} (now : nat -> string)
    (fields sp : list (string * json)) (filename report_id : string)
    (organic questions searches : list json) :
  default (JObj []) (Py.assoc "search_parameters" fields) = JObj sp ->
  default (JArr []) (Py.assoc "organic_results" fields) = JArr organic ->
  default (JArr []) (Py.assoc "related_questions" fields) = JArr questions ->
  default (JArr []) (Py.assoc "related_searches" fields) = JArr searches ->
  Forall (fun x => Py.isinstance_dict x = true) (organic ++ questions ++ searches) ->
  exists docs,
    normalize_serp_api_data now (JObj fields) filename report_id = Ok docs
    /\ length docs = (length organic + length questions + length searches)%nat
    /\ (forall i xf, organic !! i = Some (JObj xf) ->
          exists d,
            docs !! i = Some d
            /\ raw_source d = Some (JObj xf)
            /\ data_type d = Some (JStr "organic_result")
            /\ Py.assoc "position" d
               = Some (default (JInt (Z.of_nat i + 1)) (Py.assoc "position" xf))
            /\ Py.assoc "search_query" d = Some (default (JStr "") (Py.assoc "q" sp)))
    /\ (forall j x, questions !! j = Some x ->
          exists d,
            docs !! (length organic + j)%nat = Some d
            /\ raw_source d = Some x
            /\ data_type d = Some (JStr "related_question"))
    /\ (forall k x, searches !! k = Some x ->
          exists d,
            docs !! (length organic + length questions + k)%nat = Some d
            /\ raw_source d = Some x
            /\ data_type d = Some (JStr "related_search")).
Proof. apply serp_documents. Qed.

Lemma serp_documents_in_order_witness :
  exists docs,
    normalize_serp_api_data Toy.clock (JObj Cases.serp_fields) "serp.json" "r" = Ok docs
    /\ length docs = 3%nat
    /\ (exists d, docs !! 1%nat = Some d /\ Py.assoc "position" d = Some (JInt 2)).
Proof.
  destruct (serp_documents_in_order Toy.clock Cases.serp_fields
              [("q", JStr "Stromnetz Berlin")] "serp.json" "r"
              [ JObj [("title", JStr "a"); ("position", JInt 7)];
                JObj [("title", JStr "b")] ]
              [] [ JObj [("query", JStr "Stromnetz Berlin Jobs")] ]
              eq_refl eq_refl eq_refl eq_refl
              ltac:(repeat constructor))
    as (docs & Hrun & Hlen & Horganic & _).
  exists docs. split; [exact Hrun|]. split; [exact Hlen|].
  destruct (Horganic 1%nat [("title", JStr "b")] eq_refl) as (d & Hd & _ & _ & Hpos & _).
  exists d. split; [exact Hd|exact Hpos].
Defined.

End NormalizerProperties.

(** ** The environment file *)

Module EnvFacts.
Import IngestMain ClassifierFacts IngestNameFacts.

Lemma split_once_at (sep : ascii) (k v : string) :
  PyStr.contains (String sep "") k = false ->
  split_once sep (k +:+ String sep v) = Some (k, v).
Proof.
  induction k as [|c k IH]; intros H.
  - rewrite append_nil. cbn [split_once]. rewrite Ascii.eqb_refl. reflexivity.
  - cbn [PyStr.contains] in H. apply orb_false_iff in H as [H1 H2].
    rewrite startswith_char in H1.
    rewrite append_cons. cbn [split_once]. rewrite Ascii.eqb_sym, H1, (IH H2). reflexivity.
Qed.

Lemma split_once_parts (sep : ascii) (line : string) : forall k v,
  split_once sep line = Some (k, v) -> line = k +:+ String sep v.
Proof.
  induction line as [|c line IH]; intros k v H; [discriminate H|].
  cbn [split_once] in H. destruct (Ascii.eqb c sep) eqn:Hc.
  - injection H as <- <-. apply Ascii.eqb_eq in Hc as ->. reflexivity.
  - destruct (split_once sep line) as [[k' v']|]; [|discriminate H].
    injection H as <- <-. rewrite append_cons, <- (IH k' v' eq_refl). reflexivity.
Qed.

Section WithStrip.
Variable strip : string -> string.

Lemma env_line_assigns env line k v :
  strip line = k +:+ "=" +:+ v ->
  PyStr.contains "=" k = false ->
  PyStr.startswith "#" k = false ->
  env_line strip env line = <[k := v]> env.
Proof.
  intros Hl Hk Hc. unfold env_line. rewrite Hl.
  change (k +:+ "=" +:+ v) with (k +:+ String "="%char v).
  rewrite (split_once_at _ k v Hk).
  destruct k as [|c k]; [reflexivity|].
  rewrite append_cons. rewrite startswith_char in Hc.
  cbn [String.eqb negb andb]. rewrite startswith_char, Hc. reflexivity.
Qed.

Lemma env_line_keeps env line k :
  PyStr.startswith (k +:+ "=") (strip line) = false ->
  env_line strip env line !! k = env !! k.
Proof.
  intros H. unfold env_line.
  destruct (negb (String.eqb (strip line) "") && negb (PyStr.startswith "#" (strip line)));
    [|reflexivity].
  destruct (split_once "="%char (strip line)) as [[k' v']|] eqn:Hs; [|reflexivity].
  destruct (decide (k' = k)) as [->|Hne]; [|apply lookup_insert_ne, Hne].
  apply split_once_parts in Hs.
  assert (Ht : PyStr.startswith (k +:+ "=") (strip line) = true).
  { apply startswith_spec. exists v'. rewrite Hs, append_assoc. reflexivity. }
  congruence.
Qed.

Lemma env_lines_keep k lines : forall env,
  Forall (fun line => PyStr.startswith (k +:+ "=") (strip line) = false) lines ->
  fold_left (env_line strip) lines env !! k = env !! k.
Proof.
  induction lines as [|l lines IH]; intros env H; [reflexivity|].
  apply Forall_cons in H as [H1 H2]. cbn [fold_left].
  rewrite (IH _ H2). apply env_line_keeps, H1.
Qed.

End WithStrip.
End EnvFacts.

Module EntryPointProperties.
Import Ingest IngestMain EnvFacts IngestReadings.

(** X11.  [load_env] reads [.env] of the current directory and looks at
    [../.env] only when that one is missing; with neither file the
    environment is empty.  In the file read, a line whose stripped text is
    [key=value] sets [key], the value being everything after the first
    [=], further [=] signs included; and the last such line for a key is
    the one that counts. *)
Theorem load_env_last_assignment_wins (strip : string -> string) (fs : FileSystem) :
  (path_exists fs ".env" = false -> path_exists fs "../.env" = false ->
   load_env strip fs = Ok ∅)
  /\ (forall env_file before line after key value,
        (path_exists fs ".env" = true /\ env_file = ".env")
        \/ (path_exists fs ".env" = false /\ path_exists fs "../.env" = true
            /\ env_file = "../.env") ->
        read_lines fs env_file = Ok (before ++ line :: after) ->
        strip line = key +:+ "=" +:+ value ->
        PyStr.contains "=" key = false ->
        PyStr.startswith "#" key = false ->
        Forall (fun later => PyStr.startswith (key +:+ "=") (strip later) = false) after ->
        exists env, load_env strip fs = Ok env /\ env !! key = Some value).
Proof.
  split.
  - intros H1 H2. unfold load_env. cbn [List.find]. rewrite H1, H2. reflexivity.
  - intros env_file before line after key value Hfile Hread Hline Hkey Hhash Hafter.
    assert (Hfind : List.find (path_exists fs) [".env"; "../.env"] = Some env_file).
    { cbn [List.find]. destruct Hfile as [[H1 ->]|(H1 & H2 & ->)].
      - rewrite H1. reflexivity.
      - rewrite H1, H2. reflexivity. }
    unfold load_env. rewrite Hfind, Hread. cbn [bind]. eexists. split; [reflexivity|].
    rewrite fold_left_app. cbn [fold_left].
    rewrite (env_lines_keep strip key after _ Hafter).
    rewrite (env_line_assigns strip _ line key value Hline Hkey Hhash).
    apply lookup_insert_eq.
Qed.

Lemma load_env_last_assignment_wins_witness :
  exists env,
    load_env Cases.strip Cases.disk = Ok env
    /\ env !! "ES_HOST" = Some "http://es:9200/?a=b".
Proof.
  apply (proj2 (load_env_last_assignment_wins Cases.strip Cases.disk) ".env"
           (take 2 Cases.env_lines) ("ES_HOST=http://es:9200/?a=b" +:+ Cases.newline)
           (drop 3 Cases.env_lines) "ES_HOST" "http://es:9200/?a=b").
  - left. split; reflexivity.
  - reflexivity.
  - reflexivity.
  - reflexivity.
  - reflexivity.
  - repeat constructor.
Defined.

(** X12.  [main] asks nothing of Elasticsearch beyond the ping unless the
    environment could be read, the client could be built, the ping
    answered true and a reports directory exists ([reports], else
    [../reports]); then its index and bulk calls are those of
    [ingest_directory] on that directory, with the prefix of
    [ES_INDEX_PREFIX], [osint_] when it is not set. *)
Theorem main_ingests_only_behind_its_guards `{RT : PyRuntime}
    (strip : string -> string) (now : nat -> string) (fs : FileSystem)
    (connect : Connection -> result Elasticsearch) :
  es_calls (main strip now fs connect) <> [] ->
  exists env es,
    load_env strip fs = Ok env
    /\ connect (get_es_client env) = Ok es
    /\ ping es = Ok true
    /\ (path_exists fs "reports" = true \/ path_exists fs "../reports" = true)
    /\ let reports_dir := if path_exists fs "reports" then "reports" else "../reports" in
       es_calls (main strip now fs connect)
       = es_calls (fst (ingest_directory now (os_walk fs reports_dir) (load_json fs)
                          reports_dir (client es)
                          (default "osint_" (env !! "ES_INDEX_PREFIX")))).
Proof.
  unfold main. intros H.
  destruct (load_env strip fs) as [env|e] eqn:Henv; [|exfalso; apply H; reflexivity].
  destruct (connect (get_es_client env)) as [es|e] eqn:Hes;
    [|exfalso; apply H; reflexivity].
  destruct (ping es) as [[|]|e] eqn:Hping; try (exfalso; apply H; reflexivity).
  exists env, es. split; [reflexivity|]. split; [exact Hes|]. split; [exact Hping|].
  destruct (path_exists fs "reports") eqn:Hr.
  - rewrite Hr in *. cbn [negb] in *. split; [left; reflexivity|].
    destruct (ingest_directory now (os_walk fs "reports") (load_json fs) "reports"
                (client es) (default "osint_" (env !! "ES_INDEX_PREFIX")))
      as [evs [u|e]]; cbn [fst];
      rewrite !IngestRunFacts.es_calls_app; cbn [es_calls flat_map app];
      rewrite ?app_nil_r; reflexivity.
  - destruct (path_exists fs "../reports") eqn:Hp; cbn [negb] in *;
      [|exfalso; apply H; reflexivity].
    split; [right; reflexivity|].
    destruct (ingest_directory now (os_walk fs "../reports") (load_json fs) "../reports"
                (client es) (default "osint_" (env !! "ES_INDEX_PREFIX")))
      as [evs [u|e]]; cbn [fst];
      rewrite !IngestRunFacts.es_calls_app; cbn [es_calls flat_map app];
      rewrite ?app_nil_r; reflexivity.
Qed.

Lemma main_ingests_only_behind_its_guards_witness :
  exists env es,
    load_env Cases.strip Cases.disk = Ok env
    /\ Cases.answering (get_es_client env) = Ok es
    /\ ping es = Ok true.
Proof.
  destruct (main_ingests_only_behind_its_guards (RT := Toy.runtime) Cases.strip Toy.clock
              Cases.disk Cases.answering ltac:(vm_compute; discriminate))
    as (env & es & H1 & H2 & H3 & _).
  exists env, es. split; [exact H1|]. split; [exact H2|exact H3].
Defined.

End EntryPointProperties.

(** ** Sorting and counting *)

Module PyListFacts.
Import PyList.

Section Sorted.
Context {A : Type} (key : A -> Z).

Lemma insert_desc_perm (x : A) (l : list A) : insert_desc key x l ≡ₚ x :: l.
Proof.
  induction l as [|y l IH]; [reflexivity|]. cbn [insert_desc].
  destruct (key y <=? key x); [reflexivity|].
  rewrite IH. apply Permutation_swap.
Qed.

Lemma sorted_desc_perm (l : list A) : sorted_desc key l ≡ₚ l.
Proof.
  induction l as [|x l IH]; [reflexivity|].
  cbn [sorted_desc fold_right]. fold (sorted_desc key l).
  rewrite insert_desc_perm, IH. reflexivity.
Qed.

Lemma descending_nil : descending key [].
Proof. intros i j a b _ H. discriminate H. Qed.

Lemma descending_cons (x : A) (l : list A) :
  descending key (x :: l) <-> Forall (fun b => key b <= key x) l /\ descending key l.
Proof.
  split.
  - intros H. split.
    + apply Forall_forall. intros b Hb. apply list_elem_of_lookup in Hb as [j Hj].
      apply (H 0%nat (S j) x b); [lia|reflexivity|exact Hj].
    + intros i j a b Hij Ha Hb. apply (H (S i) (S j) a b); [lia|exact Ha|exact Hb].
  - intros [Hx Hl] i j a b Hij Ha Hb.
    destruct j as [|j]; [lia|]. cbn in Hb.
    destruct i as [|i].
    + injection Ha as <-. rewrite Forall_forall in Hx. apply Hx.
      apply list_elem_of_lookup. exists j. exact Hb.
    + cbn in Ha. apply (Hl i j a b); [lia|exact Ha|exact Hb].
Qed.

Lemma insert_desc_descending (x : A) (l : list A) :
  descending key l -> descending key (insert_desc key x l).
Proof.
  induction l as [|y l IH]; intros H.
  - apply descending_cons. split; [constructor|apply descending_nil].
  - cbn [insert_desc]. apply descending_cons in H as H'. destruct H' as [Hy Hl].
    destruct (key y <=? key x) eqn:Hc.
    + apply Z.leb_le in Hc. apply descending_cons. split; [|exact H].
      constructor; [exact Hc|].
      eapply Forall_impl; [exact Hy|]. intros b Hb. cbn in Hb. lia.
    + apply Z.leb_gt in Hc. apply descending_cons. split; [|apply IH, Hl].
      rewrite insert_desc_perm. constructor; [lia|exact Hy].
Qed.

Lemma sorted_desc_descending (l : list A) : descending key (sorted_desc key l).
Proof.
  induction l as [|x l IH]; [apply descending_nil|].
  cbn [sorted_desc fold_right]. apply insert_desc_descending, IH.
Qed.

Lemma descending_take (n : nat) (l : list A) :
  descending key l -> descending key (take n l).
Proof.
  intros H i j a b Hij Ha Hb.
  destruct (proj1 (lookup_take_is_Some l n j) (ex_intro _ b Hb)) as [_ Hjn].
  rewrite lookup_take_lt in Ha by lia. rewrite lookup_take_lt in Hb by lia.
  apply (H i j a b Hij Ha Hb).
Qed.

(** In a descending list no element beyond a prefix has a larger key
    than an element of the prefix. *)
Lemma descending_prefix (n : nat) (l : list A) (a b : A) :
  descending key l -> a ∈ take n l -> b ∈ drop n l -> key b <= key a.
Proof.
  intros H Ha Hb.
  apply list_elem_of_lookup in Ha as [i Hi]. apply list_elem_of_lookup in Hb as [j Hj].
  destruct (proj1 (lookup_take_is_Some l n i) (ex_intro _ a Hi)) as [_ Hin].
  rewrite lookup_take_lt in Hi by lia. rewrite lookup_drop in Hj.
  apply (H i (n + j)%nat a b); [lia|exact Hi|exact Hj].
Qed.

Lemma count_if_bounds (p : A -> bool) (l : list A) :
  0 <= count_if p l <= Z.of_nat (length l).
Proof.
  unfold count_if. split; [lia|]. apply inj_le. induction l as [|x l IH]; [cbn; lia|].
  cbn. destruct (p x); cbn; lia.
Qed.

Lemma count_if_le (p q : A -> bool) (l : list A) :
  Forall (fun x => p x = true -> q x = true) l -> count_if p l <= count_if q l.
Proof.
  unfold count_if. intros H. apply inj_le.
  induction H as [|x l Hx H IH]; [cbn; lia|].
  cbn. destruct (p x); [rewrite (Hx eq_refl); cbn; lia|destruct (q x); cbn; lia].
Qed.

End Sorted.

(** *** Counters *)

Lemma total_empty : total ∅ = 0.
Proof. unfold total. apply map_fold_empty. Qed.

Lemma total_insert_new (d : gmap string Z) (k : string) (n : Z) :
  d !! k = None -> total (<[k := n]> d) = n + total d.
Proof.
  intros H. unfold total. apply (map_fold_insert_L (fun _ n acc => n + acc)); [|exact H].
  intros. lia.
Qed.

Lemma total_insert (d : gmap string Z) (k : string) (n : Z) :
  total (<[k := n]> d) = total d - default 0 (d !! k) + n.
Proof.
  destruct (d !! k) as [v|] eqn:H.
  - rewrite <- (insert_delete_id d k v H) at 2.
    rewrite <- (insert_delete_id d k v H) at 1.
    rewrite insert_insert_eq.
    rewrite !total_insert_new by apply lookup_delete_eq. cbn. lia.
  - rewrite total_insert_new by exact H. cbn. lia.
Qed.

Lemma total_bump (d : gmap string Z) (k : string) (n : Z) :
  total (<[k := default 0 (d !! k) + n]> d) = total d + n.
Proof. rewrite total_insert. lia. Qed.

Section CountBy.
Context {A : Type} (key : A -> string).

Lemma count_from_total (l : list A) : forall d,
  total (fold_left (fun counts x => <[key x := default 0 (counts !! key x) + 1]> counts) l d)
  = total d + Z.of_nat (length l).
Proof.
  induction l as [|x l IH]; intros d; [cbn; lia|].
  cbn [fold_left length]. rewrite IH, total_bump. lia.
Qed.

Lemma count_by_total (l : list A) : total (count_by key l) = Z.of_nat (length l).
Proof. unfold count_by. rewrite count_from_total, total_empty. lia. Qed.

Lemma count_from_keys (l : list A) (k : string) : forall d : gmap string Z,
  is_Some (fold_left (fun counts x => <[key x := default 0 (counts !! key x) + 1]> counts)
             l d !! k) ->
  is_Some (d !! k) \/ exists x, x ∈ l /\ key x = k.
Proof.
  induction l as [|x l IH]; intros d H; [left; exact H|].
  cbn [fold_left] in H. apply IH in H as [H|(y & Hy & Hk)].
  - destruct (decide (key x = k)) as [Hx|Hx].
    + right. exists x. split; [apply list_elem_of_here|exact Hx].
    + left. rewrite lookup_insert_ne in H by exact Hx. exact H.
  - right. exists y. split; [apply list_elem_of_further, Hy|exact Hk].
Qed.

Lemma count_by_keys (l : list A) (k : string) :
  is_Some (count_by key l !! k) -> exists x, x ∈ l /\ key x = k.
Proof.
  intros H. apply count_from_keys in H as [H|H]; [|exact H].
  rewrite lookup_empty in H. destruct H as [? H]. discriminate H.
Qed.

End CountBy.
End PyListFacts.

(** ** The summary of the @Niemci/DE4RU collector *)

Module NiemciSummaryFacts.
Import Tg Niemci NiemciFacts.

Section WithRuntime.
Context `{RT : PyRuntime}.

Lemma classify_language (text : string) :
  language (classify_message text) ∈ ["russian"; "ukrainian"; "polish"; "german"; "other"].
Proof.
  unfold classify_message. cbv zeta. cbn [language].
  repeat match goal with
         | |- context [if ?c then _ else _] => destruct c
         end;
    repeat first [apply list_elem_of_here|apply list_elem_of_further].
Qed.

Lemma classify_recruitment_type (text : string) :
  recruitment_type (classify_message text)
  ∈ ["staffing_agency"; "subcontractor"; "direct_hire"; "helper_role"; "general"].
Proof.
  unfold classify_message. cbv zeta. cbn [recruitment_type].
  repeat match goal with
         | |- context [if ?c then _ else _] => destruct c
         end;
    repeat first [apply list_elem_of_here|apply list_elem_of_further].
Qed.

(** Every record of every channel of a run is built from a message in
    the window. *)
Lemma search_all_from_window fuel client queries targets : forall results r',
  search_all (S fuel) client targets queries results = Some r' ->
  (forall c d, channels results !! c = Some d -> Forall (from_window c) (messages d)) ->
  forall c d, channels r' !! c = Some d -> Forall (from_window c) (messages d).
Proof.
  induction targets as [|ch targets IH]; intros results r' Hrun Hinv.
  - injection Hrun as <-. exact Hinv.
  - cbn [search_all] in Hrun.
    destruct (search_channel_window fuel client ch queries results)
      as (r1 & d1 & added & Hr1 & Hch & _ & Hwin & _).
    rewrite Hr1 in Hrun. refine (IH _ r' Hrun _).
    cbn [channels]. rewrite Hch. intros c d Hc.
    destruct (decide (ch = c)) as [<-|Hne].
    + rewrite lookup_insert_eq in Hc. injection Hc as <-. exact Hwin.
    + rewrite lookup_insert_ne in Hc by exact Hne. apply (Hinv c d Hc).
Qed.

Lemma search_all_from_start fuel client queries targets r' :
  search_all (S fuel) client targets queries (mkRun ∅ start) = Some r' ->
  forall c d, channels r' !! c = Some d -> Forall (from_window c) (messages d).
Proof.
  intros Hrun. apply (search_all_from_window fuel client queries targets _ r' Hrun).
  intros c d H. cbn [channels] in H. rewrite lookup_empty in H. discriminate H.
Qed.

Lemma from_window_classified ch m :
  from_window ch m -> exists body, classification m = classify_message body.
Proof. intros (msg & q & body & -> & _). exists body. reflexivity. Qed.

(** The records the summary is computed from. *)
Lemma channel_values_classified (results : Run) :
  (forall c d, channels results !! c = Some d -> Forall (from_window c) (messages d)) ->
  Forall (fun m => exists body, classification m = classify_message body)
    (flat_map messages (NiemciMain.channel_values results)).
Proof.
  intros Hinv. unfold NiemciMain.channel_values.
  generalize TARGET_CHANNELS. intros names.
  induction names as [|c names IH]; [constructor|].
  cbn [omap list_omap]. destruct (channels results !! c) as [d|] eqn:Hc; [|exact IH].
  cbn [flat_map]. apply Forall_app. split; [|exact IH].
  eapply Forall_impl; [apply (Hinv c d Hc)|]. intros m. apply from_window_classified.
Qed.

End WithRuntime.
End NiemciSummaryFacts.

Module SummaryProperties.
Import PyList PyListFacts.

(** X13.  The summary of the @Niemci/DE4RU collector counts every
    collected message once by language and once by recruitment type: the
    run over the target channels returns, the counters of each breakdown
    add up to the total number of messages, the only keys are the five
    languages and the five recruitment types the classifier knows (never
    [unknown]), and the number of red-flag messages is at most the
    total. *)
Theorem breakdowns_add_up_to_the_total `{RT : PyRuntime}
    (fuel : nat) (client : Tg.TelegramClient) :
  exists results s,
    NiemciMain.main (S fuel) client = Some (results, s)
    /\ NiemciMain.total_messages s
       = Z.of_nat (length (flat_map Niemci.messages (NiemciMain.channel_values results)))
    /\ total (NiemciMain.by_language s) = NiemciMain.total_messages s
    /\ total (NiemciMain.by_recruitment_type s) = NiemciMain.total_messages s
    /\ (forall k, is_Some (NiemciMain.by_language s !! k) ->
          k ∈ ["russian"; "ukrainian"; "polish"; "german"; "other"])
    /\ (forall k, is_Some (NiemciMain.by_recruitment_type s !! k) ->
          k ∈ ["staffing_agency"; "subcontractor"; "direct_hire"; "helper_role"; "general"])
    /\ 0 <= NiemciMain.total_red_flag_messages s <= NiemciMain.total_messages s.
Proof.
  unfold NiemciMain.main.
  destruct (NiemciFacts.search_all_total fuel client Niemci.ALL_QUERIES Niemci.TARGET_CHANNELS
              (Niemci.mkRun ∅ Tg.start)) as (r' & Hrun & _).
  rewrite Hrun. exists r', (NiemciMain.aggregate (NiemciMain.channel_values r')).
  split; [reflexivity|].
  pose proof (NiemciSummaryFacts.channel_values_classified r'
                (NiemciSummaryFacts.search_all_from_start fuel client Niemci.ALL_QUERIES
                   Niemci.TARGET_CHANNELS r' Hrun)) as Hall.
  unfold NiemciMain.aggregate. cbv zeta.
  cbn [NiemciMain.total_messages NiemciMain.by_language NiemciMain.by_recruitment_type
       NiemciMain.total_red_flag_messages].
  set (all := flat_map Niemci.messages (NiemciMain.channel_values r')) in *.
  split; [reflexivity|].
  split; [apply count_by_total|]. split; [apply count_by_total|].
  rewrite Forall_forall in Hall.
  split; [|split].
  - intros k Hk. apply count_by_keys in Hk as (m & Hm & <-).
    destruct (Hall m Hm) as [body Hb]. unfold NiemciMain.lang. rewrite Hb.
    apply NiemciSummaryFacts.classify_language.
  - intros k Hk. apply count_by_keys in Hk as (m & Hm & <-).
    destruct (Hall m Hm) as [body Hb]. unfold NiemciMain.rt. rewrite Hb.
    apply NiemciSummaryFacts.classify_recruitment_type.
  - apply (count_if_bounds (fun m => 3 <=? NiemciMain.score m) all).
Qed.

(** X14.  The high-priority findings of the summary are the fifty
    messages with the highest red-flag scores among those that score 3
    or more: at most fifty, in descending order of score, each a
    collected message with a score of at least 3, and no message left
    out scores more than one that is listed; the count of red-flag
    messages is not capped. *)
Theorem high_priority_findings_are_the_top_fifty
    (channel_values : list Niemci.ChannelData) :
  let all_messages := flat_map Niemci.messages channel_values in
  let s := NiemciMain.aggregate channel_values in
  let findings := NiemciMain.high_priority_findings s in
  NiemciMain.total_red_flag_messages s
  = count_if (fun m => 3 <=? NiemciMain.score m) all_messages
  /\ Z.of_nat (length findings) = Z.min 50 (NiemciMain.total_red_flag_messages s)
  /\ descending NiemciMain.score findings
  /\ (forall m, m ∈ findings -> m ∈ all_messages /\ 3 <= NiemciMain.score m)
  /\ (forall m, m ∈ all_messages -> 3 <= NiemciMain.score m ->
        m ∈ findings
        \/ forall f, f ∈ findings -> NiemciMain.score m <= NiemciMain.score f).
Proof.
  intros all_messages s findings. subst s findings.
  unfold NiemciMain.aggregate. cbv zeta.
  cbn [NiemciMain.total_red_flag_messages NiemciMain.high_priority_findings].
  fold all_messages.
  set (high := List.filter (fun m => 3 <=? NiemciMain.score m) all_messages).
  pose proof (sorted_desc_perm NiemciMain.score high) as Hperm.
  pose proof (sorted_desc_descending NiemciMain.score high) as Hdesc.
  set (sorted := sorted_desc NiemciMain.score high) in *.
  assert (Hin : forall m, m ∈ sorted <-> m ∈ all_messages /\ 3 <= NiemciMain.score m).
  { intros m. rewrite Hperm. unfold high. rewrite list_elem_of_In, filter_In.
    rewrite <- list_elem_of_In, Z.leb_le. reflexivity. }
  split; [reflexivity|].
  split; [rewrite length_take, (Permutation_length Hperm); lia|].
  split; [apply descending_take, Hdesc|].
  split.
  - intros m Hm. apply Hin. rewrite <- (take_drop 50 sorted).
    apply elem_of_app. left. exact Hm.
  - intros m Hm Hs.
    assert (Hsorted : m ∈ sorted) by (apply Hin; split; assumption).
    rewrite <- (take_drop 50 sorted) in Hsorted.
    apply elem_of_app in Hsorted as [H|H]; [left; exact H|right].
    intros f Hf. apply (descending_prefix NiemciMain.score 50 sorted f m Hdesc Hf H).
Qed.

End SummaryProperties.

(** ** The summary of the phone-number collector *)

Module PhonesSummaryFacts.
Import Tg Phones ClassifierFacts PyList.

(** A scan appends one indicator for each entry of the table found, in
    the order of the table. *)
Lemma scan_indicators (tag : string) (weight : Z) (table : list string) (hay : string) :
  forall acc,
    snd (scan tag weight table hay acc)
    = snd acc ++ map (fun kw => tag +:+ ":" +:+ kw)
                     (filter (fun kw => PyStr.contains kw hay = true) table).
Proof.
  unfold scan.
  induction table as [|kw rest IH]; intros acc; cbn [fold_left].
  - cbn. rewrite app_nil_r. reflexivity.
  - rewrite IH, filter_cons.
    destruct (PyStr.contains kw hay) eqn:Hc.
    + rewrite decide_True by reflexivity. cbn [snd map]. rewrite <- app_assoc. reflexivity.
    + rewrite decide_False by discriminate. reflexivity.
Qed.

Lemma tag_absent (word tag : string) (table : list string) (hay : string) :
  Forall (fun kw => PyStr.contains word (tag +:+ ":" +:+ kw) = false) table ->
  existsb (PyStr.contains word)
    (map (fun kw => tag +:+ ":" +:+ kw)
         (filter (fun kw => PyStr.contains kw hay = true) table)) = false.
Proof.
  induction 1 as [|kw rest Hkw _ IH]; [reflexivity|].
  rewrite filter_cons. destruct (decide (PyStr.contains kw hay = true)); [|exact IH].
  cbn [map existsb]. rewrite Hkw, IH. reflexivity.
Qed.

Lemma tag_present (word tag : string) (table : list string) (hay : string) :
  Forall (fun kw => PyStr.contains word (tag +:+ ":" +:+ kw) = true) table ->
  existsb (PyStr.contains word)
    (map (fun kw => tag +:+ ":" +:+ kw)
         (filter (fun kw => PyStr.contains kw hay = true) table))
  = (0 <? PyStr.hits table hay)%nat.
Proof.
  unfold PyStr.hits.
  induction 1 as [|kw rest Hkw _ IH]; [reflexivity|].
  rewrite filter_cons. destruct (decide (PyStr.contains kw hay = true)); [|exact IH].
  cbn [map existsb length]. rewrite Hkw. reflexivity.
Qed.

Ltac table_check := repeat (constructor; [vm_compute; reflexivity|]); constructor.

Section WithRuntime.
Context `{RT : PyRuntime} `{SO : SetOrder}.

Lemma indicators_spec (text : string) :
  indicators (score_message text)
  = map (fun kw => "KNOWN_PHONE" +:+ ":" +:+ kw)
        (filter (fun kw => PyStr.contains kw (re_sub_nondigits text) = true) known_phones)
    ++ map (fun kw => "ENTITY" +:+ ":" +:+ kw)
        (filter (fun kw => PyStr.contains kw (Niemci.lowered text) = true) high_entities)
    ++ map (fun kw => "PERSON" +:+ ":" +:+ kw)
        (filter (fun kw => PyStr.contains kw (Niemci.lowered text) = true) person_names)
    ++ map (fun kw => "LOCATION" +:+ ":" +:+ kw)
        (filter (fun kw => PyStr.contains kw (Niemci.lowered text) = true) locations)
    ++ map (fun kw => "CONSTRUCTION" +:+ ":" +:+ kw)
        (filter (fun kw => PyStr.contains kw (Niemci.lowered text) = true) construction).
Proof.
  unfold score_message. cbn [indicators].
  rewrite !scan_indicators. cbn [snd app]. rewrite <- !app_assoc. reflexivity.
Qed.

Lemma known_phone_indicator (text : string) :
  existsb (PyStr.contains "KNOWN_PHONE") (indicators (score_message text))
  = (0 <? PyStr.hits known_phones (re_sub_nondigits text))%nat.
Proof.
  rewrite indicators_spec, !existsb_app.
  rewrite (tag_present "KNOWN_PHONE" "KNOWN_PHONE") by table_check.
  rewrite !(tag_absent "KNOWN_PHONE") by table_check.
  rewrite !orb_false_r. reflexivity.
Qed.

Lemma entity_indicator (text : string) :
  existsb (PyStr.contains "ENTITY") (indicators (score_message text))
  = (0 <? PyStr.hits high_entities (Niemci.lowered text))%nat.
Proof.
  rewrite indicators_spec, !existsb_app.
  rewrite (tag_present "ENTITY" "ENTITY") by table_check.
  rewrite !(tag_absent "ENTITY") by table_check.
  rewrite !orb_false_r. reflexivity.
Qed.

Lemma person_indicator (text : string) :
  existsb (PyStr.contains "PERSON") (indicators (score_message text))
  = (0 <? PyStr.hits person_names (Niemci.lowered text))%nat.
Proof.
  rewrite indicators_spec, !existsb_app.
  rewrite (tag_present "PERSON" "PERSON") by table_check.
  rewrite !(tag_absent "PERSON") by table_check.
  rewrite !orb_false_r. reflexivity.
Qed.

(** Every record of a result list holds the scoring of its own text. *)
Lemma query_messages_scored (ch q : string) (msgs : list Message) : forall sc n,
  Forall (fun m => scoring m = score_message (text m)) (messages (channel_data sc)) ->
  Forall (fun m => scoring m = score_message (text m))
    (messages (channel_data (fst (query_messages ch q msgs sc n)))).
Proof.
  induction msgs as [|msg rest IH]; intros sc n H; cbn [query_messages]; [exact H|].
  destruct (decide (id msg ∈ seen_ids sc)); [apply IH, H|].
  destruct (text_of msg) as [body|]; [|apply IH, H].
  apply IH. unfold add_message, in_world, mark_seen. cbn [channel_data messages].
  apply Forall_app. split; [exact H|].
  constructor; [reflexivity|constructor].
Qed.

Lemma run_query_scored (client : TelegramClient) (entity : Entity) (ch : string)
    (sc : Scan) (q : string) :
  Forall (fun m => scoring m = score_message (text m)) (messages (channel_data sc)) ->
  Forall (fun m => scoring m = score_message (text m))
    (messages (channel_data (run_query client entity ch sc q))).
Proof.
  intros H. unfold run_query.
  destruct (search_request client (tick (world sc)) entity q) as [msgs|e].
  - unfold sleep, in_world at 1. cbn [channel_data].
    apply (query_messages_scored ch q msgs
             (in_world (request (Search ch q)) sc) 0). exact H.
  - destruct (is_flood e); exact H.
Qed.

Lemma run_queries_scored (client : TelegramClient) (entity : Entity) (ch : string)
    (queries : list string) : forall sc,
  Forall (fun m => scoring m = score_message (text m)) (messages (channel_data sc)) ->
  Forall (fun m => scoring m = score_message (text m))
    (messages (channel_data (fold_left (run_query client entity ch) queries sc))).
Proof.
  induction queries as [|q rest IH]; intros sc H; cbn [fold_left]; [exact H|].
  apply IH, run_query_scored, H.
Qed.

Lemma search_channel_phones_scored (client : TelegramClient) (ch : string) (results : Run) :
  (forall c d, channels results !! c = Some d ->
     Forall (fun m => scoring m = score_message (text m)) (messages d)) ->
  forall c d, channels (search_channel_phones client ch results) !! c = Some d ->
    Forall (fun m => scoring m = score_message (text m)) (messages d).
Proof.
  intros H c d. unfold search_channel_phones.
  destruct (get_entity client (tick (run_world results)) ch) as [entity|e]; cbv zeta.
  - match goal with
    | |- context [fold_left ?f ?l ?s] =>
        pose proof (run_queries_scored client entity ch l s ltac:(constructor)) as Hs;
        revert Hs; generalize (fold_left f l s)
    end.
    intros sc Hs. cbn [channels].
    destruct (decide (ch = c)) as [->|Hne];
      [rewrite lookup_insert_eq|rewrite lookup_insert_ne by exact Hne; apply H].
    intros Hd. apply (inj Some) in Hd. rewrite <- Hd. exact Hs.
  - cbn [channels].
    destruct (decide (ch = c)) as [->|Hne];
      [rewrite lookup_insert_eq|rewrite lookup_insert_ne by exact Hne; apply H].
    intros Hd. apply (inj Some) in Hd. rewrite <- Hd. constructor.
Qed.

Lemma search_all_scored (client : TelegramClient) (targets : list string) : forall results,
  (forall c d, channels results !! c = Some d ->
     Forall (fun m => scoring m = score_message (text m)) (messages d)) ->
  forall c d, channels (search_all client targets results) !! c = Some d ->
    Forall (fun m => scoring m = score_message (text m)) (messages d).
Proof.
  unfold search_all.
  induction targets as [|ch rest IH]; intros results H; cbn [fold_left]; [exact H|].
  apply IH. cbn [channels]. apply search_channel_phones_scored, H.
Qed.

Lemma channel_values_scored (results : Run) :
  (forall c d, channels results !! c = Some d ->
     Forall (fun m => scoring m = score_message (text m)) (messages d)) ->
  Forall (fun m => scoring m = score_message (text m))
    (flat_map messages (PhonesMain.channel_values results)).
Proof.
  intros Hinv. unfold PhonesMain.channel_values.
  generalize TARGET_CHANNELS. intros names.
  induction names as [|c names IH]; [constructor|].
  cbn [omap list_omap]. destruct (channels results !! c) as [d|] eqn:Hc; [|exact IH].
  cbn [flat_map]. apply Forall_app. split; [|exact IH].
  apply (Hinv c d Hc).
Qed.

End WithRuntime.

Section Counting.
Context {A : Type}.

Lemma filter_perm (p : A -> bool) (l l' : list A) :
  l ≡ₚ l' -> List.filter p l ≡ₚ List.filter p l'.
Proof.
  induction 1 as [|x l l' _ IH|x y l|l l' l'' _ IH1 _ IH2]; cbn [List.filter].
  - reflexivity.
  - destruct (p x); [constructor|]; exact IH.
  - destruct (p x), (p y); try reflexivity. constructor.
  - etransitivity; eassumption.
Qed.

Lemma count_if_perm (p : A -> bool) (l l' : list A) :
  l ≡ₚ l' -> count_if p l = count_if p l'.
Proof.
  intros H. unfold count_if. f_equal. apply Permutation_length, filter_perm, H.
Qed.

Lemma count_if_ext (p q : A -> bool) (l : list A) :
  Forall (fun x => p x = q x) l -> count_if p l = count_if q l.
Proof.
  intros H. unfold count_if. f_equal. f_equal.
  induction H as [|x l Hx _ IH]; [reflexivity|].
  cbn [List.filter]. rewrite Hx, IH. reflexivity.
Qed.

End Counting.

End PhonesSummaryFacts.

Module PhonesSummaryProperties.
Import PyList PyListFacts PhonesSummaryFacts.

(** X15.  The hit counters of the phone-number collector's summary count
    what the scoring found in each message: [known_phone_hits] is the
    number of collected messages whose digits hold one of the known
    numbers, [entity_hits] and [person_hits] the numbers of messages
    whose lower-cased text holds an entity or a person name.  A message
    counted as a known-phone or entity hit is always counted as highly
    relevant, so neither counter exceeds [high_relevance_count], which
    is at most [total_messages]. *)
Theorem hit_counters_follow_the_scoring `{RT : PyRuntime} `{SO : SetOrder}
    (client : Tg.TelegramClient) :
  let results := fst (PhonesMain.main client) in
  let s := snd (PhonesMain.main client) in
  let all_messages := flat_map Phones.messages (PhonesMain.channel_values results) in
  PhonesMain.total_messages s = Z.of_nat (length all_messages)
  /\ PhonesMain.known_phone_hits s
     = count_if (fun m => (0 <? PyStr.hits Phones.known_phones
                                  (re_sub_nondigits (Phones.text m)))%nat) all_messages
  /\ PhonesMain.entity_hits s
     = count_if (fun m => (0 <? PyStr.hits Phones.high_entities
                                  (Niemci.lowered (Phones.text m)))%nat) all_messages
  /\ PhonesMain.person_hits s
     = count_if (fun m => (0 <? PyStr.hits Phones.person_names
                                  (Niemci.lowered (Phones.text m)))%nat) all_messages
  /\ PhonesMain.known_phone_hits s <= PhonesMain.high_relevance_count s
  /\ PhonesMain.entity_hits s <= PhonesMain.high_relevance_count s
  /\ 0 <= PhonesMain.high_relevance_count s <= PhonesMain.total_messages s.
Proof.
  cbv zeta. unfold PhonesMain.main. cbn [fst snd].
  set (results := Phones.search_all client Phones.TARGET_CHANNELS (Phones.mkRun ∅ Tg.start)).
  assert (Hall : Forall (fun m => Phones.scoring m = Phones.score_message (Phones.text m))
                   (flat_map Phones.messages (PhonesMain.channel_values results))).
  { apply channel_values_scored, search_all_scored.
    intros c d Hc. cbn [Phones.channels] in Hc. rewrite lookup_empty in Hc. discriminate. }
  clearbody results.
  unfold PhonesMain.aggregate. cbv zeta.
  cbn [PhonesMain.total_messages PhonesMain.known_phone_hits PhonesMain.entity_hits
       PhonesMain.person_hits PhonesMain.high_relevance_count].
  set (all_messages := flat_map Phones.messages (PhonesMain.channel_values results)) in *.
  pose proof (sorted_desc_perm PhonesMain.score all_messages) as Hperm.
  rewrite !(count_if_perm _ _ _ Hperm), (Permutation_length Hperm).
  assert (Hkp : count_if (PhonesMain.mentions "KNOWN_PHONE") all_messages
                = count_if (fun m => (0 <? PyStr.hits Phones.known_phones
                                            (re_sub_nondigits (Phones.text m)))%nat)
                    all_messages).
  { apply count_if_ext. eapply Forall_impl; [exact Hall|]. intros m Hm.
    unfold PhonesMain.mentions. rewrite Hm. apply known_phone_indicator. }
  assert (Hen : count_if (PhonesMain.mentions "ENTITY") all_messages
                = count_if (fun m => (0 <? PyStr.hits Phones.high_entities
                                            (Niemci.lowered (Phones.text m)))%nat)
                    all_messages).
  { apply count_if_ext. eapply Forall_impl; [exact Hall|]. intros m Hm.
    unfold PhonesMain.mentions. rewrite Hm. apply entity_indicator. }
  assert (Hpe : count_if (PhonesMain.mentions "PERSON") all_messages
                = count_if (fun m => (0 <? PyStr.hits Phones.person_names
                                            (Niemci.lowered (Phones.text m)))%nat)
                    all_messages).
  { apply count_if_ext. eapply Forall_impl; [exact Hall|]. intros m Hm.
    unfold PhonesMain.mentions. rewrite Hm. apply person_indicator. }
  split; [reflexivity|]. split; [exact Hkp|]. split; [exact Hen|]. split; [exact Hpe|].
  rewrite Hkp, Hen.
  split; [|split].
  - apply count_if_le. eapply Forall_impl; [exact Hall|]. intros m Hm Hhit.
    apply Nat.ltb_lt in Hhit. apply Z.leb_le. unfold PhonesMain.score. rewrite Hm.
    rewrite ClassifierFacts.relevance_score_spec. lia.
  - apply count_if_le. eapply Forall_impl; [exact Hall|]. intros m Hm Hhit.
    apply Nat.ltb_lt in Hhit. apply Z.leb_le. unfold PhonesMain.score. rewrite Hm.
    rewrite ClassifierFacts.relevance_score_spec. lia.
  - apply count_if_bounds.
Qed.

(** X16.  The top findings of the phone-number collector's summary are
    the twenty collected messages with the highest relevance scores:
    their number is the smaller of 20 and the number of collected
    messages, they are in descending order of score, each is a collected
    message, and a collected message that is left out scores no more
    than any that is listed. *)
Theorem top_findings_are_the_twenty_best (channel_values : list Phones.ChannelData) :
  let all_messages := flat_map Phones.messages channel_values in
  let s := PhonesMain.aggregate channel_values in
  let top := PhonesMain.top_findings s in
  Z.of_nat (length top) = Z.min 20 (PhonesMain.total_messages s)
  /\ descending PhonesMain.score top
  /\ (forall m, m ∈ top -> m ∈ all_messages)
  /\ (forall m, m ∈ all_messages ->
        m ∈ top \/ forall f, f ∈ top -> PhonesMain.score m <= PhonesMain.score f).
Proof.
  intros all_messages s top. subst s top.
  unfold PhonesMain.aggregate. cbv zeta.
  cbn [PhonesMain.top_findings PhonesMain.total_messages].
  fold all_messages.
  pose proof (sorted_desc_perm PhonesMain.score all_messages) as Hperm.
  pose proof (sorted_desc_descending PhonesMain.score all_messages) as Hdesc.
  set (sorted := sorted_desc PhonesMain.score all_messages) in *.
  split; [rewrite length_take; lia|].
  split; [apply descending_take, Hdesc|].
  split.
  - intros m Hm. rewrite <- Hperm. rewrite <- (take_drop 20 sorted).
    apply elem_of_app. left. exact Hm.
  - intros m Hm. rewrite <- Hperm in Hm.
    rewrite <- (take_drop 20 sorted) in Hm.
    apply elem_of_app in Hm as [H|H]; [left; exact H|right].
    intros f Hf. apply (descending_prefix PhonesMain.score 20 sorted f m Hdesc Hf H).
Qed.

End PhonesSummaryProperties.

(** ** The analysis of the extended @Niemci search *)

Module ExtendedAnalysisFacts.
Import NiemciExtendedMain PyList PyListFacts.

Lemma bump_total (k : string) (n : Z) (d : gmap string Z) :
  total (Recruitment.bump k n d) = total d + n.
Proof. apply total_bump. Qed.

Lemma bump_keys (k : string) (n : Z) (d : gmap string Z) (k' : string) :
  is_Some (Recruitment.bump k n d !! k') <-> k = k' \/ is_Some (d !! k').
Proof.
  unfold Recruitment.bump. destruct (decide (k = k')) as [->|Hne].
  - rewrite lookup_insert_eq. split; [left; reflexivity|eauto].
  - rewrite lookup_insert_ne by exact Hne. split; [right; assumption|].
    intros [H|H]; [contradiction|exact H].
Qed.

(** Counting the matched queries of one message keeps every counter of
    [by_query] at 1 or more, under a key of the query list. *)
Lemma bump_queries (queries : list string) (matched : list string) :
  Forall (fun q => q ∈ queries) matched ->
  forall d : gmap string Z,
    (forall k n, d !! k = Some n -> k ∈ queries /\ 1 <= n) ->
    forall k n,
      fold_left (fun d query => Recruitment.bump query 1 d) matched d !! k = Some n ->
      k ∈ queries /\ 1 <= n.
Proof.
  induction 1 as [|q matched Hq _ IH]; intros d Hd; cbn [fold_left]; [exact Hd|].
  apply IH. intros k n. unfold Recruitment.bump.
  destruct (decide (q = k)) as [->|Hne].
  - rewrite lookup_insert_eq. intros [= <-]. split; [exact Hq|].
    destruct (d !! k) as [v|] eqn:Hv; cbn [from_option id]; [|lia].
    destruct (Hd k v Hv). lia.
  - rewrite lookup_insert_ne by exact Hne. apply Hd.
Qed.

Lemma count_if_snoc {A : Type} (p : A -> bool) (l : list A) (x : A) :
  count_if p (l ++ [x]) = count_if p l + (if p x then 1 else 0).
Proof.
  unfold count_if. rewrite List.filter_app, length_app. cbn [List.filter].
  destruct (p x); cbn [length]; lia.
Qed.

Section WithRuntime.
Context `{RT : PyRuntime}.

(** What the analysis of one message with a text does to the results. *)
Lemma analyse_message_step (msg : Tg.Message) (body : string) (r : Results) :
  exists m,
    messages (analyse_message msg body r) = messages r ++ [m]
    /\ message_id m = Tg.id msg
    /\ text m = body
    /\ Forall (fun q => q ∈ EXTENDED_QUERIES) (matched_queries m)
    /\ language m ∈ ["russian"; "ukrainian"; "german"; "mixed"]
    /\ recruitment_type m
       ∈ ["construction"; "electrical"; "general_labor"; "skilled_trade"; "other"]
    /\ by_query (statistics (analyse_message msg body r))
       = fold_left (fun d query => Recruitment.bump query 1 d) (matched_queries m)
           (by_query (statistics r))
    /\ by_month (statistics (analyse_message msg body r))
       = Recruitment.bump (strftime_year_month (Tg.date msg)) 1 (by_month (statistics r))
    /\ by_language (statistics (analyse_message msg body r))
       = Recruitment.bump (language m) 1 (by_language (statistics r))
    /\ by_recruitment_type (statistics (analyse_message msg body r))
       = Recruitment.bump (recruitment_type m) 1 (by_recruitment_type (statistics r))
    /\ housing_mentioned (statistics (analyse_message msg body r))
       = housing_mentioned (statistics r) + (if mentions_housing m then 1 else 0)
    /\ no_german_required_count (statistics (analyse_message msg body r))
       = no_german_required_count (statistics r) + (if no_german_required m then 1 else 0)
    /\ berlin_specific_count (statistics (analyse_message msg body r))
       = berlin_specific_count (statistics r) + (if berlin_specific m then 1 else 0).
Proof.
  unfold analyse_message. cbv zeta.
  eexists. split; [reflexivity|].
  cbn [message_id text matched_queries language recruitment_type mentions_housing
       no_german_required berlin_specific statistics by_query by_month by_language
       by_recruitment_type housing_mentioned no_german_required_count
       berlin_specific_count].
  split; [reflexivity|]. split; [reflexivity|].
  split.
  { apply Forall_forall. intros q Hq. apply list_elem_of_In, filter_In in Hq.
    apply list_elem_of_In, Hq. }
  split.
  { repeat match goal with
           | |- context [if ?b then _ else _] => destruct b
           end;
      repeat (first [apply list_elem_of_here|apply list_elem_of_further]). }
  split.
  { repeat match goal with
           | |- context [if ?b then _ else _] => destruct b
           end;
      repeat (first [apply list_elem_of_here|apply list_elem_of_further]). }
  repeat split; reflexivity.
Qed.

(** What the loop over the retrieved messages keeps. *)
Lemma analyse_spec (all_messages : list Tg.Message) : forall r,
  let r' := analyse all_messages r in
  map message_id (messages r')
  = map message_id (messages r) ++ map Tg.id (NiemciExtended.analysed all_messages)
  /\ total (by_language (statistics r'))
     = total (by_language (statistics r))
       + Z.of_nat (length (NiemciExtended.analysed all_messages))
  /\ total (by_recruitment_type (statistics r'))
     = total (by_recruitment_type (statistics r))
       + Z.of_nat (length (NiemciExtended.analysed all_messages))
  /\ total (by_month (statistics r'))
     = total (by_month (statistics r))
       + Z.of_nat (length (NiemciExtended.analysed all_messages))
  /\ housing_mentioned (statistics r') - count_if mentions_housing (messages r')
     = housing_mentioned (statistics r) - count_if mentions_housing (messages r)
  /\ no_german_required_count (statistics r') - count_if no_german_required (messages r')
     = no_german_required_count (statistics r) - count_if no_german_required (messages r)
  /\ berlin_specific_count (statistics r') - count_if berlin_specific (messages r')
     = berlin_specific_count (statistics r) - count_if berlin_specific (messages r)
  /\ (forall k, is_Some (by_language (statistics r') !! k) ->
        is_Some (by_language (statistics r) !! k)
        \/ k ∈ ["russian"; "ukrainian"; "german"; "mixed"])
  /\ (forall k, is_Some (by_language (statistics r) !! k) ->
        is_Some (by_language (statistics r') !! k))
  /\ (forall k, is_Some (by_recruitment_type (statistics r') !! k) ->
        is_Some (by_recruitment_type (statistics r) !! k)
        \/ k ∈ ["construction"; "electrical"; "general_labor"; "skilled_trade"; "other"])
  /\ (forall k, is_Some (by_recruitment_type (statistics r) !! k) ->
        is_Some (by_recruitment_type (statistics r') !! k))
  /\ ((forall k n, by_query (statistics r) !! k = Some n ->
         k ∈ EXTENDED_QUERIES /\ 1 <= n) ->
      forall k n, by_query (statistics r') !! k = Some n ->
         k ∈ EXTENDED_QUERIES /\ 1 <= n).
Proof.
  unfold analyse, NiemciExtended.analysed.
  induction all_messages as [|msg rest IH]; intros r; cbv zeta; cbn [fold_left List.filter].
  - cbn [map length]. rewrite app_nil_r.
    repeat split; try lia; try reflexivity; intros; eauto;
      match goal with H : forall k n, _ -> _ /\ _, H0 : _ = Some _ |- _ => apply (H _ _ H0) end.
  - destruct (Tg.text_of msg) as [body|] eqn:Ht.
    + rewrite bool_decide_eq_true_2 by eauto.
      destruct (analyse_message_step msg body r)
        as (m & Hm & Hid & _ & Hmq & Hl & Hrt & Hq & Hmo & Hla & Hre & Hh & Hn & Hb).
      specialize (IH (analyse_message msg body r)). cbv zeta in IH.
      destruct IH as (I1 & I2 & I3 & I4 & I5 & I6 & I7 & I8 & I9 & I10 & I11 & I12).
      rewrite Hm, Hla, Hre, Hmo, Hh, Hn, Hb, Hq in *.
      rewrite !bump_total in *. rewrite !count_if_snoc in *.
      cbn [map length]. rewrite map_app in I1. cbn [map] in I1.
      rewrite <- app_assoc in I1. cbn [app] in I1. rewrite Hid in I1.
      split; [exact I1|].
      split; [lia|]. split; [lia|]. split; [lia|].
      split; [lia|]. split; [lia|]. split; [lia|].
      split.
      { intros k Hk. apply I8 in Hk as [Hk|Hk]; [|right; exact Hk].
        apply bump_keys in Hk as [<-|Hk]; [right; exact Hl|left; exact Hk]. }
      split.
      { intros k Hk. apply I9, bump_keys. right. exact Hk. }
      split.
      { intros k Hk. apply I10 in Hk as [Hk|Hk]; [|right; exact Hk].
        apply bump_keys in Hk as [<-|Hk]; [right; exact Hrt|left; exact Hk]. }
      split.
      { intros k Hk. apply I11, bump_keys. right. exact Hk. }
      intros Hd. apply I12. apply (bump_queries EXTENDED_QUERIES _ Hmq _ Hd).
    + rewrite bool_decide_eq_false_2
        by (intros [x Hx]; discriminate).
      apply IH.
Qed.

End WithRuntime.

(** The counters the results are set up with. *)
Lemma initial_languages (k : string) :
  is_Some (by_language (statistics initial) !! k)
  <-> k ∈ ["russian"; "ukrainian"; "german"; "mixed"].
Proof.
  unfold initial. cbn [statistics by_language list_to_map foldr uncurry].
  cbn [fst snd]. rewrite !lookup_insert_is_Some', lookup_empty.
  rewrite !elem_of_cons, elem_of_nil.
  split.
  - intros [->|[->|[->|[->|[? H]]]]]; try discriminate; tauto.
  - intros [->|[->|[->|[->|[]]]]]; tauto.
Qed.

Lemma initial_recruitment_types (k : string) :
  is_Some (by_recruitment_type (statistics initial) !! k)
  <-> k ∈ ["construction"; "electrical"; "general_labor"; "skilled_trade"; "other"].
Proof.
  unfold initial. cbn [statistics by_recruitment_type list_to_map foldr uncurry].
  cbn [fst snd]. rewrite !lookup_insert_is_Some', lookup_empty.
  rewrite !elem_of_cons, elem_of_nil.
  split.
  - intros [->|[->|[->|[->|[->|[? H]]]]]]; try discriminate; tauto.
  - intros [->|[->|[->|[->|[->|[]]]]]]; tauto.
Qed.

Lemma initial_totals :
  total (by_language (statistics initial)) = 0
  /\ total (by_recruitment_type (statistics initial)) = 0.
Proof.
  unfold initial. cbn [statistics by_language by_recruitment_type list_to_map foldr uncurry].
  cbn [fst snd]. rewrite !total_insert.
  repeat (rewrite lookup_insert_ne by discriminate).
  rewrite !lookup_empty, total_empty. cbn [from_option id]. split; reflexivity.
Qed.

End ExtendedAnalysisFacts.

Module ExtendedAnalysisProperties.
Import NiemciExtendedMain PyList ExtendedAnalysisFacts.

(** X17.  The analysis of the extended @Niemci search makes one record
    for each retrieved message that has a text, in order, and its
    statistics agree with the records: [total_messages] is their number;
    the counters of [by_language], of [by_recruitment_type] and of
    [by_month] each add up to it; the keys of [by_language] and of
    [by_recruitment_type] are the four languages and the five types the
    results are set up with, whether any message fell under them or not;
    the three flag counters are the numbers of records with the flag
    set; and [by_query] holds only queries of the list, each with a
    count of 1 or more. *)
Theorem analysis_statistics_agree_with_records `{RT : PyRuntime}
    (all_messages : list Tg.Message) :
  let r := with_total (analyse all_messages initial) in
  let s := statistics r in
  map message_id (messages r) = map Tg.id (NiemciExtended.analysed all_messages)
  /\ total_messages s = Z.of_nat (length (messages r))
  /\ total (by_language s) = total_messages s
  /\ total (by_recruitment_type s) = total_messages s
  /\ total (by_month s) = total_messages s
  /\ (forall k, is_Some (by_language s !! k)
                <-> k ∈ ["russian"; "ukrainian"; "german"; "mixed"])
  /\ (forall k, is_Some (by_recruitment_type s !! k)
                <-> k ∈ ["construction"; "electrical"; "general_labor"; "skilled_trade";
                         "other"])
  /\ housing_mentioned s = count_if mentions_housing (messages r)
  /\ no_german_required_count s = count_if no_german_required (messages r)
  /\ berlin_specific_count s = count_if berlin_specific (messages r)
  /\ (forall k n, by_query s !! k = Some n -> k ∈ EXTENDED_QUERIES /\ 1 <= n).
Proof.
  cbv zeta. unfold with_total. cbv zeta.
  cbn [messages statistics total_messages by_language by_recruitment_type by_month
       by_query housing_mentioned no_german_required_count berlin_specific_count].
  destruct (analyse_spec all_messages initial)
    as (I1 & I2 & I3 & I4 & I5 & I6 & I7 & I8 & I9 & I10 & I11 & I12).
  cbv zeta in *.
  destruct initial_totals as [Hl0 Hr0].
  rewrite Hl0 in I2. rewrite Hr0 in I3.
  change (messages initial) with (@nil MessageData) in *.
  cbn [map app] in I1.
  assert (Hlen : length (messages (analyse all_messages initial))
                 = length (NiemciExtended.analysed all_messages)).
  { pose proof (f_equal length I1) as H. rewrite !length_map in H. exact H. }
  change (by_month (statistics initial)) with (∅ : gmap string Z) in I4.
  change (by_query (statistics initial)) with (∅ : gmap string Z) in I12.
  change (housing_mentioned (statistics initial)) with 0 in I5.
  change (no_german_required_count (statistics initial)) with 0 in I6.
  change (berlin_specific_count (statistics initial)) with 0 in I7.
  rewrite PyListFacts.total_empty in I4.
  change (count_if mentions_housing []) with 0 in I5.
  change (count_if no_german_required []) with 0 in I6.
  change (count_if berlin_specific []) with 0 in I7.
  rewrite Hlen.
  split; [exact I1|]. split; [reflexivity|].
  split; [lia|]. split; [lia|]. split; [lia|].
  split.
  { intros k. split.
    - intros Hk. apply I8 in Hk as [Hk|Hk]; [apply initial_languages|]; exact Hk.
    - intros Hk. apply I9, initial_languages, Hk. }
  split.
  { intros k. split.
    - intros Hk. apply I10 in Hk as [Hk|Hk]; [apply initial_recruitment_types|]; exact Hk.
    - intros Hk. apply I11, initial_recruitment_types, Hk. }
  split; [lia|]. split; [lia|]. split; [lia|].
  apply I12. intros k n Hk. rewrite lookup_empty in Hk. discriminate.
Qed.

End ExtendedAnalysisProperties.

(** ** The extended recruitment search and the dates of the messages *)

Module RecruitmentSummaryFacts.
Import Tg Recruitment RecruitmentFacts RecruitmentReadings.

Section WithRuntime.
Context `{RT : PyRuntime}.

(** *** Messages whose dates carry a time zone *)

Lemma in_window_aware (msg : Message) :
  aware (Tg.date msg) = true -> in_window msg = Raise NaiveAwareCompare.
Proof. intros H. unfold in_window, and_then, ge. rewrite H. reflexivity. Qed.

Lemma history_messages_aware (ch : string) (msgs : list Message) (st : State) :
  Forall (fun m => aware (Tg.date m) = true) msgs ->
  fst (history_messages ch msgs st) = st.
Proof.
  intros H. destruct H as [|m rest Hm _]; cbn [history_messages]; [reflexivity|].
  rewrite (in_window_aware m Hm). reflexivity.
Qed.

Lemma query_messages_aware (ch q : string) (msgs : list Message) (st : State) :
  Forall (fun m => aware (Tg.date m) = true) msgs ->
  query_messages ch q msgs st
  = (st, match msgs with [] => None | _ :: _ => Some NaiveAwareCompare end).
Proof.
  intros H. destruct H as [|m rest Hm _]; cbn [query_messages]; [reflexivity|].
  rewrite (in_window_aware m Hm). reflexivity.
Qed.

Section Aware.
Variable client : TelegramClient.
Hypothesis history_aware : forall t e offset_id limit msgs,
  get_history_request client t e offset_id limit = Ok msgs ->
  Forall (fun m => aware (Tg.date m) = true) msgs.
Hypothesis search_aware : forall t e q msgs,
  search_request client t e q = Ok msgs ->
  Forall (fun m => aware (Tg.date m) = true) msgs.

Lemma scan_history_aware (entity : Entity) (ch : string) (st : State) :
  channel_messages st = [] /\ nothing_recorded (results st) ->
  channel_messages (scan_history client entity ch st) = []
  /\ nothing_recorded (results (scan_history client entity ch st)).
Proof.
  intros H. unfold scan_history.
  destruct (get_history_request client (tick (world st)) entity 0 200) as [msgs|e] eqn:Hh.
  - rewrite (history_messages_aware _ _ _ (history_aware _ _ _ _ _ Hh)). exact H.
  - exact H.
Qed.

Lemma run_query_aware (entity : Entity) (ch : string) (st : State) (q : string) :
  channel_messages st = [] /\ nothing_recorded (results st) ->
  channel_messages (run_query client entity ch st q) = []
  /\ nothing_recorded (results (run_query client entity ch st q)).
Proof.
  intros H. unfold run_query.
  destruct (search_request client (tick (world st)) entity q) as [msgs|e] eqn:Hs;
    [|exact H].
  rewrite (query_messages_aware _ _ _ _ (search_aware _ _ _ _ Hs)).
  destruct msgs as [|m rest]; [|exact H].
  cbn [count_in_window]. destruct H as [Hc (H1 & H2 & H3 & H4 & H5 & H6)].
  unfold with_statistics, in_world, nothing_recorded.
  cbn [results channel_messages statistics messages by_language by_month by_channel
       by_query accessible_channels].
  split; [exact Hc|]. split; [exact H1|]. split; [exact H2|]. split; [exact H3|].
  split; [exact H4|]. split; [|exact H6].
  intros k n. unfold bump. destruct (decide (q = k)) as [->|Hne].
  - rewrite lookup_insert_eq. intros [= <-].
    destruct (by_query (statistics (results st)) !! k) as [v|] eqn:Hv;
      cbn [from_option id]; [|reflexivity].
    rewrite (H5 k v Hv). reflexivity.
  - rewrite lookup_insert_ne by exact Hne. apply H5.
Qed.

Lemma run_queries_aware (entity : Entity) (ch : string) (queries : list string) :
  forall st,
    channel_messages st = [] /\ nothing_recorded (results st) ->
    channel_messages (fold_left (run_query client entity ch) queries st) = []
    /\ nothing_recorded (results (fold_left (run_query client entity ch) queries st)).
Proof.
  induction queries as [|q rest IH]; intros st H; cbn [fold_left]; [exact H|].
  apply IH, run_query_aware, H.
Qed.

Lemma search_one_aware (r : Results) (w : World) (ch : string) :
  nothing_recorded r -> nothing_recorded (fst (search_one client (r, w) ch)).
Proof.
  intros Hr.
  destruct (get_entity client (tick w) ch) as [entity|e] eqn:Hres.
  - unfold search_one. rewrite Hres. generalize ADDITIONAL_QUERIES. intros queries.
    set (st0 := mkState r [] (request (Resolve ch) w)).
    pose proof (run_queries_aware entity ch queries
                  (scan_history client entity ch st0)
                  (scan_history_aware entity ch st0 (conj eq_refl Hr))) as H.
    revert H.
    generalize (fold_left (run_query client entity ch) queries
                  (scan_history client entity ch st0)).
    intros st2 [Hc (H1 & H2 & H3 & H4 & H5 & H6)].
    unfold set_by_channel, with_statistics, nothing_recorded.
    cbn [fst results channel_messages statistics messages by_language by_month
         by_channel by_query accessible_channels].
    rewrite Hc. cbn [length].
    split; [exact H1|]. split; [exact H2|]. split; [exact H3|].
    split.
    { intros k n. destruct (decide (ch = k)) as [->|Hne].
      - rewrite lookup_insert_eq. intros [= <-]. reflexivity.
      - rewrite lookup_insert_ne by exact Hne. apply H4. }
    split; [exact H5|].
    apply Forall_app. split; [exact H6|]. constructor; [reflexivity|constructor].
  - rewrite (search_one_inaccessible _ _ _ _ _ Hres).
    destruct Hr as (H1 & H2 & H3 & H4 & H5 & H6).
    unfold nothing_recorded.
    cbn [fst statistics messages by_language by_month by_channel by_query
         accessible_channels].
    split; [exact H1|]. split; [exact H2|]. split; [exact H3|].
    split; [|split; [exact H5|exact H6]].
    intros k n. destruct (decide (ch = k)) as [->|Hne].
    + rewrite lookup_insert_eq. intros [= <-]. reflexivity.
    + rewrite lookup_insert_ne by exact Hne. apply H4.
Qed.

Lemma search_loop_aware (targets : list string) : forall r w,
  nothing_recorded r ->
  nothing_recorded (fst (fold_left (search_one client) targets (r, w))).
Proof.
  induction targets as [|ch rest IH]; intros r w H; cbn [fold_left]; [exact H|].
  pose proof (search_one_aware r w ch H) as H1.
  destruct (search_one client (r, w) ch) as [r1 w1]. apply IH, H1.
Qed.

End Aware.

End WithRuntime.

Lemma initial_nothing_recorded : nothing_recorded initial.
Proof.
  unfold nothing_recorded, initial.
  cbn [statistics messages by_language by_month by_channel by_query accessible_channels].
  repeat split; try (intros k n H; rewrite lookup_empty in H; discriminate).
  constructor.
Qed.

End RecruitmentSummaryFacts.

Module RecruitmentProperties.
Import Tg Ingest Recruitment RecruitmentSummaryFacts NormalizerFacts IngestReadings.

(** X18.  The extended recruitment search compares the date of every
    message with [datetime(2025, 1, 1)] and [datetime(2025, 12, 31)],
    which carry no time zone.  When the dates of the messages the
    server delivers carry one, every such comparison raises inside a
    [try], and the search records nothing, whatever the channels hold:
    no message, no month, the four language counters at 0, and 0 for
    every channel and every query that has a counter.  The file it
    writes then becomes, in the ingestor, one summary Document that
    reports 25 channels, 23 queries and no message found. *)
Theorem aware_dates_leave_nothing_recorded `{RT : PyRuntime} (now : nat -> string)
    (client : TelegramClient) (targets : list string)
    (timestamp filename valid_timestamp report_id : string) :
  (forall t e offset_id limit msgs,
      get_history_request client t e offset_id limit = Ok msgs ->
      Forall (fun m => aware (Tg.date m) = true) msgs) ->
  (forall t e q msgs,
      search_request client t e q = Ok msgs ->
      Forall (fun m => aware (Tg.date m) = true) msgs) ->
  let r := fst (extended_telegram_search client targets) in
  messages r = []
  /\ total_messages (statistics r) = 0
  /\ by_language (statistics r)
     = list_to_map [("russian", 0); ("ukrainian", 0); ("german", 0); ("other", 0)]
  /\ by_month (statistics r) = ∅
  /\ (forall k n, by_channel (statistics r) !! k = Some n -> n = 0)
  /\ (forall k n, by_query (statistics r) !! k = Some n -> n = 0)
  /\ Forall (fun a => snd a = 0) (accessible_channels r)
  /\ exists d,
       normalize_document now (ResultFile.recruitment_results timestamp r)
         filename valid_timestamp report_id
       = ([info ("  Detected Telegram OSINT data in " +:+ filename)], Ok [d])
       /\ summary_document_of (ResultFile.recruitment_results timestamp r) 25 23 d.
Proof.
  intros Hhistory Hsearch. cbv zeta.
  pose proof (search_loop_aware client Hhistory Hsearch targets initial start
                initial_nothing_recorded) as H.
  unfold extended_telegram_search.
  destruct (fold_left (search_one client) targets (initial, start)) as [r w].
  cbn [fst] in *. destruct H as (H1 & H2 & H3 & H4 & H5 & H6).
  cbn [messages statistics total_messages by_language by_month by_channel by_query
       accessible_channels].
  split; [exact H1|]. split; [rewrite H1; reflexivity|]. split; [exact H2|].
  split; [exact H3|]. split; [exact H4|]. split; [exact H5|]. split; [exact H6|].
  set (raw := ResultFile.recruitment_results timestamp _).
  destruct (telegram_documents now
              match raw with JObj fields => fields | _ => [] end
              filename report_id []) as (_ & Hempty & _).
  { unfold raw, ResultFile.recruitment_results. cbv zeta.
    cbn [messages]. rewrite H1. reflexivity. }
  { constructor. }
  destruct (Hempty eq_refl 25 23 eq_refl eq_refl) as (d & Hd & Hsum).
  exists d. split; [|exact Hsum].
  unfold normalize_document.
  change (detect raw) with (@Ok exn _ TelegramOsint). f_equal. exact Hd.
Qed.

(** A server that answers every request with posts of 2025-11-01, UTC:
    nothing is recorded for the two channels searched. *)
Lemma aware_dates_leave_nothing_recorded_witness :
  messages (fst (extended_telegram_search Scenario.repeating_client ["@a"; "@c"])) = []
  /\ total_messages
       (statistics (fst (extended_telegram_search Scenario.repeating_client ["@a"; "@c"])))
     = 0.
Proof.
  destruct (aware_dates_leave_nothing_recorded Toy.clock Scenario.repeating_client
              ["@a"; "@c"] "2026-01-01T00:00:00" "telegram_extended_search.json"
              "20260101_000000" "r")
    as (H1 & H2 & _).
  - intros t e offset_id limit msgs [= <-]. repeat constructor.
  - intros t e q msgs [= <-]. repeat constructor.
  - split; [exact H1|exact H2].
Defined.

End RecruitmentProperties.

(** ** Which messages the @Niemci/DE4RU collector takes *)

Module NiemciAdmissionFacts.
Import Tg Niemci TgFacts NiemciFacts.

Section WithRuntime.
Context `{RT : PyRuntime}.

(** *** The date tests on dates with a time zone *)

Lemma window_test_aware (d : datetime) :
  aware d = true ->
  exists b, or_else (lt d SEARCH_START) (gt d SEARCH_END) = Ok b.
Proof.
  intros H. unfold or_else, gt, lt, bind. rewrite H.
  cbn [aware SEARCH_START SEARCH_END Bool.eqb].
  destruct (seconds d <? seconds SEARCH_START); eexists; reflexivity.
Qed.

Lemma window_test_inside (d : datetime) :
  aware d = true ->
  seconds SEARCH_START <= seconds d <= seconds SEARCH_END ->
  or_else (lt d SEARCH_START) (gt d SEARCH_END) = Ok false.
Proof.
  intros H [H1 H2]. unfold or_else, gt, lt, bind. rewrite H.
  cbn [aware SEARCH_START SEARCH_END Bool.eqb].
  rewrite (proj2 (Z.ltb_ge _ _) H1), (proj2 (Z.ltb_ge _ _) H2). reflexivity.
Qed.

Lemma not_before_start (d : datetime) :
  aware d = true -> seconds SEARCH_START <= seconds d ->
  lt d SEARCH_START = Ok false.
Proof.
  intros H H1. unfold lt. rewrite H. cbn [aware SEARCH_START Bool.eqb].
  rewrite (proj2 (Z.ltb_ge _ _) H1). reflexivity.
Qed.

Lemma after_end_aware (d : datetime) :
  aware d = true -> exists b, gt d SEARCH_END = Ok b.
Proof.
  intros H. unfold gt, lt. rewrite H. cbn [aware SEARCH_END Bool.eqb].
  eexists; reflexivity.
Qed.

Lemma not_after_end (d : datetime) :
  aware d = true -> seconds d <= seconds SEARCH_END ->
  gt d SEARCH_END = Ok false.
Proof.
  intros H H1. unfold gt, lt. rewrite H. cbn [aware SEARCH_END Bool.eqb].
  rewrite (proj2 (Z.ltb_ge _ _) H1). reflexivity.
Qed.

(** *** The ids of the result list *)

Lemma message_ids_add (m : MessageData) (sc : Scan) :
  message_ids (channel_data (add_message m sc))
  = message_ids (channel_data sc) ++ [message_id m].
Proof. unfold message_ids, add_message. cbn [channel_data messages]. apply map_app. Qed.

(** An id of the result list stays in it. *)
Lemma query_messages_keeps (ch q : string) (i : Z) (msgs : list Message)
    (sc : Scan) (n : Z) :
  i ∈ message_ids (channel_data sc) ->
  i ∈ message_ids (channel_data (query_messages ch q msgs sc n).1.1).
Proof.
  intros Hi. destruct (query_messages ch q msgs sc n) as [[sc' n'] r] eqn:H.
  cbn [fst].
  apply (query_messages_rule (fun s => i ∈ message_ids (channel_data s)) ch q) in H;
    [exact H| |exact Hi].
  intros s msg body _ _ _ Hs. rewrite message_ids_add. apply elem_of_app. left. exact Hs.
Qed.

Lemma history_messages_keeps (ch : string) (i : Z) (msgs : list Message)
    (sc : Scan) (off n : Z) :
  i ∈ message_ids (channel_data sc) ->
  i ∈ message_ids (channel_data (history_messages ch msgs sc off n).1.1.1).
Proof.
  intros Hi. destruct (history_messages ch msgs sc off n) as [[[sc' off'] n'] r] eqn:H.
  cbn [fst].
  apply (history_messages_rule (fun s => i ∈ message_ids (channel_data s)) ch) in H;
    [exact H| |exact Hi].
  intros s msg body _ _ _ _ Hs. split; [exact Hs|].
  rewrite message_ids_add. apply elem_of_app. left. exact Hs.
Qed.

Lemma history_messages_seen (ch : string) (i : Z) (msgs : list Message)
    (sc : Scan) (off n : Z) :
  i ∈ seen_ids sc -> i ∈ seen_ids (history_messages ch msgs sc off n).1.1.1.
Proof.
  intros Hi. destruct (history_messages ch msgs sc off n) as [[[sc' off'] n'] r] eqn:H.
  cbn [fst].
  apply (history_messages_rule (fun s => i ∈ seen_ids s) ch) in H; [exact H| |exact Hi].
  intros s msg body _ _ _ _ Hs.
  unfold add_message, in_world, mark_seen. cbn [seen_ids].
  split; apply elem_of_union; right; exact Hs.
Qed.

(** In the loop over the queries an id that was seen is in the result
    list. *)
Lemma query_messages_kept (ch q : string) (msgs : list Message) (sc : Scan) (n : Z) :
  (forall i, i ∈ seen_ids sc -> i ∈ message_ids (channel_data sc)) ->
  forall i, i ∈ seen_ids (query_messages ch q msgs sc n).1.1 ->
            i ∈ message_ids (channel_data (query_messages ch q msgs sc n).1.1).
Proof.
  intros HK. destruct (query_messages ch q msgs sc n) as [[sc' n'] r] eqn:H.
  cbn [fst].
  refine (query_messages_rule
            (fun s => forall i, i ∈ seen_ids s -> i ∈ message_ids (channel_data s)) ch q
            _ msgs sc n sc' n' r H HK).
  intros s msg body _ _ _ Hs i. rewrite message_ids_add.
  unfold add_message, in_world, mark_seen. cbn [seen_ids].
  rewrite elem_of_union, elem_of_singleton, elem_of_app. intros [->|Hi].
  - right. apply list_elem_of_singleton. reflexivity.
  - left. apply Hs, Hi.
Qed.

(** A message with a text and a date of the window is in the result
    list after the loop over the answer it came in, when the messages
    before it carry dates with a time zone. *)
Lemma query_messages_admits (ch q : string) (m : Message) (body : string)
    (post : list Message) : forall pre sc n,
  (forall i, i ∈ seen_ids sc -> i ∈ message_ids (channel_data sc)) ->
  Forall (fun x => aware (Tg.date x) = true) pre ->
  text_of m = Some body ->
  aware (Tg.date m) = true ->
  seconds SEARCH_START <= seconds (Tg.date m) <= seconds SEARCH_END ->
  id m ∈ message_ids (channel_data (query_messages ch q (pre ++ m :: post) sc n).1.1).
Proof.
  induction pre as [|x pre IH]; intros sc n HK Hpre Ht Ha Hw; cbn [app query_messages].
  - destruct (decide (id m ∈ seen_ids sc)) as [Hin|Hnew].
    + apply query_messages_keeps, HK, Hin.
    + rewrite Ht, (window_test_inside _ Ha Hw).
      apply query_messages_keeps. rewrite message_ids_add.
      apply elem_of_app. right. apply list_elem_of_singleton. reflexivity.
  - apply Forall_cons in Hpre as [Hx Hpre].
    destruct (decide (id x ∈ seen_ids sc)); [apply IH; assumption|].
    destruct (text_of x) as [xbody|]; [|apply IH; assumption].
    destruct (window_test_aware _ Hx) as [b Hb]. rewrite Hb.
    destruct b; [apply IH; assumption|].
    apply IH; try assumption.
    intros i. rewrite message_ids_add.
    unfold add_message, in_world, mark_seen. cbn [seen_ids].
    rewrite elem_of_union, elem_of_singleton, elem_of_app. intros [->|Hi].
    + right. apply list_elem_of_singleton. reflexivity.
    + left. apply HK, Hi.
Qed.

Lemma query_failed_data (q : string) (e : failure) (sc : Scan) :
  seen_ids (query_failed q e sc) = seen_ids sc
  /\ message_ids (channel_data (query_failed q e sc)) = message_ids (channel_data sc).
Proof. unfold query_failed. destruct (is_flood e); split; reflexivity. Qed.

(** One query. *)
Lemma run_query_data (client : TelegramClient) (entity : Entity) (ch : string)
    (sc : Scan) (q : string) :
  match search_request client (tick (world sc)) entity q with
  | Ok msgs =>
      seen_ids (run_query client entity ch sc q)
      = seen_ids (query_messages ch q msgs (in_world (request (Search ch q)) sc) 0).1.1
      /\ message_ids (channel_data (run_query client entity ch sc q))
         = message_ids
             (channel_data
                (query_messages ch q msgs (in_world (request (Search ch q)) sc) 0).1.1)
  | Raise e =>
      seen_ids (run_query client entity ch sc q) = seen_ids sc
      /\ message_ids (channel_data (run_query client entity ch sc q))
         = message_ids (channel_data sc)
  end.
Proof.
  unfold run_query.
  destruct (search_request client (tick (world sc)) entity q) as [msgs|e].
  - destruct (query_messages ch q msgs (in_world (request (Search ch q)) sc) 0)
      as [[sc1 n1] [e|]]; cbn [fst].
    + apply query_failed_data.
    + split; reflexivity.
  - apply (query_failed_data q e (in_world (request (Search ch q)) sc)).
Qed.

Lemma run_query_kept (client : TelegramClient) (entity : Entity) (ch : string)
    (sc : Scan) (q : string) :
  (forall i, i ∈ seen_ids sc -> i ∈ message_ids (channel_data sc)) ->
  forall i, i ∈ seen_ids (run_query client entity ch sc q) ->
            i ∈ message_ids (channel_data (run_query client entity ch sc q)).
Proof.
  intros HK i. pose proof (run_query_data client entity ch sc q) as H.
  destruct (search_request client (tick (world sc)) entity q) as [msgs|e];
    destruct H as [-> ->].
  - apply query_messages_kept. exact HK.
  - apply HK.
Qed.

Lemma run_query_keeps (client : TelegramClient) (entity : Entity) (ch : string)
    (sc : Scan) (q : string) (i : Z) :
  i ∈ message_ids (channel_data sc) ->
  i ∈ message_ids (channel_data (run_query client entity ch sc q)).
Proof.
  intros Hi. pose proof (run_query_data client entity ch sc q) as H.
  destruct (search_request client (tick (world sc)) entity q) as [msgs|e];
    destruct H as [_ ->].
  - apply query_messages_keeps. exact Hi.
  - exact Hi.
Qed.

Lemma run_queries_kept (client : TelegramClient) (entity : Entity) (ch : string)
    (queries : list string) : forall sc,
  (forall i, i ∈ seen_ids sc -> i ∈ message_ids (channel_data sc)) ->
  forall i, i ∈ seen_ids (fold_left (run_query client entity ch) queries sc) ->
            i ∈ message_ids (channel_data (fold_left (run_query client entity ch) queries sc)).
Proof.
  induction queries as [|q rest IH]; intros sc HK; cbn [fold_left]; [exact HK|].
  apply IH, run_query_kept, HK.
Qed.

Lemma run_queries_keeps (client : TelegramClient) (entity : Entity) (ch : string)
    (i : Z) (queries : list string) : forall sc,
  i ∈ message_ids (channel_data sc) ->
  i ∈ message_ids (channel_data (fold_left (run_query client entity ch) queries sc)).
Proof.
  induction queries as [|q rest IH]; intros sc Hi; cbn [fold_left]; [exact Hi|].
  apply IH, run_query_keeps, Hi.
Qed.

(** The loop over the queries: what the search for the [k]-th query
    delivers with a text and a date of the window is in the result
    list. *)
Lemma run_queries_admit (client : TelegramClient) (entity : Entity) (ch : string)
    (queries : list string) : forall sc,
  (forall i, i ∈ seen_ids sc -> i ∈ message_ids (channel_data sc)) ->
  forall k q pre m post body,
    queries !! k = Some q ->
    search_request client (tick (world sc) + k) entity q = Ok (pre ++ m :: post) ->
    Forall (fun x => aware (Tg.date x) = true) pre ->
    text_of m = Some body ->
    aware (Tg.date m) = true ->
    seconds SEARCH_START <= seconds (Tg.date m) <= seconds SEARCH_END ->
    id m ∈ message_ids (channel_data (fold_left (run_query client entity ch) queries sc)).
Proof.
  induction queries as [|q0 rest IH]; intros sc HK k q pre m post body Hk Hq Hpre Ht Ha Hw.
  - rewrite lookup_nil in Hk. discriminate.
  - cbn [fold_left]. destruct k as [|k].
    + cbn in Hk. injection Hk as ->. rewrite Nat.add_0_r in Hq.
      apply run_queries_keeps.
      pose proof (run_query_data client entity ch sc q) as H. rewrite Hq in H.
      destruct H as [_ ->].
      apply (query_messages_admits ch q m body post pre); try assumption.
    + cbn in Hk.
      apply (IH (run_query client entity ch sc q0) (run_query_kept _ _ _ _ _ HK)
               k q pre m post body Hk); try assumption.
      destruct (run_query_effect client entity ch sc q0) as [-> _].
      replace (S (tick (world sc)) + k)%nat with (tick (world sc) + S k)%nat by lia.
      exact Hq.
Qed.

(** *** The history page *)

(** The first occurrence, in a history page, of a message with a text
    and a date of the window is classified, and appended when it is
    relevant, when no message before it in the page is dated before the
    window or carries a date without a time zone. *)
Lemma history_messages_admits (ch : string) (m : Message) (body : string)
    (post : list Message) : forall pre sc off n,
  (id m ∈ seen_ids sc -> id m ∈ message_ids (channel_data sc)) ->
  Forall (fun x => aware (Tg.date x) = true
                   /\ seconds SEARCH_START <= seconds (Tg.date x)) pre ->
  id m ∉ map id pre ->
  text_of m = Some body ->
  aware (Tg.date m) = true ->
  seconds SEARCH_START <= seconds (Tg.date m) <= seconds SEARCH_END ->
  id m ∈ seen_ids (history_messages ch (pre ++ m :: post) sc off n).1.1.1
  /\ ((0 <? red_flag_score (classify_message body))
      || PyStr.any_in history_keywords (lower body) = true ->
      id m ∈ message_ids
               (channel_data (history_messages ch (pre ++ m :: post) sc off n).1.1.1)).
Proof.
  induction pre as [|x pre IH]; intros sc off n HK Hpre Hfirst Ht Ha Hw;
    cbn [app history_messages].
  - destruct (decide (id m ∈ seen_ids sc)) as [Hin|Hnew].
    + split; [apply history_messages_seen, Hin|].
      intros _. apply history_messages_keeps, HK, Hin.
    + rewrite Ht, (not_before_start _ Ha (proj1 Hw)), (not_after_end _ Ha (proj2 Hw)).
      cbv zeta.
      destruct ((0 <? red_flag_score (classify_message body))
                || PyStr.any_in history_keywords (lower body)) eqn:Hrel.
      * split.
        { apply history_messages_seen. unfold add_message, in_world, mark_seen.
          cbn [seen_ids]. apply elem_of_union. left. apply elem_of_singleton.
          reflexivity. }
        intros _. apply history_messages_keeps. rewrite message_ids_add.
        apply elem_of_app. right. apply list_elem_of_singleton. reflexivity.
      * split; [|discriminate].
        apply history_messages_seen. unfold in_world, mark_seen.
        cbn [seen_ids]. apply elem_of_union. left. apply elem_of_singleton.
        reflexivity.
  - apply Forall_cons in Hpre as [[Hxa Hxs] Hpre].
    cbn [map] in Hfirst. apply not_elem_of_cons in Hfirst as [Hne Hfirst].
    destruct (decide (id x ∈ seen_ids sc)); [apply IH; assumption|].
    destruct (text_of x) as [xbody|]; [|apply IH; assumption].
    rewrite (not_before_start _ Hxa Hxs).
    destruct (after_end_aware _ Hxa) as [b Hb]. rewrite Hb.
    destruct b; [apply IH; assumption|].
    cbv zeta.
    destruct ((0 <? red_flag_score (classify_message xbody))
              || PyStr.any_in history_keywords (lower xbody)).
    + apply IH; try assumption.
      rewrite message_ids_add. unfold add_message, in_world, mark_seen.
      cbn [seen_ids]. rewrite elem_of_union, elem_of_singleton, elem_of_app.
      intros [Heq|Hi]; [contradiction|]. left. apply HK, Hi.
    + apply IH; try assumption.
      unfold in_world, mark_seen. cbn [seen_ids channel_data].
      rewrite elem_of_union, elem_of_singleton.
      intros [Heq|Hi]; [contradiction|]. apply HK, Hi.
Qed.

(** The history scan leaves the scan as the loop over its one page
    left it, but for the world and the errors. *)
Lemma history_scan_page (fuel : nat) (client : TelegramClient) (entity : Entity)
    (ch : string) (sc : Scan) (msgs : list Message) :
  get_history_request client (tick (world sc)) entity 0 100 = Ok msgs ->
  msgs <> [] ->
  exists sch,
    history_scan (S fuel) client entity ch sc = Some sch
    /\ seen_ids sch
       = seen_ids
           (history_messages ch msgs (in_world (request (History ch 0)) sc) 0 0).1.1.1
    /\ message_ids (channel_data sch)
       = message_ids
           (channel_data
              (history_messages ch msgs (in_world (request (History ch 0)) sc) 0 0).1.1.1).
Proof.
  intros Hpage Hne. unfold history_scan. cbn [history_loop]. rewrite Hpage.
  destruct msgs as [|m0 msgs]; [contradiction|].
  destruct (history_messages ch (m0 :: msgs) (in_world (request (History ch 0)) sc) 0 0)
    as [[[sc1 off1] n1] r1] eqn:Hm. cbn [fst].
  apply history_messages_effect in Hm. destruct Hm as (_ & _ & Ho).
  assert (off1 = 0) as -> by (destruct Ho; assumption).
  destruct r1 as [e|].
  - eexists. split; [reflexivity|]. split; reflexivity.
  - change (0 =? 0) with true. cbn iota.
    eexists. split; [reflexivity|]. split; reflexivity.
Qed.

(** *** A call on a channel that resolves *)

Lemma search_channel_admission (fuel : nat) (client : TelegramClient) (ch : string)
    (queries : list string) (results : Run) (entity : Entity) :
  get_entity client (tick (run_world results)) ch = Ok entity ->
  exists d added,
    search_channel (S fuel) client ch queries results
    = Some (mkRun (<[ch := d]> (channels results))
              (mkWorld (S (S (tick (run_world results)) + length queries))
                 (log (run_world results) ++ Resolve ch :: added)))
    /\ NoDup (classified ch added)
    /\ sublist (message_ids d) (classified ch added)
    /\ (forall k q pre m post body,
          queries !! k = Some q ->
          search_request client (S (tick (run_world results)) + k) entity q
          = Ok (pre ++ m :: post) ->
          Forall (fun x => aware (Tg.date x) = true) pre ->
          text_of m = Some body ->
          aware (Tg.date m) = true ->
          seconds SEARCH_START <= seconds (Tg.date m) <= seconds SEARCH_END ->
          id m ∈ message_ids d)
    /\ (forall pre m post body,
          get_history_request client (S (tick (run_world results)) + length queries)
            entity 0 100 = Ok (pre ++ m :: post) ->
          Forall (fun x => aware (Tg.date x) = true
                           /\ seconds SEARCH_START <= seconds (Tg.date x)) pre ->
          id m ∉ map id pre ->
          text_of m = Some body ->
          aware (Tg.date m) = true ->
          seconds SEARCH_START <= seconds (Tg.date m) <= seconds SEARCH_END ->
          id m ∈ classified ch added
          /\ ((0 <? red_flag_score (classify_message body))
              || PyStr.any_in history_keywords (lower body) = true ->
              id m ∈ message_ids d)).
Proof.
  intros Hres. unfold search_channel. rewrite Hres.
  set (w := request (Resolve ch) (run_world results)).
  set (d0 := mkChannelData ch "accessible" 0 [] [] _ _ _).
  set (already := classified ch (log w)).
  assert (Hinit : scan_inv ch already (mkScan d0 ∅ w)).
  { split; [|split; [constructor|split; reflexivity]].
    exists []. cbn [world seen_ids channel_data].
    rewrite app_nil_r. split; [reflexivity|]. split; [constructor|].
    split; [|constructor]. intros i. split; intros Hi; [|inversion Hi].
    apply not_elem_of_empty in Hi. contradiction. }
  assert (HK0 : forall i, i ∈ seen_ids (mkScan d0 ∅ w)
                          -> i ∈ message_ids (channel_data (mkScan d0 ∅ w))).
  { intros i Hi. cbn [seen_ids] in Hi. apply not_elem_of_empty in Hi. contradiction. }
  pose proof (run_queries_inv client entity ch already queries _ Hinit) as Hq.
  pose proof (run_queries_kept client entity ch queries _ HK0) as HKq.
  pose proof (run_queries_admit client entity ch queries _ HK0) as Hadmit.
  destruct (run_queries_effect client entity ch queries (mkScan d0 ∅ w))
    as [Htq (addq & Hlq & Hsq)].
  change (tick (world (mkScan d0 ∅ w))) with (S (tick (run_world results)))
    in Htq, Hadmit.
  revert Hq HKq Hadmit Htq Hlq.
  generalize (fold_left (run_query client entity ch) queries (mkScan d0 ∅ w)).
  intros scq Hq HKq Hadmit Htq Hlq.
  destruct (history_scan_round fuel client entity ch already scq Hq)
    as (sch & addh & Hscan & Hh & Hth & Hlh & Hsh).
  rewrite Hscan.
  exists (finish sch), (addq ++ addh).
  assert (Hlog : log (world sch) = log (run_world results) ++ Resolve ch :: addq ++ addh).
  { rewrite Hlh, Hlq. cbn [world]. unfold w, request. cbn [log].
    rewrite <- !app_assoc. reflexivity. }
  assert (Htick : tick (world sch) = S (S (tick (run_world results)) + length queries)).
  { rewrite Hth, Htq. lia. }
  assert (Hw : world sch = mkWorld (S (S (tick (run_world results)) + length queries))
                             (log (run_world results) ++ Resolve ch :: addq ++ addh)).
  { destruct (world sch) as [t l]. cbn [tick log] in Htick, Hlog. subst. reflexivity. }
  rewrite Hw. split; [reflexivity|].
  destruct Hh as [(new & Hc & Hnd & Hseen & Hsub) (Hwin & Hch & Hst)].
  assert (Hnew : classified ch (addq ++ addh) = new).
  { assert (Hlog' : log (world sch) = log w ++ (addq ++ addh)).
    { rewrite Hlh, Hlq. cbn [world]. rewrite <- app_assoc. reflexivity. }
    rewrite Hlog', classified_app in Hc. unfold already in Hc.
    apply app_inv_head in Hc. exact Hc. }
  rewrite Hnew.
  change (message_ids (finish sch)) with (message_ids (channel_data sch)).
  split; [exact Hnd|]. split; [exact Hsub|].
  assert (Hgrow : forall i, i ∈ message_ids (channel_data scq)
                            -> i ∈ message_ids (channel_data sch)).
  { intros i Hi. unfold history_scan in Hscan. cbn [history_loop] in Hscan.
    destruct (get_history_request client (tick (world scq)) entity 0 100)
      as [[|m0 msgs]|e] eqn:Hpage.
    - injection Hscan as <-. exact Hi.
    - destruct (history_scan_page fuel client entity ch scq (m0 :: msgs) Hpage
                  ltac:(discriminate)) as (sch' & Hscan' & _ & Hids).
      unfold history_scan in Hscan'. cbn [history_loop] in Hscan'.
      rewrite Hpage in Hscan'. rewrite Hscan' in Hscan. injection Hscan as <-.
      rewrite Hids. apply history_messages_keeps. exact Hi.
    - injection Hscan as <-. exact Hi. }
  split.
  - intros k q pre m post body Hk Hsearch Hpre Ht Ha Hwd.
    apply Hgrow. apply (Hadmit k q pre m post body); assumption.
  - intros pre m post body Hpage Hpre Hfirst Ht Ha Hwd.
    rewrite <- Htq in Hpage.
    destruct (history_scan_page fuel client entity ch scq (pre ++ m :: post) Hpage)
      as (sch' & Hscan' & Hs' & Hids').
    { destruct pre; discriminate. }
    rewrite Hscan' in Hscan. injection Hscan as ->.
    destruct (history_messages_admits ch m body post pre
                (in_world (request (History ch 0)) scq) 0 0)
      as [Hcl Happ]; try assumption.
    { intros Hi. apply HKq, Hi. }
    split.
    + apply Hseen. rewrite Hs'. exact Hcl.
    + intros Hrel. rewrite Hids'. apply Happ, Hrel.
Qed.

End WithRuntime.
End NiemciAdmissionFacts.

(** * The claim about the deduplication of the collectors *)

Module AdmissionClaims.
Import Tg TgFacts.

(** C3, as the code has it.  Within one call on a channel a message id
    is classified at most once and appended to the result list at most
    once: an occurrence whose id was taken before is skipped before the
    classifier is called.  A first occurrence is taken when it passes
    the other tests of the loop.  In the phone collector the ids
    appended are exactly the ids classified, and every message with a
    non-empty text that any search delivers is in the result list.  In
    the @Niemci/DE4RU collector the ids appended are among the ids
    classified, in the same order, and
    - every message with a non-empty text and a date of the window that
      a search delivers is in the result list, as long as the messages
      before it in that answer carry dates with a time zone (the
      comparison with a date without one raises, and the rest of the
      answer is dropped);
    - the first occurrence, in the history page, of a message with a
      non-empty text and a date of the window is classified, and it is
      in the result list when it is relevant, as long as no message
      before it in the page is dated before the window (the stop
      signal) or carries a date without a time zone. *)
Theorem dedup_at_most_once `{RT : PyRuntime} `{SO : SetOrder}
    (client : TelegramClient) (ch : string) (entity : Entity) :
  (forall results,
      get_entity client (tick (Phones.run_world results)) ch = Ok entity ->
      exists d added,
        Phones.search_channel_phones client ch results
        = Phones.mkRun (<[ch := d]> (Phones.channels results))
            (mkWorld (S (tick (Phones.run_world results)) + length Phones.ALL_QUERIES)
               (log (Phones.run_world results) ++ Resolve ch :: added))
        /\ NoDup (Phones.message_ids d)
        /\ classified ch added = Phones.message_ids d
        /\ (forall k q msgs m,
              Phones.ALL_QUERIES !! k = Some q ->
              search_request client (S (tick (Phones.run_world results)) + k) entity q
              = Ok msgs ->
              m ∈ msgs -> is_Some (text_of m) -> id m ∈ Phones.message_ids d))
  /\ (forall fuel queries results,
        get_entity client (tick (Niemci.run_world results)) ch = Ok entity ->
        exists d added,
          Niemci.search_channel (S fuel) client ch queries results
          = Some (Niemci.mkRun (<[ch := d]> (Niemci.channels results))
                    (mkWorld (S (S (tick (Niemci.run_world results)) + length queries))
                       (log (Niemci.run_world results) ++ Resolve ch :: added)))
          /\ NoDup (classified ch added)
          /\ sublist (Niemci.message_ids d) (classified ch added)
          /\ NoDup (Niemci.message_ids d)
          /\ (forall k q pre m post body,
                queries !! k = Some q ->
                search_request client (S (tick (Niemci.run_world results)) + k) entity q
                = Ok (pre ++ m :: post) ->
                Forall (fun x => aware (Tg.date x) = true) pre ->
                text_of m = Some body ->
                aware (Tg.date m) = true ->
                seconds Niemci.SEARCH_START <= seconds (Tg.date m)
                  <= seconds Niemci.SEARCH_END ->
                id m ∈ Niemci.message_ids d)
          /\ (forall pre m post body,
                get_history_request client
                  (S (tick (Niemci.run_world results)) + length queries) entity 0 100
                = Ok (pre ++ m :: post) ->
                Forall (fun x => aware (Tg.date x) = true
                                 /\ seconds Niemci.SEARCH_START <= seconds (Tg.date x))
                  pre ->
                id m ∉ map id pre ->
                text_of m = Some body ->
                aware (Tg.date m) = true ->
                seconds Niemci.SEARCH_START <= seconds (Tg.date m)
                  <= seconds Niemci.SEARCH_END ->
                id m ∈ classified ch added
                /\ ((0 <? Niemci.red_flag_score (Niemci.classify_message body))
                    || PyStr.any_in Niemci.history_keywords (lower body) = true ->
                    id m ∈ Niemci.message_ids d))).
Proof.
  split.
  - intros results Hres.
    destruct (PhonesFacts.search_channel_phones_accessible client ch results entity Hres)
      as (d & added & Heq & _ & _ & _ & _ & Hnd & Hcl & Hall).
    exists d, added. repeat split; assumption.
  - intros fuel queries results Hres.
    destruct (NiemciAdmissionFacts.search_channel_admission fuel client ch queries results
                entity Hres)
      as (d & added & Heq & Hnd & Hsub & Hquery & Hhistory).
    exists d, added. split; [exact Heq|]. split; [exact Hnd|]. split; [exact Hsub|].
    split; [eapply sublist_NoDup; eassumption|].
    split; [exact Hquery|exact Hhistory].
Qed.

(** Two searches of the @Niemci/DE4RU collector deliver the post 41,
    with a text and a date of the window, and a media-only post: the
    post 41 is in the result list, once. *)
Lemma dedup_at_most_once_witness :
  exists d added,
    Niemci.search_channel 1 Scenario.repeating_client "@c" ["q1"; "q2"] Scenario.fresh_run
    = Some (Niemci.mkRun (<[ "@c" := d]> ∅)
              (mkWorld 4 ([] ++ Resolve "@c" :: added)))
    /\ NoDup (Niemci.message_ids d)
    /\ 41 ∈ Niemci.message_ids d.
Proof.
  destruct (proj2 (dedup_at_most_once (SO := Scenario.first_order)
                     Scenario.repeating_client "@c" Scenario.entity)
              0%nat ["q1"; "q2"] Scenario.fresh_run eq_refl)
    as (d & added & Heq & _ & _ & Hnd & Hquery & _).
  exists d, added. split; [exact Heq|]. split; [exact Hnd|].
  apply (Hquery 1%nat "q2" [] (Scenario.post 41 "Bauhelfer Berlin gesucht")
           [Scenario.media_only 7] "Bauhelfer Berlin gesucht" eq_refl eq_refl);
    [constructor|reflexivity|reflexivity|].
  cbn [Tg.date Scenario.post seconds Niemci.SEARCH_START Niemci.SEARCH_END]. lia.
Defined.

(** C3 as stated fails: every search of the phone collector delivers the
    media-only post 7, and its first occurrence, like all the later
    ones, is neither classified nor appended. *)
Lemma first_occurrence_not_kept :
  search_request Scenario.media_client 1 Scenario.entity "+49 30 88475588"
  = Ok [Scenario.media_only 7]
  /\ Phones.message_ids
       <$> (Phones.channels
              (Phones.search_channel_phones (SO := Scenario.first_order)
                 Scenario.media_client "@c" Scenario.fresh_phone_run) !! "@c")
     = Some []
  /\ classified "@c"
       (log (Phones.run_world
               (Phones.search_channel_phones (SO := Scenario.first_order)
                  Scenario.media_client "@c" Scenario.fresh_phone_run)))
     = [].
Proof. repeat split; vm_compute; reflexivity. Qed.

End AdmissionClaims.

(** ** The classifiers as the collectors call them *)

Module ClassifierRunFacts.
Import Tg.



(** *** The @Niemci/DE4RU collector *)

Section NiemciRuns.
Import Niemci NiemciFacts.
Context `{RT : PyRuntime}.








End NiemciRuns.

(** *** The phone-number collector *)

Section PhonesRuns.
Import Phones.
Context `{RT : PyRuntime} `{SO : SetOrder}.






End PhonesRuns.

End ClassifierRunFacts.

(** * The claim about the determinism of the classifiers *)

Module DeterminismClaims.
Import Tg ClassifierRunFacts.




End DeterminismClaims.
